(** * WorkShift client: a shallow embedding of the attendance views

    The development follows the four source files of the React client:
    [App.js], [pages/AuthPage.js], [pages/EmployeeDashboard.js] and
    [pages/EmployerDashboard.js].  JavaScript values are embedded with
    their dynamic typing ([jsval]), so that truthiness, [&&], [||], [!],
    strict equality, template literals and property lookup behave as in
    the source.  Host functionality that is not code of the repository
    (number printing outside the safe integers, calls of built-in
    functions, upper-casing beyond ASCII, [new Date], date-fns, JSON) is
    collected in the class [Host]. *)

From Stdlib Require Import ZArith QArith Ascii String.
From stdpp Require Import base strings gmap list pretty.

Open Scope Z_scope.

(** ** JavaScript values *)

Module JS.

#[warnings="-register-all"]
Inductive jsval : Type :=
| JUndefined
| JNull
| JBool (b : bool)
| JNum (q : Q)                            (* a finite Number *)
| JNaN
| JStr (s : string)
| JObj (props : list (string * jsval))    (* an object literal / JSON object *)
| JBuiltin (name : string) (callable : bool).
    (* a built-in function ([callable]) or object of [Object.prototype],
       as a property lookup that reaches the prototype returns it; the
       data of a response holds none *)

(** ToBoolean.  [0], [NaN], the empty string, [null] and [undefined]
    are falsy (and [false]); everything else is truthy. *)
Definition truthy (v : jsval) : bool :=
  match v with
  | JUndefined | JNull | JNaN => false
  | JBool b => b
  | JNum q => negb (Qnum q =? 0)
  | JStr s => negb (String.eqb s "")
  | JObj _ | JBuiltin _ _ => true
  end.

(** [a && b], [a || b] and [!a] on already evaluated operands (all
    operands in the sources are free of side effects). *)
Definition js_and (a b : jsval) : jsval := if truthy a then b else a.
Definition js_or (a b : jsval) : jsval := if truthy a then a else b.
Definition js_not (a : jsval) : jsval := JBool (negb (truthy a)).

(** [v === 'literal']. *)
Definition strict_eq_str (v : jsval) (lit : string) : bool :=
  match v with
  | JStr s => String.eqb s lit
  | _ => false
  end.

(** Thrown values. *)
Inductive exn : Type :=
| TypeError
| RangeError
| SyntaxError
| ReactError.      (* "Objects are not valid as a React child" *)

Inductive result (A : Type) : Type :=
| Ok (a : A)
| Throw (e : exn).
Arguments Ok {A} a.
Arguments Throw {A} e.

Definition bind {A B} (m : result A) (k : A → result B) : result B :=
  match m with
  | Ok a => k a
  | Throw e => Throw e
  end.

#[global] Instance result_ret : MRet result := λ A, Ok.
#[global] Instance result_bind : MBind result := λ A B k m, bind m k.

Definition throws {A} (m : result A) : bool :=
  match m with
  | Ok _ => false
  | Throw _ => true
  end.

(** The properties every object literal inherits from
    [Object.prototype] (ECMA-262, 20.1.3 and B.2.2). *)
Definition Object_prototype : gmap string jsval :=
  list_to_map
    [ ("constructor", JBuiltin "Object" true);
      ("hasOwnProperty", JBuiltin "hasOwnProperty" true);
      ("isPrototypeOf", JBuiltin "isPrototypeOf" true);
      ("propertyIsEnumerable", JBuiltin "propertyIsEnumerable" true);
      ("toLocaleString", JBuiltin "toLocaleString" true);
      ("toString", JBuiltin "toString" true);
      ("valueOf", JBuiltin "valueOf" true);
      ("__proto__", JBuiltin "Object.prototype" false);
      ("__defineGetter__", JBuiltin "__defineGetter__" true);
      ("__defineSetter__", JBuiltin "__defineSetter__" true);
      ("__lookupGetter__", JBuiltin "__lookupGetter__" true);
      ("__lookupSetter__", JBuiltin "__lookupSetter__" true) ].

(** [o[key]] for an object literal with the given own properties: own
    property first, then the prototype, else [undefined]. *)
Definition lookup_property (own : gmap string jsval) (key : string) : jsval :=
  match own !! key with
  | Some v => v
  | None => default JUndefined (Object_prototype !! key)
  end.

(** [v.key].  Reading a property of [undefined] or [null] throws.  Of
    the keys the sources read ([name], [role], [detail], [token], [user],
    [work_hours], [access_token], [class], [label]) a primitive has none,
    and a built-in function has its [name].  An object lists each of its
    own keys once. *)
Definition get_prop (v : jsval) (key : string) : result jsval :=
  match v with
  | JUndefined | JNull => Throw TypeError
  | JObj props => Ok (lookup_property (list_to_map props) key)
  | JBuiltin name true => Ok (if String.eqb key "name" then JStr name else JUndefined)
  | _ => Ok JUndefined
  end.

(** [v?.key]. *)
Definition get_prop_opt (v : jsval) (key : string) : jsval :=
  match v with
  | JObj props => lookup_property (list_to_map props) key
  | _ => JUndefined
  end.

(** [String.prototype.replace] with a string pattern: the first
    occurrence only. *)
Fixpoint replace_first (pat by_ s : string) : string :=
  if String.prefix pat s
  then by_ +:+ String.substring (String.length pat)
                 (String.length s - String.length pat) s
  else match s with
       | EmptyString => EmptyString
       | String c s' => String c (replace_first pat by_ s')
       end.

Definition upper_ascii (c : ascii) : ascii :=
  let n := nat_of_ascii c in
  if ((97 <=? n) && (n <=? 122))%nat then ascii_of_nat (n - 32) else c.

Definition lower_ascii (c : ascii) : ascii :=
  let n := nat_of_ascii c in
  if ((65 <=? n) && (n <=? 90))%nat then ascii_of_nat (n + 32) else c.

Fixpoint map_string (f : ascii → ascii) (s : string) : string :=
  match s with
  | EmptyString => EmptyString
  | String c s' => String (f c) (map_string f s')
  end.

(** The text has ASCII characters only. *)
Fixpoint is_ascii (s : string) : bool :=
  match s with
  | EmptyString => true
  | String c s' => (nat_of_ascii c <? 128)%nat && is_ascii s'
  end.

(** An object in the sense of ECMA-262: not a primitive value. *)
Definition is_object (v : jsval) : bool :=
  match v with
  | JObj _ | JBuiltin _ _ => true
  | _ => false
  end.

End JS.
Export JS.

(** ** The host environment

    Built-ins of the browser and of the imported libraries that the
    sources call and that are not code of this repository. *)

Class Host : Type := {
  (** Number::toString on a Number that is not a safe integer (a
      fraction, or an integer of magnitude 2^53 or more, which prints
      with its shortest digits and from 10^21 on in exponent notation). *)
  Number_toString : Q → string;
  (** The value a built-in function other than [Object.prototype]'s
      [toString] and [valueOf] returns when it is called on [this]
      without arguments; [None] when the call throws. *)
  built_in_call : string → jsval → option jsval;
  (** [String.prototype.toUpperCase] on a text that is not ASCII only. *)
  String_toUpperCase : string → string;
  (** The time value (milliseconds since the epoch) of [new Date(p)]
      for a primitive [p]; [None] is the time value [NaN] of an invalid
      date. *)
  Date_value : jsval → option Z;
  (** date-fns: [format(parseISO(v), pattern)], which throws on an
      invalid date. *)
  format_parseISO : jsval → string → result string;
  (** [JSON.stringify]; [None] is the result [undefined]. *)
  JSON_stringify : jsval → option string;
  (** [JSON.parse], which throws a [SyntaxError] on malformed text. *)
  JSON_parse : string → result jsval
}.

Section ToString.
Context `{Host}.

(** [String.prototype.toUpperCase]: on an ASCII text the letters [a] to
    [z] are replaced. *)
Definition toUpperCase (s : string) : string :=
  if is_ascii s then map_string upper_ascii s else String_toUpperCase s.

(** Number::toString.  A safe integer prints as its decimal digits. *)
Definition number_to_string (q : Q) : string :=
  if (Z.rem (Qnum q) (Zpos (Qden q)) =? 0)
     && (Z.abs (Qnum q / Zpos (Qden q)) <? 2 ^ 53)
  then pretty (Qnum q / Zpos (Qden q))
  else Number_toString q.

(** Calling a built-in function on [this] without arguments:
    [Object.prototype.toString] and [Object.prototype.valueOf] on an
    object literal, the others through the host. *)
Definition call_builtin (name : string) (this : jsval) : result jsval :=
  if String.eqb name "toString" then Ok (JStr "[object Object]")
  else if String.eqb name "valueOf" then Ok this
  else match built_in_call name this with
       | Some v => Ok v
       | None => Throw TypeError
       end.

(** ToPrimitive (ECMA-262, 7.1.1).  For an object literal this is
    OrdinaryToPrimitive: the two methods [toString] and [valueOf], own
    or inherited, are tried in the order of the hint; one that is not
    callable is skipped, as is one that returns an object; when neither
    yields a primitive value a [TypeError] is thrown.  So an object that
    keeps the inherited [toString] becomes "[object Object]", and one
    that has a number or a string under the key [toString] throws.  A
    built-in function prints its source. *)
Definition to_primitive (first second : string) (v : jsval) : result jsval :=
  match v with
  | JObj props =>
      let attempt (method : jsval) (otherwise : result jsval) : result jsval :=
        match method with
        | JBuiltin f true =>
            r ← call_builtin f v;
            if is_object r then otherwise else Ok r
        | _ => otherwise
        end in
      attempt (lookup_property (list_to_map props) first)
        (attempt (lookup_property (list_to_map props) second)
           (Throw TypeError))
  | JBuiltin name true => Ok (JStr ("function " +:+ name +:+ "() { [native code] }"))
  | JBuiltin _ false => Ok (JStr "[object Object]")
  | _ => Ok v
  end.

(** ToString of a primitive value. *)
Definition primitive_to_string (p : jsval) : result string :=
  match p with
  | JUndefined => Ok "undefined"
  | JNull => Ok "null"
  | JBool true => Ok "true"
  | JBool false => Ok "false"
  | JNum q => Ok (number_to_string q)
  | JNaN => Ok "NaN"
  | JStr s => Ok s
  | JObj _ | JBuiltin _ _ => Throw TypeError   (* no primitive value *)
  end.

(** ToString, as applied by template literals, property keys and
    [localStorage.setItem]: the hint is string. *)
Definition to_string (v : jsval) : result string :=
  p ← to_primitive "toString" "valueOf" v;
  primitive_to_string p.

(** ['' + v], as React applies it to the [key] of an element: the hint
    is default, which tries [valueOf] first. *)
Definition concat_string (v : jsval) : result string :=
  p ← to_primitive "valueOf" "toString" v;
  primitive_to_string p.

(** The time value of [new Date(v)]: the value is first turned into a
    primitive, with the default hint. *)
Definition new_Date (v : jsval) : result (option Z) :=
  p ← to_primitive "valueOf" "toString" v;
  mret (Date_value p).

(** A value placed as a JSX child: strings and numbers are rendered,
    [undefined], [null], booleans and functions render nothing, a plain
    object is refused by React.  React looks at the children when it
    renders the element that the component has returned, after the
    expressions of the [return] have been evaluated. *)
Definition jsx_child (v : jsval) : result string :=
  match v with
  | JStr s => Ok s
  | JNum q => Ok (number_to_string q)
  | JNaN => Ok "NaN"
  | JUndefined | JNull | JBool _ => Ok ""
  | JBuiltin _ true => Ok ""
  | JObj _ | JBuiltin _ false => Throw ReactError
  end.

End ToString.

(** ** Data consumed from the server (spec section 3)

    A record is a JSON object; every field is a dynamically typed
    value, and a field that is missing reads as [undefined]. *)

Record AttendanceRecord : Type := {
  attendance_id : jsval;
  date : jsval;
  user_name : jsval;
  user_email : jsval;
  punch_in : jsval;
  punch_out : jsval;
  break_start : jsval;
  break_end : jsval;
  total_hours : jsval;
  break_duration : jsval;
  status : jsval;
  is_weekend : jsval;
  is_complete : jsval
}.

(** The body of [GET /attendance/today-status]. *)
Record TodayStatus : Type := {
  attendance : option AttendanceRecord   (* [None] is [null] *)
}.

(** [a?.f] on a record that may be [null] or [undefined]. *)
Definition field (f : AttendanceRecord → jsval) (a : option AttendanceRecord) : jsval :=
  match a with
  | Some r => f r
  | None => JUndefined
  end.

(** The error an axios call rejects with: [error.response] is missing
    when no response arrived, [response.data] may be empty, and the
    server puts its message under [detail]. *)
Record http_response : Type := {
  data : jsval
}.

Record axios_error : Type := {
  response : option http_response
}.

Inductive reply (A : Type) : Type :=
| Fulfilled (body : A)
| Rejected (error : axios_error).
Arguments Fulfilled {A} body.
Arguments Rejected {A} error.

(** [error.response?.data?.detail]. *)
Definition error_detail (error : axios_error) : jsval :=
  match response error with
  | Some r => get_prop_opt (data r) "detail"
  | None => JUndefined
  end.

(** What a handler does to the outside world, in program order. *)
Inductive effect : Type :=
| HttpGet (path : string)
| HttpPost (path : string)
| ToastSuccess (message : string)
| ToastError (message : jsval)
| SetActionLoading (flag : bool)        (* setActionLoading of the employee view *)
| SetItem (key value : string)          (* localStorage.setItem *)
| OnLogin (token user : jsval).         (* the [onLogin] callback of AuthPage *)

Definition is_request (e : effect) : bool :=
  match e with
  | HttpGet _ | HttpPost _ => true
  | _ => false
  end.

(** The four commands of the employee view. *)
Inductive command : Type :=
| PunchIn
| PunchOut
| StartBreak
| EndBreak.

#[global] Instance command_eq_dec : EqDecision command.
Proof. solve_decision. Defined.

(** A conditionally rendered element, [{cond && <panel/>}]: the panel
    when [cond] is truthy, otherwise React is handed the falsy value. *)
Inductive guarded (A : Type) : Type :=
| Shown (panel : A)
| Skipped (falsy : jsval).
Arguments Shown {A} panel.
Arguments Skipped {A} falsy.

Definition guard {A} (cond : jsval) (panel : result A) : result (guarded A) :=
  if truthy cond then shown ← panel; mret (Shown shown) else Ok (Skipped cond).

(** The cell [{v ? `${v}h` : '-'}] of the hours and break columns
    (EmployeeDashboard.js lines 265, 271, 321, 324 and
    EmployerDashboard.js lines 222, 227). *)
Definition hours_cell `{Host} (v : jsval) : result string :=
  if truthy v then text ← to_string v; mret (text +:+ "h") else Ok "-".

(** The cell [{v ? format(parseISO(v), 'hh:mm a') : '-'}] of the punch
    columns (EmployeeDashboard.js lines 253, 259, 315, 318 and
    EmployerDashboard.js lines 215, 218). *)
Definition time_cell `{Host} (v : jsval) : result string :=
  if truthy v then format_parseISO v "hh:mm a" else Ok "-".

(** The [key] of a table row, [key={record.attendance_id}]: when React
    creates the element it turns a key that is not [undefined] into a
    string. *)
Definition row_key `{Host} (v : jsval) : result (option string) :=
  match v with
  | JUndefined => Ok None
  | _ => text ← concat_string v; mret (Some text)
  end.

(** [status.replace('_', ' ')]: a method call on the status value.  Only
    a string has the method; on [undefined] and [null] the property
    access throws, on every other value of the data the call of
    [undefined] does. *)
Definition status_replace (status : jsval) : result string :=
  match status with
  | JStr s => Ok (replace_first "_" " " s)
  | _ => Throw TypeError
  end.

(** The props a dashboard is given by App.js (lines 55 and 57). *)
Class Props : Type := {
  user : jsval
}.

(** ** pages/EmployeeDashboard.js *)

Module EmployeeDashboard.
Section WithHost.
Context `{Host} `{Props}.

(** The component state (lines 13-17); [currentTime] is the time value
    of a valid [Date]. *)
Record state : Type := {
  todayStatus : option TodayStatus;
  loading : bool;
  actionLoading : bool;
  history : list AttendanceRecord;
  currentTime : Z
}.

(** [todayStatus?.attendance] (line 148). *)
Definition attendance_of (t : option TodayStatus) : option AttendanceRecord :=
  match t with
  | Some d => attendance d
  | None => None
  end.

(** [`${n}`] for a Number computed from time values: [NaN], or an
    integer.  The time value of a Date is at most 8.64e15 in magnitude
    (ECMA-262, 21.4.1.1), so the hours and minutes between two Dates are
    safe integers, which print as their decimal digits. *)
Definition print_number (n : option Z) : string :=
  match n with
  | Some z => pretty z
  | None => "NaN"
  end.

(** Lines 117-128.  Time values are whole milliseconds; on them
    [Math.floor(x / d)] is [Z.div] and [%] is the truncating [Z.rem];
    [None] is [NaN], which propagates.  (The Numbers of the source are
    doubles, which represent the integers in the range of time values
    exactly.) *)
Definition calculateElapsedTime (t : option TodayStatus) (currentTime : Z) : result string :=
  if negb (truthy (field punch_in (attendance_of t))) then Ok "0h 0m"
  else
    punchIn ← new_Date (field punch_in (attendance_of t));
    let now := currentTime in
    let diff := (λ p, now - p) <$> punchIn in
    let hours := (λ d, d / (1000 * 60 * 60)) <$> diff in
    let minutes := (λ d, Z.rem d (1000 * 60 * 60) / (1000 * 60)) <$> diff in
    mret (print_number hours +:+ "h " +:+ print_number minutes +:+ "m").

(** Lines 130-138.  The key of [badges[status]] is [ToString(status)]. *)
Definition badges : gmap string jsval :=
  list_to_map
    [ ("complete", JStr "bg-emerald-50 text-emerald-700 border-emerald-200");
      ("incomplete", JStr "bg-amber-50 text-amber-700 border-amber-200");
      ("break_exceeded", JStr "bg-red-50 text-red-700 border-red-200");
      ("active", JStr "bg-blue-50 text-blue-700 border-blue-200") ].

Definition getStatusBadge (status : jsval) : result jsval :=
  key ← to_string status;
  mret (js_or (lookup_property badges key) (lookup_property badges "active")).

(** Lines 149-150. *)
Definition isPunchedIn (a : option AttendanceRecord) : jsval :=
  js_and (field punch_in a) (js_not (field punch_out a)).

Definition onBreak (a : option AttendanceRecord) : jsval :=
  js_and (field break_start a) (js_not (field break_end a)).

(** *** The punch card (lines 176-239) *)

Record button : Type := {
  btn_command : command;
  btn_disabled : bool
}.

Record punch_card : Type := {
  elapsed_panel : guarded string;
  shift_complete_msg : bool;
  buttons : list button
}.

(** The grid of buttons (lines 186-238). *)
Definition render_buttons (st : state) : list button :=
  let a := attendance_of (todayStatus st) in
  let main :=
    if truthy (js_and (js_not (isPunchedIn a)) (js_not (field punch_out a)))
    then [ {| btn_command := PunchIn; btn_disabled := actionLoading st |} ]
    else if truthy (isPunchedIn a)
    then [ {| btn_command := PunchOut; btn_disabled := actionLoading st |} ]
    else [] in
  let breaks :=
    if truthy (isPunchedIn a)
    then if truthy (js_not (onBreak a))
         then [ {| btn_command := StartBreak; btn_disabled := actionLoading st |} ]
         else [ {| btn_command := EndBreak; btn_disabled := actionLoading st |} ]
    else [] in
  main ++ breaks.

Definition render_punch_card (st : state) : result punch_card :=
  let a := attendance_of (todayStatus st) in
  panel ← guard (isPunchedIn a)
                (calculateElapsedTime (todayStatus st) (currentTime st));
  mret {| elapsed_panel := panel;
          shift_complete_msg :=
            negb (truthy (js_and (js_not (isPunchedIn a)) (js_not (field punch_out a))))
            && negb (truthy (isPunchedIn a));
          buttons := render_buttons st |}.

(** *** Today's summary (lines 248-283)

    The expressions are evaluated in the order of the source. *)

Record summary : Type := {
  sum_punch_in : string;
  sum_punch_out : string;
  sum_total_hours : string;
  sum_break_duration : string;
  sum_status_class : string;
  sum_status_text : string
}.

Definition render_summary (a : option AttendanceRecord) : result (option summary) :=
  match a with
  | None => Ok None                       (* "No attendance for today" *)
  | Some r =>
      pin ← time_cell (punch_in r);
      pout ← time_cell (punch_out r);
      total ← hours_cell (total_hours r);
      break ← hours_cell (break_duration r);
      badge ← getStatusBadge (status r);
      class ← to_string badge;
      text ← status_replace (status r);
      mret (Some {| sum_punch_in := pin;
                    sum_punch_out := pout;
                    sum_total_hours := total;
                    sum_break_duration := break;
                    sum_status_class := class;
                    sum_status_text := toUpperCase text |})
  end.

(** *** A row of the history table (lines 311-332)

    The cells are evaluated first, then the element of the row is
    created with its key. *)

Record history_row : Type := {
  row_key_text : option string;
  row_date : string;
  row_punch_in : string;
  row_punch_out : string;
  row_hours : string;
  row_break : string;
  row_status_class : string;
  row_status_text : string
}.

Definition render_history_row (record : AttendanceRecord) : result history_row :=
  d ← format_parseISO (date record) "MMM d, yyyy";
  pin ← time_cell (punch_in record);
  pout ← time_cell (punch_out record);
  hours ← hours_cell (total_hours record);
  break ← hours_cell (break_duration record);
  badge ← getStatusBadge (status record);
  class ← to_string badge;
  text ← status_replace (status record);
  key ← row_key (attendance_id record);
  mret {| row_key_text := key;
          row_date := d;
          row_punch_in := pin;
          row_punch_out := pout;
          row_hours := hours;
          row_break := break;
          row_status_class := class;
          row_status_text := text |}.

Fixpoint render_history (history : list AttendanceRecord) : result (list history_row) :=
  match history with
  | [] => Ok []
  | record :: rest =>
      row ← render_history_row record;
      rows ← render_history rest;
      mret (row :: rows)
  end.

(** *** What the component returns (lines 140-347)

    The spinner while [loading]; otherwise one element that holds the
    header with [user.name], the punch card, today's summary and the
    history table.  It is one expression: a throw anywhere in it leaves
    nothing on the screen (React unmounts a tree whose render has thrown
    and that has no error boundary).  The date of the card's header
    ([format(new Date(), ...)], line 173) does not throw. *)
Record dashboard : Type := {
  welcome : string;
  shift_card : punch_card;
  status_card : option summary;
  history_card : list history_row
}.

Inductive screen : Type :=
| Spinner
| Dashboard (d : dashboard).

Definition render (st : state) : result screen :=
  if loading st then Ok Spinner
  else
    name ← get_prop user "name";
    card ← render_punch_card st;
    today ← render_summary (attendance_of (todayStatus st));
    rows ← render_history (history st);
    welcome ← jsx_child name;
    mret (Dashboard {| welcome := welcome; shift_card := card;
                       status_card := today; history_card := rows |}).

(** *** Data loading and the four command handlers (lines 21-115)

    An [async] function is split at its [await]s.  A [task] is one
    running invocation that is suspended at an [await]; an [event] is a
    click on a rendered, enabled button, the settlement of a pending
    request, or the one-second timer, which runs while the view is
    mounted (the cleanup of line 54 clears it).  A handler that is
    suspended when the view is unmounted still runs to its end; what it
    then writes to the state is never rendered. *)

Definition set_todayStatus (t : option TodayStatus) (st : state) : state :=
  {| todayStatus := t; loading := loading st; actionLoading := actionLoading st;
     history := history st; currentTime := currentTime st |}.

Definition set_loading (b : bool) (st : state) : state :=
  {| todayStatus := todayStatus st; loading := b; actionLoading := actionLoading st;
     history := history st; currentTime := currentTime st |}.

Definition set_actionLoading (b : bool) (st : state) : state :=
  {| todayStatus := todayStatus st; loading := loading st; actionLoading := b;
     history := history st; currentTime := currentTime st |}.

Definition set_history (h : list AttendanceRecord) (st : state) : state :=
  {| todayStatus := todayStatus st; loading := loading st;
     actionLoading := actionLoading st; history := h; currentTime := currentTime st |}.

Definition set_currentTime (now : Z) (st : state) : state :=
  {| todayStatus := todayStatus st; loading := loading st;
     actionLoading := actionLoading st; history := history st; currentTime := now |}.

Definition today_status_path : string := "/attendance/today-status".
Definition my_history_path : string := "/attendance/my-history".

Definition endpoint (c : command) : string :=
  match c with
  | PunchIn => "/attendance/punch-in"
  | PunchOut => "/attendance/punch-out"
  | StartBreak => "/attendance/start-break"
  | EndBreak => "/attendance/end-break"
  end.

(** The argument of [toast.success]; the punch-out message reads
    [response.data.work_hours] (line 78). *)
Definition success_message (c : command) (body : jsval) : result string :=
  match c with
  | PunchIn => Ok "Punched in successfully!"
  | PunchOut =>
      w ← get_prop body "work_hours";
      hours ← to_string w;
      mret ("Punched out! Total: " +:+ hours +:+ "h worked")
  | StartBreak => Ok "Break started"
  | EndBreak => Ok "Break ended"
  end.

Definition failure_message (c : command) : string :=
  match c with
  | PunchIn => "Failed to punch in"
  | PunchOut => "Failed to punch out"
  | StartBreak => "Failed to start break"
  | EndBreak => "Failed to end break"
  end.

(** Punch-out awaits [fetchHistory] next to [fetchTodayStatus] (line 79). *)
Definition refetches_history (c : command) : bool :=
  match c with
  | PunchOut => true
  | _ => false
  end.

Inductive task : Type :=
| LoadData (today_pending history_pending : bool)     (* line 45 *)
| AwaitPost (c : command)                             (* lines 60, 75, 90, 105 *)
| AwaitRefetch (c : command) (today_pending history_pending : bool).
                                                      (* lines 64, 79, 94, 109 *)

Record machine : Type := {
  view : state;
  tasks : list task
}.

Inductive event : Type :=
| Click (c : command)
| PostReply (i : nat) (r : reply jsval)
| TodayReply (i : nat) (r : reply (option TodayStatus))
| HistoryReply (i : nat) (r : reply (list AttendanceRecord))
| Tick (now : Z).

(** A button fires [onClick] only when it is on the screen and not
    disabled: not while the spinner is shown (lines 140-146), and not
    when the render has thrown. *)
Definition enabled (st : state) (c : command) : bool :=
  match render st with
  | Ok (Dashboard d) =>
      existsb (λ b, bool_decide (btn_command b = c) && negb (btn_disabled b))
        (buttons (shift_card d))
  | _ => false
  end.

(** The view is on the screen: its render does not throw.  (Once a
    render has thrown, every later one throws as well; this is proved
    below for the reachable states.) *)
Definition mounted (st : state) : bool := negb (throws (render st)).

(** [fetchTodayStatus] (lines 21-30) and [fetchHistory] (lines 32-41):
    the request they issue, and what they do once it is settled. *)
Definition fetchTodayStatus : list effect := [ HttpGet today_status_path ].

Definition fetchHistory : list effect := [ HttpGet my_history_path ].

Definition fetchTodayStatus_settled (r : reply (option TodayStatus)) (st : state)
  : state * list effect :=
  match r with
  | Fulfilled body => (set_todayStatus body st, [])
  | Rejected _ => (st, [ ToastError (JStr "Failed to fetch today's status") ])
  end.

Definition fetchHistory_settled (r : reply (list AttendanceRecord)) (st : state)
  : state * list effect :=
  match r with
  | Fulfilled body => (set_history body st, [])
  | Rejected _ => (st, [ ToastError (JStr "Failed to fetch history") ])
  end.

(** The code after [await Promise.all(...)] / [await fetchTodayStatus()],
    once nothing is pending any more. *)
Definition resume (i : nat) (t : task) (m : machine) : machine * list effect :=
  match t with
  | LoadData false false =>
      ({| view := set_loading false (view m); tasks := delete i (tasks m) |}, [])
  | AwaitRefetch c false false =>
      ({| view := set_actionLoading false (view m); tasks := delete i (tasks m) |},
       [ SetActionLoading false ])
  | _ => ({| view := view m; tasks := <[i := t]> (tasks m) |}, [])
  end.

Definition mark_today (t : task) : option task :=
  match t with
  | LoadData true h => Some (LoadData false h)
  | AwaitRefetch c true h => Some (AwaitRefetch c false h)
  | _ => None
  end.

Definition mark_history (t : task) : option task :=
  match t with
  | LoadData p true => Some (LoadData p false)
  | AwaitRefetch c p true => Some (AwaitRefetch c p false)
  | _ => None
  end.

(** Mounting (lines 43-55): [loadData] calls both fetches. *)
Definition mount (now : Z) : machine * list effect :=
  ({| view := {| todayStatus := None; loading := true; actionLoading := false;
                 history := []; currentTime := now |};
      tasks := [ LoadData true true ] |},
   fetchTodayStatus ++ fetchHistory).

(** A command handler (lines 57-70, 72-85, 87-100, 102-115) up to its
    [await]: the flag, then the request. *)
Definition handle (c : command) (m : machine) : machine * list effect :=
  ({| view := set_actionLoading true (view m);
      tasks := tasks m ++ [ AwaitPost c ] |},
   [ SetActionLoading true; HttpPost (endpoint c) ]).

Definition handlePunchIn : machine → machine * list effect := handle PunchIn.
Definition handlePunchOut : machine → machine * list effect := handle PunchOut.
Definition handleStartBreak : machine → machine * list effect := handle StartBreak.
Definition handleEndBreak : machine → machine * list effect := handle EndBreak.

Definition onClick (c : command) : machine → machine * list effect :=
  match c with
  | PunchIn => handlePunchIn
  | PunchOut => handlePunchOut
  | StartBreak => handleStartBreak
  | EndBreak => handleEndBreak
  end.

(** The [catch] block, and with [finally] the end of the handler that
    task [i] runs. *)
Definition handler_catch (c : command) (error : axios_error) : list effect :=
  [ ToastError (js_or (error_detail error) (JStr (failure_message c))) ].

Definition handle_rejected (i : nat) (c : command) (error : axios_error)
    (m : machine) : machine * list effect :=
  ({| view := set_actionLoading false (view m); tasks := delete i (tasks m) |},
   handler_catch c error ++ [ SetActionLoading false ]).

(** The rest of the [try] block once the POST is fulfilled: the success
    toast, then the refetches the handler awaits.  A throw while the
    message is built is caught like a rejection, by an error that has no
    [response]. *)
Definition handle_fulfilled (i : nat) (c : command) (body : jsval) (m : machine)
  : machine * list effect :=
  match success_message c body with
  | Ok message =>
      ({| view := view m;
          tasks := <[i := AwaitRefetch c true (refetches_history c)]> (tasks m) |},
       [ ToastSuccess message ] ++ fetchTodayStatus
       ++ (if refetches_history c then fetchHistory else []))
  | Throw _ => handle_rejected i c {| response := None |} m
  end.

Definition step (m : machine) (ev : event) : option (machine * list effect) :=
  match ev with
  | Click c => if enabled (view m) c then Some (onClick c m) else None
  | PostReply i r =>
      match tasks m !! i with
      | Some (AwaitPost c) =>
          Some match r with
               | Fulfilled body => handle_fulfilled i c body m
               | Rejected error => handle_rejected i c error m
               end
      | _ => None
      end
  | TodayReply i r =>
      match tasks m !! i ≫= mark_today with
      | Some t =>
          let '(st, toast) := fetchTodayStatus_settled r (view m) in
          let '(m', rest) := resume i t {| view := st; tasks := tasks m |} in
          Some (m', toast ++ rest)
      | None => None
      end
  | HistoryReply i r =>
      match tasks m !! i ≫= mark_history with
      | Some t =>
          let '(st, toast) := fetchHistory_settled r (view m) in
          let '(m', rest) := resume i t {| view := st; tasks := tasks m |} in
          Some (m', toast ++ rest)
      | None => None
      end
  | Tick now =>
      if mounted (view m)
      then Some ({| view := set_currentTime now (view m); tasks := tasks m |}, [])
      else None
  end.

(** Running a sequence of events; the effects are collected in order. *)
Fixpoint run (m : machine) (evs : list event) : option (machine * list effect) :=
  match evs with
  | [] => Some (m, [])
  | ev :: rest =>
      match step m ev with
      | Some (m', out) =>
          match run m' rest with
          | Some (m'', out') => Some (m'', out ++ out')
          | None => None
          end
      | None => None
      end
  end.

Inductive reachable : machine → Prop :=
| reachable_mount now : reachable (mount now).1
| reachable_step m ev m' out :
    reachable m → step m ev = Some (m', out) → reachable m'.

(** The number of command handlers that have not finished. *)
Definition is_command_task (t : task) : bool :=
  match t with
  | LoadData _ _ => false
  | AwaitPost _ | AwaitRefetch _ _ _ => true
  end.

Definition commands_in_flight (m : machine) : nat :=
  length (List.filter is_command_task (tasks m)).

(** The flag is set exactly while a command handler has not finished,
    and at most one has not. *)
Definition flag_invariant (m : machine) : Prop :=
  commands_in_flight m = (if actionLoading (view m) then 1 else 0)%nat.

(** The task a settlement is delivered to. *)
Definition reply_target (ev : event) : option nat :=
  match ev with
  | PostReply i _ | TodayReply i _ | HistoryReply i _ => Some i
  | Click _ | Tick _ => None
  end.

(** The settlement is the failure of a request. *)
Definition is_rejection (ev : event) : bool :=
  match ev with
  | PostReply _ (Rejected _) | TodayReply _ (Rejected _)
  | HistoryReply _ (Rejected _) => true
  | _ => false
  end.

(** The event can happen: the button is there to be clicked, the task
    awaits a settlement of this kind. *)
Definition expects (m : machine) (ev : event) : bool :=
  match ev with
  | Click c => enabled (view m) c
  | PostReply i _ =>
      match tasks m !! i with
      | Some (AwaitPost _) => true
      | _ => false
      end
  | TodayReply i _ => bool_decide (is_Some (tasks m !! i ≫= mark_today))
  | HistoryReply i _ => bool_decide (is_Some (tasks m !! i ≫= mark_history))
  | Tick _ => mounted (view m)
  end.

(** The orders in which the requests a handler awaits after its POST
    can settle. *)
Definition refetch_orders (i : nat) (c : command)
    (today : reply (option TodayStatus)) (hist : reply (list AttendanceRecord))
  : list (list event) :=
  if refetches_history c
  then [ [ TodayReply i today; HistoryReply i hist ];
         [ HistoryReply i hist; TodayReply i today ] ]
  else [ [ TodayReply i today ] ].

End WithHost.
End EmployeeDashboard.

(** ** pages/EmployerDashboard.js *)

Module EmployerDashboard.
Section WithHost.
Context `{Host}.

Record state : Type := {
  monthlyData : list AttendanceRecord;
  loading : bool;
  selectedMonth : Z;
  selectedYear : Z
}.

Definition monthly_report_path : string := "/attendance/monthly-report".

(** Lines 21-35, up to the [await]: [setLoading(true)] and the request. *)
Definition fetchMonthlyReport (month year : Z) (st : state) : state * list effect :=
  ({| monthlyData := monthlyData st; loading := true;
      selectedMonth := selectedMonth st; selectedYear := selectedYear st |},
   [ HttpPost monthly_report_path ]).

(** Lines 29-34, after the [await]. *)
Definition fetchMonthlyReport_settled (r : reply (list AttendanceRecord)) (st : state)
  : state * list effect :=
  match r with
  | Fulfilled body =>
      ({| monthlyData := body; loading := false;
          selectedMonth := selectedMonth st; selectedYear := selectedYear st |}, [])
  | Rejected _ =>
      ({| monthlyData := monthlyData st; loading := false;
          selectedMonth := selectedMonth st; selectedYear := selectedYear st |},
       [ ToastError (JStr "Failed to fetch monthly report") ])
  end.

(** Lines 41-49. *)
Definition badge (class label : string) : jsval :=
  JObj [ ("class", JStr class); ("label", JStr label) ].

Definition badges : gmap string jsval :=
  list_to_map
    [ ("complete", badge "bg-emerald-50 text-emerald-700 border-emerald-200" "Complete");
      ("incomplete", badge "bg-amber-50 text-amber-700 border-amber-200" "Incomplete");
      ("break_exceeded", badge "bg-red-50 text-red-700 border-red-200" "Break Exceeded");
      ("active", badge "bg-blue-50 text-blue-700 border-blue-200" "Active") ].

Definition getStatusBadge (status : jsval) : result jsval :=
  key ← to_string status;
  mret (js_or (lookup_property badges key) (lookup_property badges "active")).

(** Lines 51-58. *)
Record stats : Type := {
  totalRecords : nat;
  completeShifts : nat;
  incompleteShifts : nat;
  breakExceeded : nat
}.

Definition getStats (monthlyData : list AttendanceRecord) : stats :=
  {| totalRecords := length monthlyData;
     completeShifts :=
       length (List.filter (λ r, truthy (is_complete r)) monthlyData);
     incompleteShifts :=
       length (List.filter
                 (λ r, truthy (js_and (js_and (js_not (is_complete r))
                                              (js_not (is_weekend r)))
                                      (punch_in r)))
                 monthlyData);
     breakExceeded :=
       length (List.filter (λ r, strict_eq_str (status r) "break_exceeded")
                 monthlyData) |}.

(** A row of the monthly report (lines 204-243).  The expressions are
    evaluated in the order of the source, then the element of the row is
    created with its key; React looks at the children [user_name],
    [user_email] and the label afterwards. *)
Record status_badge : Type := {
  badge_class : string;
  badge_label : string
}.

Record report_row : Type := {
  row_key_text : option string;
  row_class : string;
  row_date : string;
  row_employee : string;
  row_email : string;
  row_punch_in : string;
  row_punch_out : string;
  row_hours_class : string;
  row_hours : string;
  row_break_class : string;
  row_break : string;
  row_status : status_badge
}.

Definition render_row (record : AttendanceRecord) : result report_row :=
  let isIncomplete :=
    js_and (js_and (js_not (is_complete record)) (js_not (is_weekend record)))
           (punch_in record) in
  let isBreakExceeded := JBool (strict_eq_str (status record) "break_exceeded") in
  let rowClass :=
    if truthy (js_or isIncomplete isBreakExceeded)
    then "bg-red-50 hover:bg-red-100" else "hover:bg-accent/50" in
  d ← format_parseISO (date record) "MMM d, yyyy";
  pin ← time_cell (punch_in record);
  pout ← time_cell (punch_out record);
  hours ← hours_cell (total_hours record);
  break ← hours_cell (break_duration record);
  b ← (if truthy (is_weekend record)
       then mret ("bg-slate-50 text-slate-600 border-slate-200", JStr "Weekend")
       else
         badge ← getStatusBadge (status record);
         class ← get_prop badge "class";
         class ← to_string class;
         badge ← getStatusBadge (status record);
         label ← get_prop badge "label";
         mret (class, label));
  key ← row_key (attendance_id record);
  name ← jsx_child (user_name record);
  email ← jsx_child (user_email record);
  text ← jsx_child b.2;
  mret {| row_key_text := key;
          row_class := rowClass;
          row_date := d;
          row_employee := name;
          row_email := email;
          row_punch_in := pin;
          row_punch_out := pout;
          row_hours_class := if truthy isIncomplete then "text-red-600 font-bold" else "";
          row_hours := hours;
          row_break_class :=
            if truthy isBreakExceeded then "text-red-600 font-bold" else "";
          row_break := break;
          row_status := {| badge_class := b.1; badge_label := text |} |}.

End WithHost.
End EmployerDashboard.

(** ** App.js *)

Module App.
Section WithHost.
Context `{Host}.

Record state : Type := {
  user : jsval;
  loading : bool
}.

Definition initial : state := {| user := JNull; loading := true |}.

(** [localStorage.getItem]: the stored string, or [null]. *)
Definition getItem (storage : gmap string string) (key : string) : jsval :=
  match storage !! key with
  | Some s => JStr s
  | None => JNull
  end.

(** [localStorage.setItem(key, value)] stores [ToString(value)]; when
    the conversion throws nothing is stored. *)
Definition setItem (key : string) (value : jsval) (storage : gmap string string)
  : result (gmap string string) :=
  text ← to_string value;
  mret (<[key := text]> storage).

(** The effect run once on startup (lines 12-20).  It issues no request;
    [JSON.parse] may throw. *)
Definition on_mount (storage : gmap string string) (st : state)
  : result (state * list effect) :=
  let token := getItem storage "token" in
  let userData := getItem storage "user" in
  if truthy (js_and token userData)
  then text ← to_string userData;
       u ← JSON_parse text;
       mret ({| user := u; loading := false |}, [])
  else Ok ({| user := user st; loading := false |}, []).

(** Lines 22-26.  A throw of the first [setItem] leaves the storage and
    the state as they were. *)
Definition handleLogin (token userData : jsval)
    (storage : gmap string string) (st : state)
  : result (gmap string string * state * list effect) :=
  let serialized :=
    match JSON_stringify userData with
    | Some s => JStr s
    | None => JUndefined
    end in
  token_text ← to_string token;
  stored ← setItem "token" token storage;
  user_text ← to_string serialized;
  stored ← setItem "user" serialized stored;
  mret (stored, {| user := userData; loading := loading st |},
        [ SetItem "token" token_text; SetItem "user" user_text ]).

(** Lines 28-32. *)
Definition handleLogout (storage : gmap string string) (st : state)
  : gmap string string * state :=
  (delete "user" (delete "token" storage),
   {| user := JNull; loading := loading st |}).

(** What the router shows (lines 34-68). *)
Inductive screen : Type :=
| Spinner
| AuthPage
| Navigate (to : string)
| EmployeeDashboard (user : jsval)
| EmployerDashboard (user : jsval)
| NoRoute.

Fixpoint all_slashes (s : string) : bool :=
  match s with
  | EmptyString => true
  | String c s' => Ascii.eqb c "/" && all_slashes s'
  end.

(** [<Route path>] with the defaults of react-router ([caseSensitive]
    false, matching to the end): the pathname is the path, in any
    letter case, and slashes at its end do not count.  [path] is one of
    the two literals "/auth" and "/" of lines 47 and 51, [pathname] the
    decoded pathname of the location, which starts with a slash. *)
Fixpoint drop_trailing_slashes (s : string) : string :=
  match s with
  | EmptyString => EmptyString
  | String c s' =>
      if all_slashes s then EmptyString else String c (drop_trailing_slashes s')
  end.

Definition route_matches (path pathname : string) : bool :=
  negb (String.eqb pathname "")
  && String.eqb (drop_trailing_slashes (map_string lower_ascii pathname))
       (drop_trailing_slashes path).

Definition render (st : state) (pathname : string) : result screen :=
  if loading st then Ok Spinner
  else if route_matches "/auth" pathname
  then Ok (if truthy (js_not (user st)) then AuthPage else Navigate "/")
  else if route_matches "/" pathname
  then if truthy (user st)
       then role ← get_prop (user st) "role";
            mret (if strict_eq_str role "employee"
                  then EmployeeDashboard (user st)
                  else EmployerDashboard (user st))
       else Ok (Navigate "/auth")
  else Ok NoRoute.

(** Reloading the page: fresh component state, the storage persists. *)
Definition reload (storage : gmap string string) : result (state * list effect) :=
  on_mount storage initial.

End WithHost.
End App.

(** ** pages/AuthPage.js *)

Module AuthPage.
Section WithHost.
Context `{Host}.

Record form : Type := {
  email : string;
  password : string;
  name : string;
  role : string
}.

Record state : Type := {
  isLogin : bool;
  loading : bool;
  formData : form
}.

Definition set_loading (b : bool) (st : state) : state :=
  {| isLogin := isLogin st; loading := b; formData := formData st |}.

(** Lines 24-34: up to the [await]. *)
Definition handleSubmit (st : state) : state * list effect :=
  (set_loading true st,
   [ HttpPost (if isLogin st then "/auth/login" else "/auth/register") ]).

(** Lines 36-42: after the [await].  [response.data.token] is read after
    the success toast; a throw there lands in the [catch].  So does a
    throw of [onLogin], which is [handleLogin] of App.js (line 48) and
    throws when the token cannot be converted to a string. *)
Definition handleSubmit_settled (r : reply jsval) (st : state) : state * list effect :=
  let failure error :=
    [ ToastError (js_or (error_detail error) (JStr "Authentication failed")) ] in
  (set_loading false st,
   match r with
   | Fulfilled body =>
       ToastSuccess (if isLogin st then "Logged in successfully!"
                     else "Account created successfully!")
       :: match token ← get_prop body "token";
                u ← get_prop body "user";
                mret (token, u) with
          | Ok (token, u) =>
              OnLogin token u
              :: (if throws (to_string token) then failure {| response := None |}
                  else [])
          | Throw _ => failure {| response := None |}
          end
   | Rejected error => failure error
   end).

End WithHost.
End AuthPage.

(** ** A concrete host

    An instance of [Host] on which the definitions above can be
    evaluated: ISO-8601 timestamps in UTC of the form
    [YYYY-MM-DDTHH:MM:SS.sssZ], short decimal fractions, JSON for
    objects whose properties are strings, and upper-casing that leaves
    the characters beyond ASCII as they are. *)

Module SampleHost.

Definition digit_of (c : ascii) : option Z :=
  let n := nat_of_ascii c in
  if ((48 <=? n) && (n <=? 57))%nat then Some (Z.of_nat (n - 48)) else None.

Fixpoint digits_acc (acc : Z) (s : string) : option Z :=
  match s with
  | EmptyString => Some acc
  | String c s' =>
      match digit_of c with
      | Some d => digits_acc (10 * acc + d) s'
      | None => None
      end
  end.

(** The number written by the [len] decimal digits at position [pos]. *)
Definition digits_at (pos len : nat) (s : string) : option Z :=
  let part := String.substring pos len s in
  if (String.length part =? len)%nat && negb (len =? 0)%nat
  then digits_acc 0 part else None.

Definition char_at (pos : nat) (c : string) (s : string) : bool :=
  String.eqb (String.substring pos 1 s) c.

(** Days from 1970-01-01 to the given civil date (proleptic Gregorian). *)
Definition days_from_civil (y m d : Z) : Z :=
  let y' := if m <=? 2 then y - 1 else y in
  let era := y' / 400 in
  let yoe := y' - era * 400 in
  let mp := (m + 9) mod 12 in
  let doy := (153 * mp + 2) / 5 + d - 1 in
  let doe := yoe * 365 + yoe / 4 - yoe / 100 + doy in
  era * 146097 + doe - 719468.

Definition parse_iso (s : string) : option Z :=
  if (String.length s =? 24)%nat
     && char_at 4 "-" s && char_at 7 "-" s && char_at 10 "T" s
     && char_at 13 ":" s && char_at 16 ":" s && char_at 19 "." s
     && char_at 23 "Z" s
  then
    y ← digits_at 0 4 s; m ← digits_at 5 2 s; d ← digits_at 8 2 s;
    hh ← digits_at 11 2 s; mm ← digits_at 14 2 s; ss ← digits_at 17 2 s;
    ms ← digits_at 20 3 s;
    if (1 <=? m) && (m <=? 12) && (1 <=? d) && (d <=? 31)
       && (hh <=? 23) && (mm <=? 59) && (ss <=? 59)
    then Some ((((days_from_civil y m d * 24 + hh) * 60 + mm) * 60 + ss) * 1000 + ms)
    else None
  else None.

Definition sample_Date_value (v : jsval) : option Z :=
  match v with
  | JStr s => parse_iso s
  | JNum q => Some (Z.quot (Qnum q) (Zpos (Qden q)))
  | JNull => Some 0
  | JBool b => Some (if b then 1 else 0)
  | _ => None
  end.

Definition two_digits (n : Z) : string :=
  if n <? 10 then "0" +:+ pretty n else pretty n.

Definition month_name (m : Z) : string :=
  nth (Z.to_nat (m - 1))
    ["Jan"; "Feb"; "Mar"; "Apr"; "May"; "Jun"; "Jul"; "Aug"; "Sep"; "Oct"; "Nov"; "Dec"]
    "".

Definition sample_format (v : jsval) (pattern : string) : result string :=
  match v with
  | JStr s =>
      match parse_iso s with
      | Some _ =>
          let get pos len := default 0 (digits_at pos len s) in
          if String.eqb pattern "hh:mm a"
          then
            let h := get 11%nat 2%nat in
            let h12 := if h mod 12 =? 0 then 12 else h mod 12 in
            Ok (two_digits h12 +:+ ":" +:+ two_digits (get 14%nat 2%nat)
                +:+ (if h <? 12 then " AM" else " PM"))
          else
            Ok (month_name (get 5%nat 2%nat) +:+ " " +:+ pretty (get 8%nat 2%nat)
                +:+ ", " +:+ pretty (get 0%nat 4%nat))
      | None => Throw RangeError
      end
  | _ => Throw RangeError
  end.

(** Decimal expansion of a fraction, at most [fuel] digits. *)
Fixpoint fraction_digits (fuel : nat) (r d : Z) : string :=
  match fuel with
  | O => ""
  | S fuel' =>
      if r =? 0 then ""
      else pretty (10 * r / d) +:+ fraction_digits fuel' ((10 * r) mod d) d
  end.

Definition sample_Number_toString (q : Q) : string :=
  let n := Qnum q in
  let d := Zpos (Qden q) in
  (if n <? 0 then "-" else "")
  +:+ pretty (Z.abs n / d) +:+ "." +:+ fraction_digits 17 (Z.abs n mod d) d.

Definition quote : string := String (ascii_of_nat 34) EmptyString.

Definition plain_char (c : ascii) : bool :=
  let n := nat_of_ascii c in
  negb ((n =? 34) || (n =? 92) || (n <? 32))%nat.

Fixpoint plain (s : string) : bool :=
  match s with
  | EmptyString => true
  | String c s' => plain_char c && plain s'
  end.

Fixpoint stringify_props (props : list (string * jsval)) : option (list string) :=
  match props with
  | [] => Some []
  | (k, JStr v) :: rest =>
      if plain k && plain v
      then cons (quote +:+ k +:+ quote +:+ ":" +:+ quote +:+ v +:+ quote)
             <$> stringify_props rest
      else None
  | _ => None
  end.

Fixpoint join (sep : string) (l : list string) : string :=
  match l with
  | [] => ""
  | [x] => x
  | x :: rest => x +:+ sep +:+ join sep rest
  end.

Definition sample_stringify (v : jsval) : option string :=
  match v with
  | JNull => Some "null"
  | JObj props =>
      match stringify_props props with
      | Some l => Some ("{" +:+ join "," l +:+ "}")
      | None => None              (* outside the fragment *)
      end
  | _ => None
  end.

(** Reads plain characters up to the closing quote. *)
Fixpoint read_string (s : string) : option (string * string) :=
  match s with
  | EmptyString => None
  | String c s' =>
      if Ascii.eqb c (ascii_of_nat 34) then Some (EmptyString, s')
      else if plain_char c
      then '(w, rest) ← read_string s'; Some (String c w, rest)
      else None
  end.

Definition read_quoted (s : string) : option (string * string) :=
  match s with
  | String c s' => if Ascii.eqb c (ascii_of_nat 34) then read_string s' else None
  | EmptyString => None
  end.

Definition expect (c : string) (s : string) : option string :=
  if String.prefix c s
  then Some (String.substring (String.length c)
               (String.length s - String.length c) s)
  else None.

Fixpoint read_props (fuel : nat) (s : string) : option (list (string * jsval)) :=
  match fuel with
  | O => None
  | S fuel' =>
      '(k, s1) ← read_quoted s;
      s2 ← expect ":" s1;
      '(v, s3) ← read_quoted s2;
      if String.eqb s3 "}" then Some [ (k, JStr v) ]
      else s4 ← expect "," s3;
           cons (k, JStr v) <$> read_props fuel' s4
  end.

Definition sample_parse (s : string) : result jsval :=
  if String.eqb s "null" then Ok JNull
  else if String.eqb s "{}" then Ok (JObj [])
  else match expect "{" s ≫= read_props (String.length s) with
       | Some props => Ok (JObj props)
       | None => Throw SyntaxError
       end.

(** The built-in functions of [Object.prototype] that take no notice of
    a missing argument. *)
Definition sample_call (name : string) (this : jsval) : option jsval :=
  if String.eqb name "hasOwnProperty" || String.eqb name "isPrototypeOf"
     || String.eqb name "propertyIsEnumerable"
  then Some (JBool false)
  else if String.eqb name "__lookupGetter__" || String.eqb name "__lookupSetter__"
  then Some JUndefined
  else if String.eqb name "Object" then Some (JObj [])
  else None.

#[global] Instance sample_host : Host := {|
  Number_toString := sample_Number_toString;
  built_in_call := sample_call;
  String_toUpperCase := map_string upper_ascii;
  Date_value := sample_Date_value;
  format_parseISO := sample_format;
  JSON_stringify := sample_stringify;
  JSON_parse := sample_parse
|}.

End SampleHost.

(** ** Vocabulary of the specification

    The data model of the specification (section 3) types the fields of
    a record: a timestamp is a non-empty string, hours are Numbers, flags
    are booleans, and any of them may be absent. *)

Definition is_absent (v : jsval) : bool :=
  match v with
  | JUndefined | JNull => true
  | _ => false
  end.

Definition is_present (v : jsval) : bool := negb (is_absent v).

Definition is_timestamp (v : jsval) : bool :=
  match v with
  | JStr s => negb (String.eqb s "")
  | _ => false
  end.

Definition is_number (v : jsval) : bool :=
  match v with
  | JNum _ => true
  | _ => false
  end.

Definition is_zero (v : jsval) : bool :=
  match v with
  | JNum q => Qeq_bool q 0
  | _ => false
  end.

Definition is_boolean (v : jsval) : bool :=
  match v with
  | JBool _ => true
  | _ => false
  end.

Definition is_true (v : jsval) : bool :=
  match v with
  | JBool b => b
  | _ => false
  end.

Definition is_false (v : jsval) : bool :=
  match v with
  | JBool b => negb b
  | _ => false
  end.

(** The status is the given one of the data model's values. *)
Definition has_status (lit : string) (v : jsval) : bool :=
  match v with
  | JStr s => bool_decide (s = lit)
  | _ => false
  end.

(** A field that holds a value of the given kind, or is absent. *)
Definition optional (kind : jsval → bool) (v : jsval) : bool :=
  is_absent v || kind v.

Definition with_punch_out (t : jsval) (r : AttendanceRecord) : AttendanceRecord :=
  {| attendance_id := attendance_id r; date := date r; user_name := user_name r;
     user_email := user_email r; punch_in := punch_in r; punch_out := t;
     break_start := break_start r; break_end := break_end r;
     total_hours := total_hours r; break_duration := break_duration r;
     status := status r; is_weekend := is_weekend r; is_complete := is_complete r |}.

(** A record in which every field is missing. *)
Definition blank : AttendanceRecord :=
  {| attendance_id := JUndefined; date := JUndefined; user_name := JUndefined;
     user_email := JUndefined; punch_in := JUndefined; punch_out := JUndefined;
     break_start := JUndefined; break_end := JUndefined;
     total_hours := JUndefined; break_duration := JUndefined;
     status := JUndefined; is_weekend := JUndefined; is_complete := JUndefined |}.

(** A day of work as the server reports it. *)
Definition shift (pin pout : jsval) : AttendanceRecord :=
  {| attendance_id := JStr "a1"; date := JStr "2024-01-15T00:00:00.000Z";
     user_name := JStr "Ada"; user_email := JStr "ada@example.com";
     punch_in := pin; punch_out := pout;
     break_start := JNull; break_end := JNull;
     total_hours := JNull; break_duration := JNull;
     status := JStr "active"; is_weekend := JBool false; is_complete := JBool false |}.

Definition with_hours (total break : jsval) (r : AttendanceRecord) : AttendanceRecord :=
  {| attendance_id := attendance_id r; date := date r; user_name := user_name r;
     user_email := user_email r; punch_in := punch_in r; punch_out := punch_out r;
     break_start := break_start r; break_end := break_end r;
     total_hours := total; break_duration := break;
     status := status r; is_weekend := is_weekend r; is_complete := is_complete r |}.

Definition with_status (s : jsval) (r : AttendanceRecord) : AttendanceRecord :=
  {| attendance_id := attendance_id r; date := date r; user_name := user_name r;
     user_email := user_email r; punch_in := punch_in r; punch_out := punch_out r;
     break_start := break_start r; break_end := break_end r;
     total_hours := total_hours r; break_duration := break_duration r;
     status := s; is_weekend := is_weekend r; is_complete := is_complete r |}.

Definition with_complete (c : jsval) (r : AttendanceRecord) : AttendanceRecord :=
  {| attendance_id := attendance_id r; date := date r; user_name := user_name r;
     user_email := user_email r; punch_in := punch_in r; punch_out := punch_out r;
     break_start := break_start r; break_end := break_end r;
     total_hours := total_hours r; break_duration := break_duration r;
     status := status r; is_weekend := is_weekend r; is_complete := c |}.

(** The employee view after the initial load found no attendance for
    today and the user clicked "Punch In". *)
Definition punching_in : EmployeeDashboard.machine :=
  {| EmployeeDashboard.view :=
       {| EmployeeDashboard.todayStatus := Some {| attendance := None |};
          EmployeeDashboard.loading := false;
          EmployeeDashboard.actionLoading := true;
          EmployeeDashboard.history := [];
          EmployeeDashboard.currentTime := 1705309200000 |};
     EmployeeDashboard.tasks := [ EmployeeDashboard.AwaitPost PunchIn ] |}.

(** An error response that carries the server's message. *)
Definition error_with_detail (message : string) : axios_error :=
  {| response := Some {| data := JObj [ ("detail", JStr message) ] |} |}.

(** The message a handler shows for a failure when it passes the
    server's message on: [detail || fallback]. *)
Definition server_message_or (fallback : string) (error : axios_error) : jsval :=
  if truthy (error_detail error) then error_detail error else JStr fallback.

(** A user as [POST /auth/login] returns it. *)
Definition ada : jsval :=
  JObj [ ("name", JStr "Ada"); ("email", JStr "ada@example.com");
         ("role", JStr "employee") ].

(** The props of a dashboard that shows this user. *)
#[global] Instance sample_props : Props := {| user := ada |}.

(** The body of a successful login response. *)
Definition login_body (token : string) (u : jsval) : jsval :=
  JObj [ ("token", JStr token); ("user", u) ].

(** Counting by recursion on the list, the way the specification counts. *)
Fixpoint count_where {A} (p : A → bool) (l : list A) : nat :=
  match l with
  | [] => 0
  | x :: rest => ((if p x then 1 else 0) + count_where p rest)%nat
  end.

(** The data model on the fields the monthly counters read. *)
Definition well_typed (r : AttendanceRecord) : bool :=
  is_boolean (is_complete r) && is_boolean (is_weekend r)
  && optional is_timestamp (punch_in r).

(** The "active" style of the two dashboards and the four status
    values of the data model. *)
Definition employee_active_style : jsval :=
  JStr "bg-blue-50 text-blue-700 border-blue-200".

Definition employer_active_badge : jsval :=
  EmployerDashboard.badge "bg-blue-50 text-blue-700 border-blue-200" "Active".

Definition known_status (s : string) : bool :=
  String.eqb s "complete" || String.eqb s "incomplete"
  || String.eqb s "break_exceeded" || String.eqb s "active".

(** ** Further vocabulary: the flow of the employee view *)

(** The commands whose buttons a punch card shows, in order. *)
Definition offered (card : EmployeeDashboard.punch_card) : list command :=
  EmployeeDashboard.btn_command <$> EmployeeDashboard.buttons card.

(** A value as it occurs in the data of a response: no built-in
    function or object anywhere in it. *)
Fixpoint is_data (v : jsval) : bool :=
  match v with
  | JObj props =>
      (fix all (l : list (string * jsval)) : bool :=
         match l with
         | [] => true
         | (_, w) :: l' => is_data w && all l'
         end) props
  | JBuiltin _ _ => false
  | _ => true
  end.

(** What a view can have suspended: nothing, the initial load with
    something still pending, or one command handler. *)
Definition task_shape (m : EmployeeDashboard.machine) : Prop :=
  let st := EmployeeDashboard.view m in
  match EmployeeDashboard.tasks m with
  | [] =>
      EmployeeDashboard.loading st = false
      ∧ EmployeeDashboard.actionLoading st = false
  | [ EmployeeDashboard.LoadData today hist ] =>
      EmployeeDashboard.loading st = true
      ∧ EmployeeDashboard.actionLoading st = false
      ∧ today || hist = true
  | [ EmployeeDashboard.AwaitPost _ ] =>
      EmployeeDashboard.loading st = false
      ∧ EmployeeDashboard.actionLoading st = true
  | [ EmployeeDashboard.AwaitRefetch _ today hist ] =>
      EmployeeDashboard.loading st = false
      ∧ EmployeeDashboard.actionLoading st = true
      ∧ today || hist = true
  | _ => False
  end.

(** The parts of the dashboard that can throw: the header with the name
    of the user; what is shown of today's record, that is the elapsed
    time, where [new Date(punch_in)] is evaluated while [isPunchedIn],
    and today's summary; and the history table. *)
Definition header_renders `{Host} `{Props} : bool :=
  negb (throws (name ← get_prop user "name"; jsx_child name)).

Definition summary_renders `{Host} (st : EmployeeDashboard.state) : bool :=
  let a := EmployeeDashboard.attendance_of (EmployeeDashboard.todayStatus st) in
  negb (throws (guard (EmployeeDashboard.isPunchedIn a) (new_Date (field punch_in a))))
  && negb (throws (EmployeeDashboard.render_summary a)).

Definition history_renders `{Host} (st : EmployeeDashboard.state) : bool :=
  negb (throws (EmployeeDashboard.render_history (EmployeeDashboard.history st))).

(** While a command handler is suspended, the parts of the dashboard
    that it has not refetched yet are the ones that were on the screen
    when the button was clicked. *)
Definition data_intact `{Host} `{Props} (m : EmployeeDashboard.machine) : Prop :=
  let st := EmployeeDashboard.view m in
  match EmployeeDashboard.tasks m with
  | [ EmployeeDashboard.AwaitPost _ ]
  | [ EmployeeDashboard.AwaitRefetch _ true true ] =>
      header_renders && summary_renders st && history_renders st = true
  | [ EmployeeDashboard.AwaitRefetch _ true false ] =>
      header_renders && summary_renders st = true
  | [ EmployeeDashboard.AwaitRefetch _ false true ] =>
      header_renders && history_renders st = true
  | _ => True
  end.

(** The two orders in which the requests of the initial load settle. *)
Definition load_orders (today : reply (option TodayStatus))
    (hist : reply (list AttendanceRecord)) : list (list EmployeeDashboard.event) :=
  [ [ EmployeeDashboard.TodayReply 0 today; EmployeeDashboard.HistoryReply 0 hist ];
    [ EmployeeDashboard.HistoryReply 0 hist; EmployeeDashboard.TodayReply 0 today ] ].

(** What a fetch leaves in the state: the body, or on failure what was
    there before. *)
Definition body_or {A} (r : reply A) (previous : A) : A :=
  match r with
  | Fulfilled body => body
  | Rejected _ => previous
  end.

(** The toast of a fetch that failed. *)
Definition failure_toast {A} (r : reply A) (message : string) : list effect :=
  match r with
  | Fulfilled _ => []
  | Rejected _ => [ ToastError (JStr message) ]
  end.

Definition with_break (start finish : jsval) (r : AttendanceRecord) : AttendanceRecord :=
  {| attendance_id := attendance_id r; date := date r; user_name := user_name r;
     user_email := user_email r; punch_in := punch_in r; punch_out := punch_out r;
     break_start := start; break_end := finish;
     total_hours := total_hours r; break_duration := break_duration r;
     status := status r; is_weekend := is_weekend r; is_complete := is_complete r |}.

(** The employee view at rest, showing the given record for today. *)
Definition viewing (r : AttendanceRecord) (now : Z) : EmployeeDashboard.state :=
  {| EmployeeDashboard.todayStatus := Some {| attendance := Some r |};
     EmployeeDashboard.loading := false;
     EmployeeDashboard.actionLoading := false;
     EmployeeDashboard.history := [];
     EmployeeDashboard.currentTime := now |}.

(** ** pages/EmployerDashboard.js: the table and the selection *)

Module MonthlyReport.
Section WithHost.
Context `{Host}.
Import EmployerDashboard.

(** [monthlyData.map(...)] (lines 203-243): a row per record, in order.
    The callback has run on every record before React looks at the
    children of any row: a throw while a later row is evaluated comes
    before React's refusal of a child of an earlier row. *)
Fixpoint render_rows (monthlyData : list AttendanceRecord) : result (list report_row) :=
  match monthlyData with
  | [] => mret []
  | record :: rest =>
      match render_row record with
      | Throw ReactError => _ ← render_rows rest; Throw ReactError
      | evaluated =>
          row ← evaluated;
          rows ← render_rows rest;
          mret (row :: rows)
      end
  end.

(** The view together with the requests that are in flight, each with
    the month and year it asked for. *)
Record machine : Type := {
  view : state;
  pending : list (Z * Z)
}.

Inductive event : Type :=
| SelectMonth (v : Z)        (* [onValueChange] of the month selector, line 154 *)
| SelectYear (v : Z)         (* [onValueChange] of the year selector, line 167 *)
| Settled (i : nat) (r : reply (list AttendanceRecord)).

Definition set_selectedMonth (v : Z) (st : state) : state :=
  {| monthlyData := monthlyData st; loading := loading st;
     selectedMonth := v; selectedYear := selectedYear st |}.

Definition set_selectedYear (v : Z) (st : state) : state :=
  {| monthlyData := monthlyData st; loading := loading st;
     selectedMonth := selectedMonth st; selectedYear := v |}.

(** The effect of lines 37-39: it runs after mounting and after every
    render in which the selection has changed. *)
Definition selection_effect (m : machine) : machine * list effect :=
  let '(st, out) :=
    fetchMonthlyReport (selectedMonth (view m)) (selectedYear (view m)) (view m) in
  ({| view := st;
      pending := pending m ++ [ (selectedMonth (view m), selectedYear (view m)) ] |},
   out).

(** Lines 14-17 and the first run of the effect. *)
Definition mount (month year : Z) : machine * list effect :=
  selection_effect
    {| view := {| monthlyData := []; loading := true;
                  selectedMonth := month; selectedYear := year |};
       pending := [] |}.

(** Setting a state variable to the value it has does not render again,
    and the effect does not run. *)
Definition step (m : machine) (ev : event) : option (machine * list effect) :=
  match ev with
  | SelectMonth v =>
      if selectedMonth (view m) =? v then Some (m, [])
      else Some (selection_effect
                   {| view := set_selectedMonth v (view m); pending := pending m |})
  | SelectYear v =>
      if selectedYear (view m) =? v then Some (m, [])
      else Some (selection_effect
                   {| view := set_selectedYear v (view m); pending := pending m |})
  | Settled i r =>
      match pending m !! i with
      | Some _ =>
          let '(st, out) := fetchMonthlyReport_settled r (view m) in
          Some ({| view := st; pending := delete i (pending m) |}, out)
      | None => None
      end
  end.

Fixpoint run (m : machine) (evs : list event) : option (machine * list effect) :=
  match evs with
  | [] => Some (m, [])
  | ev :: rest =>
      match step m ev with
      | Some (m', out) =>
          match run m' rest with
          | Some (m'', out') => Some (m'', out ++ out')
          | None => None
          end
      | None => None
      end
  end.

Inductive reachable : machine → Prop :=
| reachable_mount month year : reachable (mount month year).1
| reachable_step m ev m' out :
    reachable m → step m ev = Some (m', out) → reachable m'.

End WithHost.
End MonthlyReport.

(** The classes that mark a cell and a row of the report. *)
Definition marked : string := "text-red-600 font-bold".

Definition is_marked (class : string) : bool := String.eqb class marked.

Definition weekend_badge : EmployerDashboard.status_badge :=
  {| EmployerDashboard.badge_class := "bg-slate-50 text-slate-600 border-slate-200";
     EmployerDashboard.badge_label := "Weekend" |}.

(** ** pages/AuthPage.js: the form and its submission *)

Module AuthForm.
Section WithHost.
Context `{Host}.
Import AuthPage.

(** Lines 15-22. *)
Definition initial : state :=
  {| isLogin := true; loading := false;
     formData := {| email := ""; password := ""; name := ""; role := "employee" |} |}.

Definition set_isLogin (b : bool) (st : state) : state :=
  {| isLogin := b; loading := loading st; formData := formData st |}.

Definition set_formData (f : form) (st : state) : state :=
  {| isLogin := isLogin st; loading := loading st; formData := f |}.

(** The request body (lines 30-32): the login sends two fields, the
    registration the whole form. *)
Definition payload (st : state) : jsval :=
  let f := formData st in
  if isLogin st
  then JObj [ ("email", JStr (email f)); ("password", JStr (password f)) ]
  else JObj [ ("email", JStr (email f)); ("password", JStr (password f));
              ("name", JStr (name f)); ("role", JStr (role f)) ].

Inductive input : Type :=
| Email
| Password
| Name.

Inductive event : Type :=
| Change (i : input) (value : string)   (* [onChange] of an input *)
| ChooseRole (employer : bool)          (* the role buttons, lines 140 and 154 *)
| SelectTab (v : string)                (* [onValueChange] of the tabs, line 59 *)
| Submit                                (* [onSubmit] of the form that is shown *)
| Settled (i : nat) (r : reply jsval).

(** [setFormData({ ...formData, key: value })]. *)
Definition change (i : input) (value : string) (f : form) : form :=
  match i with
  | Email => {| email := value; password := password f; name := name f; role := role f |}
  | Password => {| email := email f; password := value; name := name f; role := role f |}
  | Name => {| email := email f; password := password f; name := value; role := role f |}
  end.

Definition choose_role (employer : bool) (f : form) : form :=
  {| email := email f; password := password f; name := name f;
     role := if employer then "employer" else "employee" |}.

(** The view, and for every [handleSubmit] that is suspended at its
    [await] the value of [isLogin] it closed over. *)
Record machine : Type := {
  view : state;
  running : list bool
}.

Definition mount : machine := {| view := initial; running := [] |}.

(** Only the form of the selected tab is rendered: the name input and
    the role buttons belong to the registration.  The submit button of
    either form is disabled while [loading]. *)
Definition step (m : machine) (ev : event) : option (machine * list effect) :=
  let st := view m in
  match ev with
  | Change i value =>
      match i with
      | Name => if isLogin st then None
                else Some ({| view := set_formData (change i value (formData st)) st;
                              running := running m |}, [])
      | _ => Some ({| view := set_formData (change i value (formData st)) st;
                      running := running m |}, [])
      end
  | ChooseRole employer =>
      if isLogin st then None
      else Some ({| view := set_formData (choose_role employer (formData st)) st;
                    running := running m |}, [])
  | SelectTab v =>
      Some ({| view := set_isLogin (String.eqb v "login") st;
               running := running m |}, [])
  | Submit =>
      if loading st then None
      else let '(st', out) := handleSubmit st in
           Some ({| view := st'; running := running m ++ [ isLogin st ] |}, out)
  | Settled i r =>
      match running m !! i with
      | Some submitted =>
          Some ({| view := set_loading false st; running := delete i (running m) |},
                (handleSubmit_settled r (set_isLogin submitted st)).2)
      | None => None
      end
  end.

Inductive reachable : machine → Prop :=
| reachable_mount : reachable mount
| reachable_step m ev m' out :
    reachable m → step m ev = Some (m', out) → reachable m'.

End WithHost.
End AuthForm.

(** What the form keeps: a role that is one of the two, and a
    submission in flight exactly while [loading] is set. *)
Definition form_invariant (m : AuthForm.machine) : Prop :=
  (AuthPage.role (AuthPage.formData (AuthForm.view m)) = "employee"
   ∨ AuthPage.role (AuthPage.formData (AuthForm.view m)) = "employer")
  ∧ length (AuthForm.running m)
    = (if AuthPage.loading (AuthForm.view m) then 1 else 0)%nat.

(** ** The stand-alone login form (src/unnamed/part_000) *)

Module LoginForm.
Section WithHost.
Context `{Host}.

Record state : Type := {
  email : string;
  password : string
}.

Inductive action : Type :=
| Fetch (url : string) (body : jsval)
| StoreItem (key value : string)
| Alert (message : string).

(** What [fetch] resolves with: [res.ok], and the outcome of
    [res.json()], which throws on a body that is not JSON. *)
Record response : Type := {
  ok : bool;
  json : result jsval
}.

(** [fetch] rejects when no response arrives. *)
Inductive outcome : Type :=
| Unreachable
| Replied (res : response).

(** Lines 8-12. *)
Definition login (st : state) : list action :=
  [ Fetch "http://127.0.0.1:8000/auth/login"
      (JObj [ ("email", JStr (email st)); ("password", JStr (password st)) ]) ].

(** Lines 14-22.  A throw rejects the promise of [login], which nothing
    handles.  The result is the storage and the actions of a run that
    ends without a throw.  (When the conversion of the role throws, the
    token has been stored already; the storage of a run that throws is
    not kept here.) *)
Definition login_settled (o : outcome) (storage : gmap string string)
  : result (gmap string string * list action) :=
  match o with
  | Unreachable => Throw TypeError
  | Replied res =>
      data ← json res;
      if ok res
      then
        token ← get_prop data "access_token";
        token_text ← to_string token;
        stored ← App.setItem "token" token storage;
        role ← get_prop data "role";
        role_text ← to_string role;
        stored ← App.setItem "role" role stored;
        mret (stored,
              [ StoreItem "token" token_text;
                StoreItem "role" role_text;
                Alert ("Logged in as " +:+ role_text) ])
      else
        detail ← get_prop data "detail";
        text ← to_string detail;
        mret (storage, [ Alert text ])
  end.

End WithHost.
End LoginForm.

(** * Attendance status derivation *)

Ltac unfold_result := cbv [mbind result_bind mret result_ret] in *.

Ltac bind_inv H :=
  cbv [mbind result_bind mret result_ret] in H;
  repeat match type of H with
         | bind ?m _ = Ok _ =>
             let E := fresh "E" in
             destruct m eqn:E; cbn [bind] in H; [| discriminate H]
         end.


Section Derivation.
Import EmployeeDashboard.

Lemma truthy_timestamp (v : jsval) : is_timestamp v = true → truthy v = true.
Proof. by destruct v. Qed.

Lemma truthy_absent (v : jsval) : is_absent v = true → truthy v = false.
Proof. by destruct v. Qed.

Lemma optional_timestamp_truthy (v : jsval) :
  optional is_timestamp v = true → truthy v = is_present v.
Proof.
  unfold optional, is_present. destruct (is_absent v) eqn:Ha; simpl.
  - intros _. by apply truthy_absent.
  - apply truthy_timestamp.
Qed.

(** The value of [isPunchedIn] is truthy only when it is [true] itself. *)
Lemma isPunchedIn_truthy (a : option AttendanceRecord) :
  truthy (isPunchedIn a) = true ↔ isPunchedIn a = JBool true.
Proof.
  unfold isPunchedIn, js_and, js_not.
  destruct (truthy (field punch_in a)) eqn:Hin.
  - simpl. split; [by intros -> | by intros [= ->]].
  - rewrite Hin. split; [done | intros Heq; by rewrite Heq in Hin].
Qed.

Lemma isPunchedIn_spec (a : option AttendanceRecord) :
  isPunchedIn a = JBool true ↔
  truthy (field punch_in a) = true ∧ truthy (field punch_out a) = false.
Proof.
  rewrite <- isPunchedIn_truthy. unfold isPunchedIn, js_and, js_not.
  destruct (truthy (field punch_in a)) eqn:Hin; simpl.
  - destruct (truthy (field punch_out a)); simpl; intuition congruence.
  - rewrite Hin. intuition congruence.
Qed.

(** C1. For a record whose punch fields are timestamps or absent,
    [isPunchedIn] is [true] exactly when [punch_in] is present and
    [punch_out] is absent; in that case, setting [punch_out] makes it
    [false]. *)
Theorem isPunchedIn_iff (r : AttendanceRecord) :
  optional is_timestamp (punch_in r) = true →
  optional is_timestamp (punch_out r) = true →
  (isPunchedIn (Some r) = JBool true ↔
     is_present (punch_in r) = true ∧ is_absent (punch_out r) = true)
  ∧ (truthy (isPunchedIn (Some r)) = true ↔
     is_present (punch_in r) = true ∧ is_absent (punch_out r) = true)
  ∧ (is_present (punch_in r) = true → is_absent (punch_out r) = true →
     ∀ t, is_timestamp t = true →
       isPunchedIn (Some (with_punch_out t r)) = JBool false).
Proof.
  intros Hin Hout.
  pose proof (optional_timestamp_truthy _ Hin) as Tin.
  pose proof (optional_timestamp_truthy _ Hout) as Tout.
  assert (Hmain : isPunchedIn (Some r) = JBool true ↔
            is_present (punch_in r) = true ∧ is_absent (punch_out r) = true).
  { rewrite isPunchedIn_spec. simpl. rewrite Tin, Tout. unfold is_present.
    destruct (is_absent (punch_out r)), (is_absent (punch_in r)); simpl;
      intuition congruence. }
  split; [exact Hmain |]. split.
  - by rewrite isPunchedIn_truthy.
  - intros Hp _ t Ht. unfold isPunchedIn, js_and, js_not. simpl.
    rewrite Tin, Hp. by rewrite (truthy_timestamp t Ht).
Qed.

Lemma isPunchedIn_iff_witness :
  isPunchedIn (Some (shift (JStr "2024-01-15T09:00:00.000Z") JNull)) = JBool true
  ∧ isPunchedIn (Some (with_punch_out (JStr "2024-01-15T17:00:00.000Z")
                         (shift (JStr "2024-01-15T09:00:00.000Z") JNull)))
    = JBool false.
Proof.
  pose proof (isPunchedIn_iff (shift (JStr "2024-01-15T09:00:00.000Z") JNull)
                eq_refl eq_refl) as (H1 & _ & H3).
  split.
  - apply H1. split; reflexivity.
  - apply H3; reflexivity.
Defined.

End Derivation.

(** * Elapsed time *)

Section Elapsed.
Context `{Host}.
Import EmployeeDashboard.

(** The value computed once [punch_in] is truthy and parses to [T]. *)
Lemma calculateElapsedTime_value (t : option TodayStatus) (T now : Z) :
  truthy (field punch_in (attendance_of t)) = true →
  new_Date (field punch_in (attendance_of t)) = Ok (Some T) →
  calculateElapsedTime t now
  = Ok (pretty ((now - T) / 3600000) +:+ "h "
        +:+ pretty (Z.rem (now - T) 3600000 / 60000) +:+ "m").
Proof.
  intros Htruthy Hdate. unfold calculateElapsedTime.
  by rewrite Htruthy, Hdate.
Qed.

Lemma calculateElapsedTime_absent (t : option TodayStatus) (now : Z) :
  truthy (field punch_in (attendance_of t)) = false →
  calculateElapsedTime t now = Ok "0h 0m".
Proof. intros Hf. unfold calculateElapsedTime. by rewrite Hf. Qed.

Lemma hours_minutes_split (d : Z) :
  0 ≤ d →
  d / 3600000 = d / 60000 / 60
  ∧ Z.rem d 3600000 / 60000 = (d / 60000) mod 60.
Proof.
  intros Hd. split.
  - rewrite Z.div_div by lia. reflexivity.
  - rewrite Z.rem_mod_nonneg by lia.
    replace 3600000 with (60000 * 60) by reflexivity.
    rewrite Z.rem_mul_r by lia.
    rewrite Z.mul_comm, Z.div_add by lia.
    rewrite Z.div_small by (apply Z.mod_pos_bound; lia). lia.
Qed.

(** C2. For a punch-in time [T] and a current time [now >= T] (both in
    milliseconds), the display is the whole hours
    [floor(minutes / 60)] and the whole minutes [minutes mod 60] of the
    elapsed whole minutes, nothing else; anywhere in the 126th minute it
    reads "2h 5m". *)
Theorem calculateElapsedTime_floor (t : option TodayStatus) (T now : Z) :
  truthy (field punch_in (attendance_of t)) = true →
  new_Date (field punch_in (attendance_of t)) = Ok (Some T) →
  T ≤ now →
  let minutes := (now - T) / 60000 in
  calculateElapsedTime t now
  = Ok (pretty (minutes / 60) +:+ "h " +:+ pretty (minutes mod 60) +:+ "m")
  ∧ (now = T + 125 * 60000 → calculateElapsedTime t now = Ok "2h 5m")
  ∧ (T + 125 * 60000 ≤ now < T + 126 * 60000 →
     calculateElapsedTime t now = Ok "2h 5m").
Proof.
  intros Htruthy Hdate Hle minutes.
  destruct (hours_minutes_split (now - T)) as [Hh Hm]; [lia |].
  assert (Heq : calculateElapsedTime t now
                = Ok (pretty (minutes / 60) +:+ "h " +:+ pretty (minutes mod 60) +:+ "m")).
  { rewrite (calculateElapsedTime_value t T now Htruthy Hdate).
    by rewrite Hh, Hm. }
  assert (Hwin : T + 125 * 60000 ≤ now < T + 126 * 60000 →
                 calculateElapsedTime t now = Ok "2h 5m").
  { intros Hrange. rewrite Heq.
    assert (Hmin : minutes = 125).
    { unfold minutes. symmetry. apply (Z.div_unique _ _ _ (now - T - 125 * 60000)); lia. }
    by rewrite Hmin. }
  split; [exact Heq |]. split; [| exact Hwin].
  intros ->. apply Hwin. lia.
Qed.

End Elapsed.

Lemma calculateElapsedTime_floor_witness :
  EmployeeDashboard.calculateElapsedTime
    (Some {| attendance := Some (shift (JStr "2024-01-15T09:00:00.000Z") JNull) |})
    (1705309200000 + 125 * 60000)
  = Ok "2h 5m".
Proof.
  destruct (calculateElapsedTime_floor
              (Some {| attendance := Some (shift (JStr "2024-01-15T09:00:00.000Z") JNull) |})
              1705309200000 (1705309200000 + 125 * 60000))
    as (_ & Hexact & _).
  - reflexivity.
  - reflexivity.
  - lia.
  - apply Hexact. reflexivity.
Defined.

(** * Status badges *)

Section StatusBadge.
Context `{Host}.

Lemma known_status_false (s : string) :
  known_status s = false →
  "complete" ≠ s ∧ "incomplete" ≠ s ∧ "break_exceeded" ≠ s ∧ "active" ≠ s.
Proof.
  unfold known_status. rewrite !orb_false_iff, !String.eqb_neq.
  intuition congruence.
Qed.

(** The four known values keep their fixed style. *)
Lemma getStatusBadge_known :
  EmployeeDashboard.getStatusBadge (JStr "complete")
  = Ok (JStr "bg-emerald-50 text-emerald-700 border-emerald-200")
  ∧ EmployeeDashboard.getStatusBadge (JStr "incomplete")
    = Ok (JStr "bg-amber-50 text-amber-700 border-amber-200")
  ∧ EmployeeDashboard.getStatusBadge (JStr "break_exceeded")
    = Ok (JStr "bg-red-50 text-red-700 border-red-200")
  ∧ EmployeeDashboard.getStatusBadge (JStr "active") = Ok employee_active_style
  ∧ EmployerDashboard.getStatusBadge (JStr "complete")
    = Ok (EmployerDashboard.badge "bg-emerald-50 text-emerald-700 border-emerald-200"
            "Complete")
  ∧ EmployerDashboard.getStatusBadge (JStr "incomplete")
    = Ok (EmployerDashboard.badge "bg-amber-50 text-amber-700 border-amber-200"
            "Incomplete")
  ∧ EmployerDashboard.getStatusBadge (JStr "break_exceeded")
    = Ok (EmployerDashboard.badge "bg-red-50 text-red-700 border-red-200"
            "Break Exceeded")
  ∧ EmployerDashboard.getStatusBadge (JStr "active") = Ok employer_active_badge.
Proof. repeat split; exact eq_refl. Qed.

(** The badge of a key: what [getStatusBadge] returns once the status
    has been converted to a property key. *)
Lemma employee_badge_of_key (v : jsval) (key : string) :
  to_string v = Ok key →
  EmployeeDashboard.getStatusBadge v = EmployeeDashboard.getStatusBadge (JStr key).
Proof. intros Hkey. unfold EmployeeDashboard.getStatusBadge. by rewrite Hkey. Qed.

Lemma employer_badge_of_key (v : jsval) (key : string) :
  to_string v = Ok key →
  EmployerDashboard.getStatusBadge v = EmployerDashboard.getStatusBadge (JStr key).
Proof. intros Hkey. unfold EmployerDashboard.getStatusBadge. by rewrite Hkey. Qed.

(** A string that is neither a known status nor the name of a property
    of [Object.prototype] falls back to the "active" style. *)
Lemma getStatusBadge_fallback (s : string) :
  known_status s = false →
  Object_prototype !! s = None →
  EmployeeDashboard.getStatusBadge (JStr s) = Ok employee_active_style
  ∧ EmployerDashboard.getStatusBadge (JStr s) = Ok employer_active_badge.
Proof.
  intros Hknown Hproto.
  destruct (known_status_false s Hknown) as (H1 & H2 & H3 & H4).
  unfold EmployeeDashboard.getStatusBadge, EmployerDashboard.getStatusBadge.
  unfold to_string, to_primitive, primitive_to_string. unfold_result. cbn [bind].
  unfold lookup_property at 1 3.
  unfold EmployeeDashboard.badges, EmployerDashboard.badges at 1.
  cbn [list_to_map foldr uncurry fst snd].
  rewrite !lookup_insert_ne, !lookup_empty, Hproto by done.
  split; reflexivity.
Qed.

(** An absent status takes the fallback too: the key is "undefined". *)
Lemma getStatusBadge_absent (v : jsval) :
  is_absent v = true →
  EmployeeDashboard.getStatusBadge v = Ok employee_active_style
  ∧ EmployerDashboard.getStatusBadge v = Ok employer_active_badge.
Proof. destruct v; try discriminate; intros _; split; exact eq_refl. Qed.

(** C4 at the status "constructor": the lookup finds the property that
    the [badges] object inherits from [Object.prototype], which is
    truthy, and the fallback to the "active" style is not taken. *)
Theorem getStatusBadge_inherited :
  EmployeeDashboard.getStatusBadge (JStr "constructor") = Ok (JBuiltin "Object" true)
  ∧ EmployeeDashboard.getStatusBadge (JStr "constructor") ≠ Ok employee_active_style
  ∧ EmployerDashboard.getStatusBadge (JStr "constructor") = Ok (JBuiltin "Object" true)
  ∧ EmployerDashboard.getStatusBadge (JStr "constructor") ≠ Ok employer_active_badge
  ∧ known_status "constructor" = false.
Proof. repeat split; try exact eq_refl; discriminate. Qed.

End StatusBadge.

(** * Rendering of records *)

Section Rendering.
Context `{Host}.

Lemma append_h_not_dash (s : string) : s +:+ "h" ≠ "-".
Proof. destruct s as [| c [| c' s]]; discriminate. Qed.

Lemma hours_cell_truthy (v : jsval) :
  truthy v = true →
  hours_cell v = (text ← to_string v; mret (text +:+ "h")).
Proof. intros Ht. unfold hours_cell. by rewrite Ht. Qed.

Lemma hours_cell_falsy (v : jsval) : truthy v = false → hours_cell v = Ok "-".
Proof. intros Hf. unfold hours_cell. by rewrite Hf. Qed.

Lemma hours_cell_dash (v : jsval) : hours_cell v = Ok "-" ↔ truthy v = false.
Proof.
  split; [| apply hours_cell_falsy].
  destruct (truthy v) eqn:Ht; [| done].
  rewrite (hours_cell_truthy v Ht). unfold_result.
  destruct (to_string v) as [text |]; cbn [bind]; [| discriminate].
  intros [= Heq]. by apply append_h_not_dash in Heq.
Qed.

Lemma truthy_number (q : Q) : truthy (JNum q) = negb (is_zero (JNum q)).
Proof.
  unfold truthy, is_zero, Qeq_bool. cbn [Qnum Qden].
  by rewrite Z.mul_1_r.
Qed.

Lemma time_cell_absent (v : jsval) : is_absent v = true → time_cell v = Ok "-".
Proof. intros Ha. unfold time_cell. by rewrite (truthy_absent v Ha). Qed.

Lemma hours_cell_absent (v : jsval) : is_absent v = true → hours_cell v = Ok "-".
Proof. intros Ha. apply hours_cell_falsy. by apply truthy_absent. Qed.

(** A Number, or an absent field, always has its cell: the
    conversion of a Number to a string cannot throw. *)
Lemma hours_cell_number (v : jsval) :
  optional is_number v = true →
  hours_cell v
  = Ok (if is_present v && negb (is_zero v)
        then match v with
             | JNum q => number_to_string q +:+ "h"
             | _ => "-"
             end
        else "-").
Proof.
  destruct v; try discriminate; intros _; try exact eq_refl.
  unfold hours_cell. rewrite truthy_number. cbn [is_present is_absent negb andb].
  by destruct (is_zero (JNum q)).
Qed.

(** What a lookup in the employee's [badges] can yield. *)
Lemma employee_lookup_cases (key : string) (P : jsval → Prop) :
  (∀ class, P (JStr class)) →
  (∀ name callable, P (JBuiltin name callable)) →
  P JUndefined →
  P (lookup_property EmployeeDashboard.badges key).
Proof.
  intros Hown Hinherited Hnone.
  unfold lookup_property, EmployeeDashboard.badges.
  cbn [list_to_map foldr uncurry fst snd].
  repeat (rewrite lookup_insert; case_decide; [apply Hown |]).
  rewrite lookup_empty. unfold Object_prototype.
  cbn [list_to_map foldr uncurry fst snd].
  repeat (rewrite lookup_insert; case_decide; [apply Hinherited |]).
  rewrite lookup_empty. apply Hnone.
Qed.

(** What a lookup in the employer's [badges] can yield. *)
Lemma employer_lookup_cases (key : string) (P : jsval → Prop) :
  (∀ class label, P (EmployerDashboard.badge class label)) →
  (∀ name callable, P (JBuiltin name callable)) →
  P JUndefined →
  P (lookup_property EmployerDashboard.badges key).
Proof.
  intros Hown Hinherited Hnone.
  unfold lookup_property, EmployerDashboard.badges.
  cbn [list_to_map foldr uncurry fst snd].
  repeat (rewrite lookup_insert; case_decide; [apply Hown |]).
  rewrite lookup_empty. unfold Object_prototype.
  cbn [list_to_map foldr uncurry fst snd].
  repeat (rewrite lookup_insert; case_decide; [apply Hinherited |]).
  rewrite lookup_empty. apply Hnone.
Qed.

(** Once the status has a key, the class of the employee's badge is a
    text: the style itself, or the printed built-in that the lookup
    found in [Object.prototype]. *)
Lemma employee_class_total (v : jsval) (key : string) :
  to_string v = Ok key →
  ∃ class, (badge ← EmployeeDashboard.getStatusBadge v; to_string badge) = Ok class.
Proof.
  intros Hkey. unfold EmployeeDashboard.getStatusBadge. rewrite Hkey.
  unfold_result. cbn [bind].
  apply (employee_lookup_cases key
           (λ x, ∃ class,
              to_string (js_or x (lookup_property EmployeeDashboard.badges "active"))
              = Ok class)).
  - intros class. unfold js_or. destruct (truthy (JStr class)); by eexists.
  - intros name [|]; by eexists.
  - by eexists.
Qed.

(** Likewise the class and the label of the employer's badge. *)
Lemma employer_badge_total (v : jsval) (key : string) :
  to_string v = Ok key →
  ∃ class label,
    (badge ← EmployerDashboard.getStatusBadge v;
     class ← get_prop badge "class";
     class ← to_string class;
     badge ← EmployerDashboard.getStatusBadge v;
     label ← get_prop badge "label";
     mret (class, label)) = Ok (class, label)
    ∧ ∃ text, jsx_child label = Ok text.
Proof.
  intros Hkey. unfold EmployerDashboard.getStatusBadge. rewrite Hkey.
  unfold_result. cbn [bind].
  apply (employer_lookup_cases key
           (λ x, ∃ class label,
              bind (get_prop (js_or x (lookup_property EmployerDashboard.badges "active"))
                      "class")
                (λ c, bind (to_string c)
                   (λ c', bind (get_prop (js_or x (lookup_property
                                                      EmployerDashboard.badges "active"))
                                  "label")
                      (λ l, Ok (c', l))))
              = Ok (class, label)
              ∧ ∃ text, jsx_child label = Ok text)).
  - intros class label. eexists _, _. split; [exact eq_refl | by eexists].
  - intros name [|]; eexists _, _; (split; [exact eq_refl | by eexists]).
  - eexists _, _. split; [exact eq_refl | by eexists].
Qed.

(** Today's summary of a record whose cells can be rendered and whose
    status is a string. *)
Lemma render_summary_string (r : AttendanceRecord) (pin pout total break s : string) :
  time_cell (punch_in r) = Ok pin →
  time_cell (punch_out r) = Ok pout →
  hours_cell (total_hours r) = Ok total →
  hours_cell (break_duration r) = Ok break →
  status r = JStr s →
  ∃ class,
    (badge ← EmployeeDashboard.getStatusBadge (JStr s); to_string badge) = Ok class
    ∧ EmployeeDashboard.render_summary (Some r)
      = Ok (Some {| EmployeeDashboard.sum_punch_in := pin;
                    EmployeeDashboard.sum_punch_out := pout;
                    EmployeeDashboard.sum_total_hours := total;
                    EmployeeDashboard.sum_break_duration := break;
                    EmployeeDashboard.sum_status_class := class;
                    EmployeeDashboard.sum_status_text
                      := toUpperCase (replace_first "_" " " s) |}).
Proof.
  intros Hpin Hpout Htotal Hbreak Hs.
  destruct (employee_class_total (JStr s) s eq_refl) as [class Hclass].
  exists class. split; [exact Hclass |].
  unfold EmployeeDashboard.render_summary.
  rewrite Hpin, Hpout, Htotal, Hbreak, Hs. unfold_result. cbn [bind].
  destruct (EmployeeDashboard.getStatusBadge (JStr s)) as [badge |]; [| discriminate].
  cbn [bind] in *. by rewrite Hclass.
Qed.

Lemma render_history_row_string (r : AttendanceRecord)
    (d pin pout total break s : string) (key : option string) :
  format_parseISO (date r) "MMM d, yyyy" = Ok d →
  time_cell (punch_in r) = Ok pin →
  time_cell (punch_out r) = Ok pout →
  hours_cell (total_hours r) = Ok total →
  hours_cell (break_duration r) = Ok break →
  status r = JStr s →
  row_key (attendance_id r) = Ok key →
  ∃ class,
    (badge ← EmployeeDashboard.getStatusBadge (JStr s); to_string badge) = Ok class
    ∧ EmployeeDashboard.render_history_row r
      = Ok {| EmployeeDashboard.row_key_text := key;
              EmployeeDashboard.row_date := d;
              EmployeeDashboard.row_punch_in := pin;
              EmployeeDashboard.row_punch_out := pout;
              EmployeeDashboard.row_hours := total;
              EmployeeDashboard.row_break := break;
              EmployeeDashboard.row_status_class := class;
              EmployeeDashboard.row_status_text := replace_first "_" " " s |}.
Proof.
  intros Hd Hpin Hpout Htotal Hbreak Hs Hkey.
  destruct (employee_class_total (JStr s) s eq_refl) as [class Hclass].
  exists class. split; [exact Hclass |].
  unfold EmployeeDashboard.render_history_row.
  rewrite Hd, Hpin, Hpout, Htotal, Hbreak, Hs, Hkey. unfold_result. cbn [bind].
  destruct (EmployeeDashboard.getStatusBadge (JStr s)) as [badge |]; [| discriminate].
  cbn [bind] in *. by rewrite Hclass.
Qed.

(** A row of the monthly report whose cells can be rendered and whose
    status has a key (or is not needed, on a weekend). *)
Lemma render_row_total (r : AttendanceRecord) (d name email pin pout total break : string)
    (key : option string) :
  row_key (attendance_id r) = Ok key →
  format_parseISO (date r) "MMM d, yyyy" = Ok d →
  time_cell (punch_in r) = Ok pin →
  time_cell (punch_out r) = Ok pout →
  hours_cell (total_hours r) = Ok total →
  hours_cell (break_duration r) = Ok break →
  truthy (is_weekend r) = true ∨ (∃ key, to_string (status r) = Ok key) →
  jsx_child (user_name r) = Ok name →
  jsx_child (user_email r) = Ok email →
  let isIncomplete :=
    js_and (js_and (js_not (is_complete r)) (js_not (is_weekend r))) (punch_in r) in
  let isBreakExceeded := JBool (strict_eq_str (status r) "break_exceeded") in
  ∃ b, EmployerDashboard.render_row r
       = Ok {| EmployerDashboard.row_key_text := key;
               EmployerDashboard.row_class :=
                 if truthy (js_or isIncomplete isBreakExceeded)
                 then "bg-red-50 hover:bg-red-100" else "hover:bg-accent/50";
               EmployerDashboard.row_date := d;
               EmployerDashboard.row_employee := name;
               EmployerDashboard.row_email := email;
               EmployerDashboard.row_punch_in := pin;
               EmployerDashboard.row_punch_out := pout;
               EmployerDashboard.row_hours_class :=
                 if truthy isIncomplete then "text-red-600 font-bold" else "";
               EmployerDashboard.row_hours := total;
               EmployerDashboard.row_break_class :=
                 if truthy isBreakExceeded then "text-red-600 font-bold" else "";
               EmployerDashboard.row_break := break;
               EmployerDashboard.row_status := b |}
       ∧ (truthy (is_weekend r) = true → b = weekend_badge).
Proof.
  intros Hkey Hd Hpin Hpout Htotal Hbreak Hstatus Hname Hemail
    isIncomplete isBreakExceeded.
  unfold EmployerDashboard.render_row. fold isIncomplete isBreakExceeded.
  rewrite Hd, Hpin, Hpout, Htotal, Hbreak, Hname, Hemail, Hkey.
  destruct (truthy (is_weekend r)) eqn:Hweekend.
  - unfold_result. cbn [bind fst snd jsx_child]. eexists. split; [reflexivity | done].
  - destruct Hstatus as [[=] | [status_key Hstatus]].
    destruct (employer_badge_total _ status_key Hstatus)
      as (class & label & Hbadge & text & Htext).
    unfold_result. cbn [bind]. unfold_result. rewrite Hbadge. cbn [bind fst snd].
    rewrite Htext. cbn [bind]. eexists. split; [reflexivity | discriminate].
Qed.

(** C10. An hours or break field that is present but [0] renders as the
    placeholder "-", like an absent one; a Number is displayed (followed
    by "h") exactly when it is present and not zero; and each of the
    three renderings (today's summary, history row, monthly report row)
    of a record whose other cells can be rendered shows these cells for
    both fields. *)
Theorem hours_cell_zero_is_placeholder :
  (∀ v, is_zero v = true →
        hours_cell v = Ok "-"
        ∧ hours_cell v = hours_cell JUndefined
        ∧ hours_cell v = hours_cell JNull)
  ∧ (∀ v, optional is_number v = true →
          ∃ text, hours_cell v = Ok text
                  ∧ (text ≠ "-" ↔ is_present v = true ∧ is_zero v = false)
                  ∧ (is_present v = true → is_zero v = false →
                     ∃ digits, to_string v = Ok digits ∧ text = digits +:+ "h"))
  ∧ (∀ r pin pout s,
       time_cell (punch_in r) = Ok pin →
       time_cell (punch_out r) = Ok pout →
       optional is_number (total_hours r) = true →
       optional is_number (break_duration r) = true →
       status r = JStr s →
       ∃ shown, EmployeeDashboard.render_summary (Some r) = Ok (Some shown)
                ∧ hours_cell (total_hours r)
                  = Ok (EmployeeDashboard.sum_total_hours shown)
                ∧ hours_cell (break_duration r)
                  = Ok (EmployeeDashboard.sum_break_duration shown))
  ∧ (∀ r key d pin pout s,
       row_key (attendance_id r) = Ok key →
       format_parseISO (date r) "MMM d, yyyy" = Ok d →
       time_cell (punch_in r) = Ok pin →
       time_cell (punch_out r) = Ok pout →
       optional is_number (total_hours r) = true →
       optional is_number (break_duration r) = true →
       status r = JStr s →
       ∃ row, EmployeeDashboard.render_history_row r = Ok row
              ∧ hours_cell (total_hours r) = Ok (EmployeeDashboard.row_hours row)
              ∧ hours_cell (break_duration r) = Ok (EmployeeDashboard.row_break row))
  ∧ (∀ r key d name email pin pout s,
       row_key (attendance_id r) = Ok key →
       format_parseISO (date r) "MMM d, yyyy" = Ok d →
       jsx_child (user_name r) = Ok name →
       jsx_child (user_email r) = Ok email →
       time_cell (punch_in r) = Ok pin →
       time_cell (punch_out r) = Ok pout →
       optional is_number (total_hours r) = true →
       optional is_number (break_duration r) = true →
       status r = JStr s →
       ∃ row, EmployerDashboard.render_row r = Ok row
              ∧ hours_cell (total_hours r) = Ok (EmployerDashboard.row_hours row)
              ∧ hours_cell (break_duration r) = Ok (EmployerDashboard.row_break row)).
Proof.
  split; [| split; [| split; [| split]]].
  - intros v Hz. destruct v; try discriminate.
    assert (Hf : hours_cell (JNum q) = Ok "-").
    { apply hours_cell_falsy. by rewrite truthy_number, Hz. }
    by rewrite Hf.
  - intros v Hopt. rewrite (hours_cell_number v Hopt). eexists. split; [reflexivity |].
    destruct v; try discriminate; cbn [is_present is_absent negb andb].
    + split; [intuition congruence | intros [=]].
    + split; [intuition congruence | intros [=]].
    + destruct (is_zero (JNum q)) eqn:Hq; cbn [negb].
      * split; [intuition congruence | intros _ [=]].
      * split; [split; [intros _; by split | intros _; apply append_h_not_dash] |].
        intros _ _. by eexists.
  - intros r pin pout s Hpin Hpout Htotal Hbreak Hs.
    destruct (render_summary_string r pin pout _ _ s Hpin Hpout
                (hours_cell_number _ Htotal) (hours_cell_number _ Hbreak) Hs)
      as (class & _ & Hshown).
    eexists. split; [exact Hshown |].
    split; by apply hours_cell_number.
  - intros r key d pin pout s Hkey Hd Hpin Hpout Htotal Hbreak Hs.
    destruct (render_history_row_string r d pin pout _ _ s key Hd Hpin Hpout
                (hours_cell_number _ Htotal) (hours_cell_number _ Hbreak) Hs Hkey)
      as (class & _ & Hrow).
    eexists. split; [exact Hrow |].
    split; by apply hours_cell_number.
  - intros r key d name email pin pout s Hkey Hd Hname Hemail Hpin Hpout Htotal Hbreak Hs.
    destruct (render_row_total r d name email pin pout _ _ key Hkey Hd Hpin Hpout
                (hours_cell_number _ Htotal) (hours_cell_number _ Hbreak))
      as (b & Hrow & _); try assumption.
    { right. exists s. by rewrite Hs. }
    eexists. split; [exact Hrow |].
    split; by apply hours_cell_number.
Qed.

End Rendering.

(** A record with no hours of work yet and half an hour of break. *)
Lemma hours_cell_zero_is_placeholder_witness :
  let r := with_hours (JNum 0) (JNum (1 # 2))
             (shift (JStr "2024-01-15T09:00:00.000Z") JNull) in
  hours_cell (JNum 0) = Ok "-"
  ∧ hours_cell (JNum (15 # 2)) = Ok "7.5h"
  ∧ (∃ shown, EmployeeDashboard.render_summary (Some r) = Ok (Some shown)
              ∧ EmployeeDashboard.sum_total_hours shown = "-"
              ∧ EmployeeDashboard.sum_break_duration shown = "0.5h")
  ∧ (∃ row, EmployeeDashboard.render_history_row r = Ok row
            ∧ EmployeeDashboard.row_hours row = "-"
            ∧ EmployeeDashboard.row_break row = "0.5h")
  ∧ (∃ row, EmployerDashboard.render_row r = Ok row
            ∧ EmployerDashboard.row_hours row = "-"
            ∧ EmployerDashboard.row_break row = "0.5h").
Proof.
  intros r.
  destruct (hours_cell_zero_is_placeholder (H := SampleHost.sample_host))
    as (Hzero & Hnum & Hsummary & Hhistory & Hreport).
  split; [apply (Hzero (JNum 0)); reflexivity |].
  split.
  { destruct (Hnum (JNum (15 # 2)) eq_refl) as (text & Htext & _ & Hshown).
    destruct (Hshown eq_refl eq_refl) as (digits & Hdigits & ->).
    rewrite Htext. injection Hdigits as <-. reflexivity. }
  split; [| split].
  - destruct (Hsummary r "09:00 AM" "-" "active") as (shown & Hshown & Htotal & Hbreak);
      [exact eq_refl | exact eq_refl | exact eq_refl | exact eq_refl | exact eq_refl |].
    exists shown. split; [exact Hshown |].
    injection Htotal as <-. injection Hbreak as <-. split; reflexivity.
  - destruct (Hhistory r (Some "a1") "Jan 15, 2024" "09:00 AM" "-" "active")
      as (row & Hrow & Htotal & Hbreak);
      [exact eq_refl | exact eq_refl | exact eq_refl | exact eq_refl | exact eq_refl
       | exact eq_refl | exact eq_refl |].
    exists row. split; [exact Hrow |].
    injection Htotal as <-. injection Hbreak as <-. split; reflexivity.
  - destruct (Hreport r (Some "a1") "Jan 15, 2024" "Ada" "ada@example.com" "09:00 AM"
                "-" "active")
      as (row & Hrow & Htotal & Hbreak);
      [exact eq_refl | exact eq_refl | exact eq_refl | exact eq_refl | exact eq_refl
       | exact eq_refl | exact eq_refl | exact eq_refl | exact eq_refl |].
    exists row. split; [exact Hrow |].
    injection Htotal as <-. injection Hbreak as <-. split; reflexivity.
Defined.

(** * Absent fields *)

Section AbsentFields.
Context `{Host}.

Lemma status_replace_absent (v : jsval) :
  is_absent v = true → status_replace v = Throw TypeError.
Proof. by destruct v. Qed.

Lemma throws_bind {A B} (m : result A) (k : A → result B) :
  (∀ a, throws (k a) = true) → throws (bind m k) = true.
Proof. intros Hk. destruct m; [apply Hk | reflexivity]. Qed.

(** The conversion of a value to a string throws nothing but a
    [TypeError]. *)
Lemma to_primitive_throws (first second : string) (v : jsval) (e : exn) :
  to_primitive first second v = Throw e → e = TypeError.
Proof.
  assert (Hcall : ∀ f this (k : jsval → result jsval),
            (∀ r, k r = Throw e → e = TypeError) →
            bind (call_builtin f this) k = Throw e → e = TypeError).
  { intros f this k Hk. unfold call_builtin.
    destruct (String.eqb f "toString"); [apply Hk |].
    destruct (String.eqb f "valueOf"); [apply Hk |].
    destruct (built_in_call f this); [apply Hk | by intros [=]]. }
  unfold to_primitive.
  destruct v as [| | | | | | props | name [|]]; try discriminate.
  unfold_result.
  assert (Hlast : ∀ method,
            match method with
            | JBuiltin f true =>
                bind (call_builtin f (JObj props))
                  (λ r, if is_object r then Throw TypeError else Ok r)
            | _ => Throw TypeError
            end = Throw e → e = TypeError).
  { intros [| | | | | | | f [|]]; try congruence.
    apply Hcall. intros r. destruct (is_object r); congruence. }
  destruct (lookup_property (list_to_map props) first)
    as [| | | | | | | f [|]]; try apply Hlast.
  apply Hcall. intros r. destruct (is_object r); [apply Hlast | discriminate].
Qed.

Lemma to_string_throws (v : jsval) (e : exn) :
  to_string v = Throw e → e = TypeError.
Proof.
  unfold to_string. unfold_result.
  destruct (to_primitive "toString" "valueOf" v) as [p |] eqn:Hp; cbn [bind].
  - destruct p as [| | [|] | | | | |]; cbn; congruence.
  - intros [= ->]. by eapply to_primitive_throws.
Qed.

Lemma hours_cell_throws (v : jsval) (e : exn) :
  hours_cell v = Throw e → e = TypeError.
Proof.
  unfold hours_cell. destruct (truthy v); [| discriminate]. unfold_result.
  destruct (to_string v) eqn:Hs; cbn [bind]; [discriminate |].
  intros [= ->]. by eapply to_string_throws.
Qed.

(** The monthly report row takes an absent status through the fallback
    of [getStatusBadge] and never dereferences it; with the four other
    fields absent too, every cell is a placeholder. *)
Lemma render_row_absent_fields (r : AttendanceRecord) (d name email : string)
    (key : option string) :
  row_key (attendance_id r) = Ok key →
  is_absent (punch_in r) = true → is_absent (punch_out r) = true →
  is_absent (total_hours r) = true → is_absent (break_duration r) = true →
  is_absent (status r) = true →
  truthy (is_weekend r) = false →
  format_parseISO (date r) "MMM d, yyyy" = Ok d →
  user_name r = JStr name → user_email r = JStr email →
  ∃ row, EmployerDashboard.render_row r = Ok row
         ∧ EmployerDashboard.row_punch_in row = "-"
         ∧ EmployerDashboard.row_punch_out row = "-"
         ∧ EmployerDashboard.row_hours row = "-"
         ∧ EmployerDashboard.row_break row = "-"
         ∧ EmployerDashboard.badge_label (EmployerDashboard.row_status row) = "Active".
Proof.
  intros Hkey Hin Hout Htotal Hbreak Hstatus Hweekend Hdate Hname Hemail.
  unfold EmployerDashboard.render_row.
  rewrite Hdate, Hname, Hemail, Hweekend, Hkey.
  rewrite (time_cell_absent _ Hin), (time_cell_absent _ Hout).
  rewrite (hours_cell_absent _ Htotal), (hours_cell_absent _ Hbreak).
  destruct (getStatusBadge_absent _ Hstatus) as [_ ->].
  cbn. eexists. split; [reflexivity |]. cbn. repeat split.
Qed.

(** With the punch times absent, the summary of a record without status
    can only throw a [TypeError]: the hours cells throw nothing else. *)
Lemma render_summary_TypeError (r : AttendanceRecord) :
  is_absent (status r) = true →
  is_absent (punch_in r) = true → is_absent (punch_out r) = true →
  EmployeeDashboard.render_summary (Some r) = Throw TypeError.
Proof.
  intros Hstatus Hin Hout. unfold EmployeeDashboard.render_summary.
  rewrite (time_cell_absent _ Hin), (time_cell_absent _ Hout).
  rewrite (status_replace_absent _ Hstatus).
  destruct (getStatusBadge_absent _ Hstatus) as [-> _].
  unfold_result. cbn [bind].
  destruct (hours_cell (total_hours r)) as [total | e] eqn:Htotal; cbn [bind];
    [| by rewrite (hours_cell_throws _ _ Htotal)].
  destruct (hours_cell (break_duration r)) as [break | e] eqn:Hbreak; cbn [bind];
    [| by rewrite (hours_cell_throws _ _ Hbreak)].
  reflexivity.
Qed.

(** C8 at a record whose status is absent: the employee view reads
    [status.replace] (lines 277 and 328), which throws a [TypeError],
    in today's summary and in the history row alike; with the punch
    times absent as well, nothing else can throw before. *)
Theorem render_status_absent_throws (r : AttendanceRecord) :
  is_absent (status r) = true →
  throws (EmployeeDashboard.render_summary (Some r)) = true
  ∧ throws (EmployeeDashboard.render_history_row r) = true
  ∧ (is_absent (punch_in r) = true → is_absent (punch_out r) = true →
     EmployeeDashboard.render_summary (Some r) = Throw TypeError).
Proof.
  intros Hstatus.
  pose proof (status_replace_absent _ Hstatus) as Hthrow.
  split; [| split].
  - unfold EmployeeDashboard.render_summary. rewrite Hthrow. unfold_result.
    do 6 (apply throws_bind; intros ?). reflexivity.
  - unfold EmployeeDashboard.render_history_row. rewrite Hthrow. unfold_result.
    do 7 (apply throws_bind; intros ?). reflexivity.
  - intros Hin Hout. by apply render_summary_TypeError.
Qed.

End AbsentFields.

Lemma render_status_absent_throws_witness :
  EmployeeDashboard.render_summary (Some blank) = Throw TypeError
  ∧ throws (EmployeeDashboard.render_history_row
              (with_status JNull (shift (JStr "2024-01-15T09:00:00.000Z") JNull)))
    = true.
Proof.
  split.
  - apply (render_status_absent_throws blank eq_refl); reflexivity.
  - apply (render_status_absent_throws
             (with_status JNull (shift (JStr "2024-01-15T09:00:00.000Z") JNull))
             eq_refl).
Defined.

(** * Monthly counters *)

Section MonthlyCounters.
Import EmployerDashboard.

Lemma length_filter_count {A} (p : A → bool) (l : list A) :
  length (List.filter p l) = count_where p l.
Proof.
  induction l as [| x l IH]; [reflexivity |].
  cbn [List.filter count_where]. destruct (p x); cbn [length]; lia.
Qed.

Lemma count_where_ext {A} (p q : A → bool) (l : list A) :
  Forall (λ x, p x = q x) l → count_where p l = count_where q l.
Proof.
  induction 1 as [| x l Hx _ IH]; [reflexivity |].
  cbn [count_where]. by rewrite Hx, IH.
Qed.

Lemma count_where_Permutation {A} (p : A → bool) (l l' : list A) :
  l ≡ₚ l' → count_where p l = count_where p l'.
Proof.
  induction 1 as [| x l l' _ IH | x y l | l l' l'' _ IH1 _ IH2];
    cbn [count_where]; lia.
Qed.

Lemma truthy_boolean (v : jsval) : is_boolean v = true → truthy v = is_true v.
Proof. by destruct v. Qed.

Lemma js_not_boolean (v : jsval) :
  is_boolean v = true → truthy (js_not v) = is_false v.
Proof. by destruct v. Qed.

Lemma incomplete_filter (r : AttendanceRecord) :
  well_typed r = true →
  truthy (js_and (js_and (js_not (is_complete r)) (js_not (is_weekend r)))
                 (punch_in r))
  = is_false (is_complete r) && is_false (is_weekend r) && is_present (punch_in r).
Proof.
  unfold well_typed. rewrite !andb_true_iff. intros [[Hc Hw] Hp].
  rewrite <- (js_not_boolean _ Hc), <- (js_not_boolean _ Hw).
  rewrite <- (optional_timestamp_truthy _ Hp).
  unfold js_and, js_not. cbn [truthy].
  destruct (truthy (is_complete r)), (truthy (is_weekend r)); reflexivity.
Qed.

Lemma strict_eq_str_spec (v : jsval) (lit : string) :
  strict_eq_str v lit = true ↔ v = JStr lit.
Proof.
  destruct v; cbn; try (split; [discriminate | intros [=]]).
  rewrite String.eqb_eq. split; [by intros -> | by intros [= ->]].
Qed.

Lemma has_status_spec (lit : string) (v : jsval) :
  has_status lit v = true ↔ v = JStr lit.
Proof.
  destruct v; cbn; try (split; [discriminate | intros [=]]).
  rewrite bool_decide_eq_true. split; [by intros -> | by intros [= ->]].
Qed.

(** C3. On records typed as in the data model, the four counters are
    the length of the list, the number of records with [is_complete]
    true, the number with [is_complete] false, [is_weekend] false and
    [punch_in] present, and the number whose status is
    "break_exceeded"; the complete counter is the same number for every
    reordering of the list. *)
Theorem getStats_counters (l : list AttendanceRecord) :
  Forall (λ r, well_typed r = true) l →
  totalRecords (getStats l) = length l
  ∧ completeShifts (getStats l) = count_where (λ r, is_true (is_complete r)) l
  ∧ incompleteShifts (getStats l)
    = count_where (λ r, is_false (is_complete r) && is_false (is_weekend r)
                        && is_present (punch_in r)) l
  ∧ breakExceeded (getStats l)
    = count_where (λ r, has_status "break_exceeded" (status r)) l
  ∧ (∀ l', l' ≡ₚ l →
       completeShifts (getStats l') = count_where (λ r, is_true (is_complete r)) l).
Proof.
  intros Htyped.
  assert (Hcomplete : ∀ l', l' ≡ₚ l →
            completeShifts (getStats l') = count_where (λ r, is_true (is_complete r)) l).
  { intros l' Hperm. cbn [getStats completeShifts]. rewrite length_filter_count.
    rewrite (count_where_Permutation _ _ _ Hperm).
    apply count_where_ext. eapply Forall_impl; [exact Htyped |].
    intros r Hr. apply truthy_boolean.
    unfold well_typed in Hr. rewrite !andb_true_iff in Hr. tauto. }
  split; [reflexivity |]. split; [by apply Hcomplete |]. split; [| split].
  - cbn [getStats incompleteShifts]. rewrite length_filter_count.
    apply count_where_ext. eapply Forall_impl; [exact Htyped |].
    intros r Hr. by apply incomplete_filter.
  - cbn [getStats breakExceeded]. rewrite length_filter_count.
    apply count_where_ext, Forall_forall. intros r _.
    apply eq_true_iff_eq. by rewrite strict_eq_str_spec, has_status_spec.
  - exact Hcomplete.
Qed.

End MonthlyCounters.

Lemma getStats_counters_witness :
  EmployerDashboard.completeShifts
    (EmployerDashboard.getStats
       [ shift (JStr "2024-01-15T09:00:00.000Z") JNull;
         with_complete (JBool true)
           (shift (JStr "2024-01-16T09:00:00.000Z") (JStr "2024-01-16T17:00:00.000Z"));
         with_complete (JBool true)
           (shift (JStr "2024-01-17T09:00:00.000Z") (JStr "2024-01-17T17:00:00.000Z")) ])
  = 2%nat.
Proof.
  refine (proj1 (proj2 (getStats_counters _ _))).
  repeat constructor.
Defined.

(** * Command dispatch *)

Section Dispatch.
Context `{Host} `{Props}.
Import EmployeeDashboard.

(** What is on the screen when the dashboard is: every part of the one
    [return] has been evaluated without a throw. *)
(** The parts of a punch card that has been evaluated. *)
Lemma render_punch_card_parts (st : state) (card : punch_card) :
  render_punch_card st = Ok card →
  let a := attendance_of (todayStatus st) in
  buttons card = render_buttons st
  ∧ shift_complete_msg card
    = negb (truthy (js_and (js_not (isPunchedIn a)) (js_not (field punch_out a))))
      && negb (truthy (isPunchedIn a))
  ∧ (if truthy (isPunchedIn a)
     then ∃ shown, calculateElapsedTime (todayStatus st) (currentTime st) = Ok shown
                   ∧ elapsed_panel card = Shown shown
     else elapsed_panel card = Skipped (isPunchedIn a)).
Proof.
  intros Hr a. unfold render_punch_card, guard in Hr. fold a in Hr.
  destruct (truthy (isPunchedIn a)).
  - bind_inv Hr. injection Hr as <-. bind_inv E. injection E as <-. cbn. eauto.
  - unfold_result. cbn [bind] in Hr. by injection Hr as <-.
Qed.

Lemma render_punch_card_buttons (st : state) (card : punch_card) :
  render_punch_card st = Ok card → buttons card = render_buttons st.
Proof. intros Hr. by destruct (render_punch_card_parts st card Hr) as [? _]. Qed.

(** The card throws or not by the data, whatever the flag and the clock:
    the only conversion is the one of [punch_in] in [new Date(...)]. *)
Lemma throws_punch_card (st st' : state) :
  todayStatus st' = todayStatus st →
  throws (render_punch_card st') = throws (render_punch_card st).
Proof.
  intros Ht. unfold render_punch_card, guard, calculateElapsedTime. rewrite Ht.
  destruct (truthy (isPunchedIn _)); [| reflexivity].
  destruct (negb (truthy (field punch_in _))); [reflexivity |].
  unfold_result. by destruct (new_Date _).
Qed.

Lemma render_dashboard (st : state) (d : dashboard) :
  render st = Ok (Dashboard d) →
  loading st = false
  ∧ render_punch_card st = Ok (shift_card d)
  ∧ render_summary (attendance_of (todayStatus st)) = Ok (status_card d)
  ∧ render_history (history st) = Ok (history_card d)
  ∧ ∃ name, get_prop user "name" = Ok name ∧ jsx_child name = Ok (welcome d).
Proof.
  unfold render. destruct (loading st); [discriminate |].
  intros Hr. bind_inv Hr. injection Hr as <-. cbn.
  repeat split; eauto.
Qed.

Lemma render_total (st : state) (name : jsval) (w : string)
    (card : punch_card) (today : option summary) (rows : list history_row) :
  loading st = false →
  get_prop user "name" = Ok name → jsx_child name = Ok w →
  render_punch_card st = Ok card →
  render_summary (attendance_of (todayStatus st)) = Ok today →
  render_history (history st) = Ok rows →
  render st = Ok (Dashboard {| welcome := w; shift_card := card;
                              status_card := today; history_card := rows |}).
Proof.
  intros Hl Hname Hw Hcard Htoday Hrows. unfold render.
  by rewrite Hl, Hname, Hcard, Htoday, Hrows; unfold_result; cbn [bind]; rewrite Hw.
Qed.

(** Whether the render throws depends on the data and on [loading]
    only, not on the flag or on the clock. *)
Lemma throws_render_ext (st st' : state) :
  loading st' = loading st → todayStatus st' = todayStatus st →
  history st' = history st →
  throws (render st') = throws (render st).
Proof.
  intros Hl Ht Hh. pose proof (throws_punch_card st st' Ht) as Hcard.
  unfold render. rewrite Hl, Ht, Hh.
  destruct (loading st); [reflexivity |]. unfold_result.
  destruct (get_prop user "name") as [name |]; cbn [bind]; [| reflexivity].
  destruct (render_punch_card st), (render_punch_card st');
    try discriminate; cbn [bind]; [| reflexivity].
  destruct (render_summary _); cbn [bind]; [| reflexivity].
  destruct (render_history _); cbn [bind]; [| reflexivity].
  destruct (jsx_child name); reflexivity.
Qed.

Lemma enabled_dashboard (st : state) (c : command) :
  enabled st c = true →
  ∃ d, render st = Ok (Dashboard d)
       ∧ ∃ b, b ∈ render_buttons st
              ∧ btn_command b = c ∧ btn_disabled b = false.
Proof.
  unfold enabled. destruct (render st) as [[| d] |] eqn:Hr; try discriminate.
  rewrite existsb_exists. intros (b & Hin & Hb).
  apply andb_true_iff in Hb as [Hc Hd].
  destruct (render_dashboard st d Hr) as (_ & Hcard & _).
  exists d. split; [reflexivity |]. exists b.
  rewrite <- (render_punch_card_buttons st _ Hcard).
  split; [by apply list_elem_of_In |].
  split; [by apply bool_decide_eq_true in Hc | by destruct (btn_disabled b)].
Qed.

Lemma count_where_app {A} (p : A → bool) (l1 l2 : list A) :
  count_where p (l1 ++ l2) = (count_where p l1 + count_where p l2)%nat.
Proof.
  induction l1 as [| x l1 IH]; [reflexivity |].
  cbn [app count_where]. rewrite IH. lia.
Qed.

Lemma count_where_delete {A} (p : A → bool) (l : list A) (i : nat) (x : A) :
  l !! i = Some x →
  count_where p l = ((if p x then 1 else 0) + count_where p (delete i l))%nat.
Proof.
  intros Hi. rewrite delete_take_drop.
  rewrite <- (take_drop_middle l i x Hi) at 1.
  rewrite !count_where_app. cbn [count_where]. lia.
Qed.

Lemma count_where_insert {A} (p : A → bool) (l : list A) (i : nat) (x y : A) :
  l !! i = Some x → p y = p x →
  count_where p (<[i := y]> l) = count_where p l.
Proof.
  intros Hi Hp. rewrite insert_take_drop by (eapply lookup_lt_Some; exact Hi).
  rewrite <- (take_drop_middle l i x Hi) at 3.
  rewrite !count_where_app. cbn [count_where]. by rewrite Hp.
Qed.

Lemma commands_in_flight_count (m : machine) :
  commands_in_flight m = count_where is_command_task (tasks m).
Proof. apply length_filter_count. Qed.

(** Every rendered command button takes its [disabled] attribute from
    [actionLoading] (lines 189, 199, 219, 230). *)
Lemma buttons_disabled (st : state) (b : button) :
  b ∈ render_buttons st → btn_disabled b = actionLoading st.
Proof.
  unfold render_buttons.
  repeat match goal with
         | |- context [if ?c then _ else _] => destruct c
         end;
    rewrite ?elem_of_app, ?list_elem_of_singleton, ?elem_of_nil;
    intros Hb; repeat destruct Hb as [Hb | Hb]; try done; by subst b.
Qed.

Lemma enabled_not_loading (st : state) (c : command) :
  enabled st c = true → actionLoading st = false.
Proof.
  intros Hen. destruct (enabled_dashboard st c Hen) as (d & _ & b & Hin & _ & Hb).
  apply buttons_disabled in Hin. congruence.
Qed.

Lemma flag_invariant_command (m : machine) (i : nat) (t : task) :
  flag_invariant m → tasks m !! i = Some t → is_command_task t = true →
  actionLoading (view m) = true ∧ count_where is_command_task (delete i (tasks m)) = 0%nat.
Proof.
  unfold flag_invariant. rewrite commands_in_flight_count.
  intros Hinv Hi Ht.
  rewrite (count_where_delete _ _ _ _ Hi), Ht in Hinv.
  destruct (actionLoading (view m)); [split; [done | lia] | lia].
Qed.

Lemma resume_invariant (m : machine) (st : state) (i : nat) (t0 t : task)
    (m' : machine) (out : list effect) :
  flag_invariant m → tasks m !! i = Some t0 →
  is_command_task t = is_command_task t0 →
  actionLoading st = actionLoading (view m) →
  resume i t {| view := st; tasks := tasks m |} = (m', out) →
  flag_invariant m'.
Proof.
  intros Hinv Hi Hkind Hflag Hres. unfold flag_invariant in *.
  rewrite commands_in_flight_count in *.
  assert (Hkeep : count_where is_command_task (<[i := t]> (tasks m))
                  = count_where is_command_task (tasks m))
    by (by apply (count_where_insert _ _ _ t0)).
  destruct t as [[] [] | c | c [] []]; cbn in Hres; injection Hres as <- <-;
    cbn [view tasks set_loading set_actionLoading actionLoading];
    rewrite ?Hkeep, ?Hflag; try exact Hinv.
  - rewrite (count_where_delete _ _ _ _ Hi), <- Hkind in Hinv. exact Hinv.
  - symmetry in Hkind.
    by destruct (flag_invariant_command m i t0 ltac:(by unfold flag_invariant; rewrite commands_in_flight_count) Hi Hkind).
Qed.

Lemma mark_today_kind (t0 t : task) :
  mark_today t0 = Some t → is_command_task t = is_command_task t0.
Proof. destruct t0 as [[] ? | ? | ? [] ?]; intros [= <-]; reflexivity. Qed.

Lemma mark_history_kind (t0 t : task) :
  mark_history t0 = Some t → is_command_task t = is_command_task t0.
Proof. destruct t0 as [? [] | ? | ? ? []]; intros [= <-]; reflexivity. Qed.

Lemma onClick_handle (c : command) (m : machine) : onClick c m = handle c m.
Proof. by destruct c. Qed.

Lemma step_invariant (m : machine) (ev : event) (m' : machine) (out : list effect) :
  flag_invariant m → step m ev = Some (m', out) → flag_invariant m'.
Proof.
  intros Hinv Hstep. destruct ev as [c | i r | i r | i r | now]; cbn [step] in Hstep.
  - destruct (enabled (view m) c) eqn:Hen; [| discriminate].
    rewrite onClick_handle in Hstep.
    injection Hstep as <- <-. apply enabled_not_loading in Hen.
    unfold flag_invariant in *. rewrite commands_in_flight_count in *.
    cbn [view tasks set_actionLoading actionLoading].
    rewrite count_where_app, Hinv, Hen. reflexivity.
  - destruct (tasks m !! i) as [[| c |] |] eqn:Hi; try discriminate.
    destruct (flag_invariant_command m i _ Hinv Hi eq_refl) as [Hflag Hzero].
    assert (Hfail : flag_invariant
              {| view := set_actionLoading false (view m); tasks := delete i (tasks m) |}).
    { unfold flag_invariant. rewrite commands_in_flight_count. exact Hzero. }
    unfold handle_fulfilled, handle_rejected in Hstep.
    destruct r as [body | e].
    + destruct (success_message c body); injection Hstep as <- <-.
      * unfold flag_invariant in *. rewrite commands_in_flight_count in *.
        cbn [view tasks]. by rewrite (count_where_insert _ _ _ (AwaitPost c)).
      * exact Hfail.
    + injection Hstep as <- <-. exact Hfail.
  - destruct (tasks m !! i) as [t0 |] eqn:Hi; [| discriminate]. cbn in Hstep.
    destruct (mark_today t0) as [t |] eqn:Hmark; [| discriminate].
    destruct (fetchTodayStatus_settled r (view m)) as [st toast] eqn:Hfetch.
    destruct (resume i t {| view := st; tasks := tasks m |}) as [m1 rest] eqn:Hres.
    injection Hstep as <- <-.
    eapply resume_invariant; [exact Hinv | exact Hi | | | exact Hres].
    + by apply mark_today_kind.
    + destruct r; injection Hfetch as <- <-; reflexivity.
  - destruct (tasks m !! i) as [t0 |] eqn:Hi; [| discriminate]. cbn in Hstep.
    destruct (mark_history t0) as [t |] eqn:Hmark; [| discriminate].
    destruct (fetchHistory_settled r (view m)) as [st toast] eqn:Hfetch.
    destruct (resume i t {| view := st; tasks := tasks m |}) as [m1 rest] eqn:Hres.
    injection Hstep as <- <-.
    eapply resume_invariant; [exact Hinv | exact Hi | | | exact Hres].
    + by apply mark_history_kind.
    + destruct r; injection Hfetch as <- <-; reflexivity.
  - destruct (mounted (view m)); [| discriminate].
    injection Hstep as <- <-. exact Hinv.
Qed.

Lemma reachable_invariant (m : machine) : reachable m → flag_invariant m.
Proof.
  induction 1 as [now | m ev m' out _ IH Hstep]; [reflexivity |].
  by eapply step_invariant.
Qed.

Lemma list_delete_insert {A} (l : list A) (i : nat) (x : A) :
  delete i (<[i := x]> l) = delete i l.
Proof.
  rewrite !delete_take_drop.
  by rewrite take_insert_ge, drop_insert_lt by lia.
Qed.

Lemma step_click (m : machine) (c : command) (m' : machine) (out : list effect) :
  step m (Click c) = Some (m', out) →
  out = [ SetActionLoading true; HttpPost (endpoint c) ]
  ∧ actionLoading (view m') = true
  ∧ tasks m' = tasks m ++ [ AwaitPost c ].
Proof.
  cbn [step]. destruct (enabled (view m) c); [| discriminate].
  rewrite onClick_handle. intros [= <- <-]. repeat split.
Qed.

Lemma step_post_rejected (m : machine) (i : nat) (c : command) (e : axios_error) :
  tasks m !! i = Some (AwaitPost c) →
  step m (PostReply i (Rejected e))
  = Some ({| view := set_actionLoading false (view m); tasks := delete i (tasks m) |},
          handler_catch c e ++ [ SetActionLoading false ]).
Proof. intros Hi. cbn [step]. by rewrite Hi. Qed.

Lemma step_post_fulfilled (m : machine) (i : nat) (c : command) (body : jsval)
    (message : string) :
  tasks m !! i = Some (AwaitPost c) →
  success_message c body = Ok message →
  step m (PostReply i (Fulfilled body))
  = Some ({| view := view m;
             tasks := <[i := AwaitRefetch c true (refetches_history c)]> (tasks m) |},
          [ ToastSuccess message; HttpGet today_status_path ]
          ++ (if refetches_history c then [ HttpGet my_history_path ] else [])).
Proof.
  intros Hi Hmsg. cbn [step]. rewrite Hi. unfold handle_fulfilled. by rewrite Hmsg.
Qed.

(** A step that clears the flag is the settlement that lets a command
    handler reach its [finally]. *)
Lemma step_clears_flag (m : machine) (ev : event) (m' : machine) (out : list effect) :
  step m ev = Some (m', out) →
  actionLoading (view m) = true → actionLoading (view m') = false →
  ∃ i t, reply_target ev = Some i
         ∧ tasks m !! i = Some t ∧ is_command_task t = true
         ∧ tasks m' = delete i (tasks m)
         ∧ last out = Some (SetActionLoading false).
Proof.
  intros Hstep Hon Hoff.
  destruct ev as [c | i r | i r | i r | now]; cbn [step] in Hstep.
  - apply step_click in Hstep as (_ & Hflag & _). congruence.
  - destruct (tasks m !! i) as [[| c |] |] eqn:Hi; try discriminate.
    exists i, (AwaitPost c).
    assert (Hfail : ∀ e,
      Some ({| view := set_actionLoading false (view m); tasks := delete i (tasks m) |},
            handler_catch c e ++ [ SetActionLoading false ]) = Some (m', out) →
      reply_target (PostReply i r) = Some i
      ∧ tasks m !! i = Some (AwaitPost c) ∧ is_command_task (AwaitPost c) = true
      ∧ tasks m' = delete i (tasks m) ∧ last out = Some (SetActionLoading false)).
    { intros e [= <- <-]. repeat split. exact Hi. }
    unfold handle_fulfilled, handle_rejected in Hstep.
    destruct r as [body | e]; [| by apply (Hfail e)].
    destruct (success_message c body); [| by apply (Hfail {| response := None |})].
    injection Hstep as <- <-. cbn [view] in Hoff. congruence.
  - destruct (tasks m !! i) as [t0 |] eqn:Hi; [| discriminate]. cbn in Hstep.
    destruct (mark_today t0) as [t |] eqn:Hmark; [| discriminate].
    assert (Hflag : actionLoading (fetchTodayStatus_settled r (view m)).1 = true)
      by (by destruct r).
    destruct (fetchTodayStatus_settled r (view m)) as [st toast].
    cbn [fst] in Hflag.
    pose proof (mark_today_kind _ _ Hmark) as Hkind.
    destruct t as [[] [] | c | c [] []]; cbn in Hstep; injection Hstep as <- <-;
      cbn [view set_loading set_actionLoading actionLoading] in Hoff; try congruence.
    exists i, t0. cbn [tasks]. repeat split; try done. apply last_snoc.
  - destruct (tasks m !! i) as [t0 |] eqn:Hi; [| discriminate]. cbn in Hstep.
    destruct (mark_history t0) as [t |] eqn:Hmark; [| discriminate].
    assert (Hflag : actionLoading (fetchHistory_settled r (view m)).1 = true)
      by (by destruct r).
    destruct (fetchHistory_settled r (view m)) as [st toast].
    cbn [fst] in Hflag.
    pose proof (mark_history_kind _ _ Hmark) as Hkind.
    destruct t as [[] [] | c | c [] []]; cbn in Hstep; injection Hstep as <- <-;
      cbn [view set_loading set_actionLoading actionLoading] in Hoff; try congruence.
    exists i, t0. cbn [tasks]. repeat split; try done. apply last_snoc.
  - destruct (mounted (view m)); [| discriminate].
    injection Hstep as <- <-. cbn [view set_currentTime actionLoading] in Hoff.
    congruence.
Qed.

Lemma step_today_reply (m : machine) (i : nat) (t0 t : task)
    (r : reply (option TodayStatus)) :
  tasks m !! i = Some t0 → mark_today t0 = Some t →
  step m (TodayReply i r)
  = Some ((resume i t {| view := (fetchTodayStatus_settled r (view m)).1;
                         tasks := tasks m |}).1,
          (fetchTodayStatus_settled r (view m)).2
          ++ (resume i t {| view := (fetchTodayStatus_settled r (view m)).1;
                            tasks := tasks m |}).2).
Proof.
  intros Hi Hmark. cbn [step]. rewrite Hi. cbn. rewrite Hmark.
  destruct (fetchTodayStatus_settled r (view m)) as [st toast]. cbn [fst snd].
  by destruct (resume i t {| view := st; tasks := tasks m |}).
Qed.

Lemma step_history_reply (m : machine) (i : nat) (t0 t : task)
    (r : reply (list AttendanceRecord)) :
  tasks m !! i = Some t0 → mark_history t0 = Some t →
  step m (HistoryReply i r)
  = Some ((resume i t {| view := (fetchHistory_settled r (view m)).1;
                         tasks := tasks m |}).1,
          (fetchHistory_settled r (view m)).2
          ++ (resume i t {| view := (fetchHistory_settled r (view m)).1;
                            tasks := tasks m |}).2).
Proof.
  intros Hi Hmark. cbn [step]. rewrite Hi. cbn. rewrite Hmark.
  destruct (fetchHistory_settled r (view m)) as [st toast]. cbn [fst snd].
  by destruct (resume i t {| view := st; tasks := tasks m |}).
Qed.

Lemma fetchTodayStatus_keeps_flag (r : reply (option TodayStatus)) (st : state) :
  actionLoading (fetchTodayStatus_settled r st).1 = actionLoading st.
Proof. by destruct r. Qed.

Lemma fetchHistory_keeps_flag (r : reply (list AttendanceRecord)) (st : state) :
  actionLoading (fetchHistory_settled r st).1 = actionLoading st.
Proof. by destruct r. Qed.

(** After a successful POST the handler awaits its refetches; whatever
    their outcome and order, it then reaches [finally]. *)
Lemma command_completes (m : machine) (i : nat) (c : command) (body : jsval)
    (message : string) (today : reply (option TodayStatus))
    (hist : reply (list AttendanceRecord)) (evs : list event) :
  tasks m !! i = Some (AwaitPost c) →
  success_message c body = Ok message →
  evs ∈ refetch_orders i c today hist →
  ∃ m' out, run m (PostReply i (Fulfilled body) :: evs) = Some (m', out)
            ∧ actionLoading (view m') = false
            ∧ tasks m' = delete i (tasks m)
            ∧ last out = Some (SetActionLoading false).
Proof.
  intros Hi Hmsg Hevs.
  assert (Hlen : (i < length (tasks m))%nat) by (eapply lookup_lt_Some; exact Hi).
  cbn [run]. rewrite (step_post_fulfilled m i c body message Hi Hmsg).
  unfold refetch_orders in Hevs.
  destruct (refetches_history c) eqn:Hboth.
  - assert (Hcases : evs = [ TodayReply i today; HistoryReply i hist ]
                     ∨ evs = [ HistoryReply i hist; TodayReply i today ]).
    { rewrite !elem_of_cons, elem_of_nil in Hevs. tauto. }
    destruct Hcases as [-> | ->]; cbn [run].
    + erewrite step_today_reply;
        [| cbn [tasks]; by apply list_lookup_insert_eq | reflexivity].
      cbn [resume fst snd view tasks].
      erewrite step_history_reply;
        [| cbn [tasks]; apply list_lookup_insert_eq; by rewrite length_insert
         | reflexivity].
      cbn [resume fst snd view tasks].
      eexists _, _. split; [reflexivity |]. cbn [view tasks set_actionLoading actionLoading].
      split; [reflexivity |]. split; [by rewrite !list_delete_insert |].
      rewrite ?app_nil_r, ?app_assoc. apply last_snoc.
    + erewrite step_history_reply;
        [| cbn [tasks]; by apply list_lookup_insert_eq | reflexivity].
      cbn [resume fst snd view tasks].
      erewrite step_today_reply;
        [| cbn [tasks]; apply list_lookup_insert_eq; by rewrite length_insert
         | reflexivity].
      cbn [resume fst snd view tasks].
      eexists _, _. split; [reflexivity |]. cbn [view tasks set_actionLoading actionLoading].
      split; [reflexivity |]. split; [by rewrite !list_delete_insert |].
      rewrite ?app_nil_r, ?app_assoc. apply last_snoc.
  - apply list_elem_of_singleton in Hevs as ->. cbn [run].
    erewrite step_today_reply;
      [| cbn [tasks]; by apply list_lookup_insert_eq | reflexivity].
    cbn [resume fst snd view tasks].
    eexists _, _. split; [reflexivity |]. cbn [view tasks set_actionLoading actionLoading].
    split; [reflexivity |]. split; [by rewrite !list_delete_insert |].
    rewrite ?app_nil_r, ?app_assoc. apply last_snoc.
Qed.

Lemma run_reachable (m : machine) (evs : list event) (m' : machine)
    (out : list effect) :
  reachable m → run m evs = Some (m', out) → reachable m'.
Proof.
  revert m out. induction evs as [| ev evs IH]; intros m out Hm Hrun.
  - injection Hrun as <- _. exact Hm.
  - cbn [run] in Hrun.
    destruct (step m ev) as [[m1 out1] |] eqn:Hstep; [| discriminate].
    destruct (run m1 evs) as [[m2 out2] |] eqn:Hrest; [| discriminate].
    injection Hrun as <- _.
    eapply IH; [| exact Hrest]. eapply reachable_step; [exact Hm | exact Hstep].
Qed.

(** C5. In every reachable state of the employee view: each rendered
    command button is disabled by the one flag; the flag is set exactly
    while a command handler has not finished, and at most one has not;
    while it is set no command can be dispatched; a click sets the flag
    and then issues the request; the flag is cleared only by the
    settlement that lets the handler finish, as its last effect; and this
    happens after a failed request as well as after a successful one
    (followed by its refetches, in any order and with any outcome, or by
    a throw while the success message is built). *)
Theorem action_in_flight_guard (m : machine) :
  reachable m →
  (∀ b, b ∈ render_buttons (view m) →
        btn_disabled b = actionLoading (view m))
  ∧ flag_invariant m
  ∧ (actionLoading (view m) = true → ∀ c, step m (Click c) = None)
  ∧ (∀ i t, tasks m !! i = Some t → is_command_task t = true →
            actionLoading (view m) = true ∧ ∀ c, step m (Click c) = None)
  ∧ (∀ c m' out, step m (Click c) = Some (m', out) →
       out = [ SetActionLoading true; HttpPost (endpoint c) ]
       ∧ actionLoading (view m') = true
       ∧ tasks m' = tasks m ++ [ AwaitPost c ])
  ∧ (∀ ev m' out, step m ev = Some (m', out) →
       actionLoading (view m) = true → actionLoading (view m') = false →
       ∃ i t, reply_target ev = Some i
              ∧ tasks m !! i = Some t ∧ is_command_task t = true
              ∧ tasks m' = delete i (tasks m)
              ∧ last out = Some (SetActionLoading false))
  ∧ (∀ i c e, tasks m !! i = Some (AwaitPost c) →
       ∃ m', step m (PostReply i (Rejected e))
             = Some (m', handler_catch c e ++ [ SetActionLoading false ])
             ∧ actionLoading (view m') = false
             ∧ tasks m' = delete i (tasks m))
  ∧ (∀ i c body message today hist evs,
       tasks m !! i = Some (AwaitPost c) →
       success_message c body = Ok message →
       evs ∈ refetch_orders i c today hist →
       ∃ m' out, run m (PostReply i (Fulfilled body) :: evs) = Some (m', out)
                 ∧ actionLoading (view m') = false
                 ∧ tasks m' = delete i (tasks m)
                 ∧ last out = Some (SetActionLoading false))
  ∧ (∀ i c body e, tasks m !! i = Some (AwaitPost c) →
       success_message c body = Throw e →
       ∃ m', step m (PostReply i (Fulfilled body))
             = Some (m', [ ToastError (JStr (failure_message c));
                           SetActionLoading false ])
             ∧ actionLoading (view m') = false
             ∧ tasks m' = delete i (tasks m)).
Proof.
  intros Hreach. pose proof (reachable_invariant m Hreach) as Hinv.
  assert (Hblocked : actionLoading (view m) = true → ∀ c, step m (Click c) = None).
  { intros Hon c. cbn [step].
    destruct (enabled (view m) c) eqn:Hen; [| reflexivity].
    apply enabled_not_loading in Hen. congruence. }
  split; [apply buttons_disabled |]. split; [exact Hinv |].
  split; [exact Hblocked |]. split; [| split; [| split; [| split; [| split]]]].
  - intros i t Hi Ht.
    destruct (flag_invariant_command m i t Hinv Hi Ht) as [Hon _].
    split; [exact Hon | by apply Hblocked].
  - apply step_click.
  - apply step_clears_flag.
  - intros i c e Hi. eexists. split; [by apply step_post_rejected |].
    split; reflexivity.
  - intros i c body message today hist evs. apply command_completes.
  - intros i c body e Hi Hthrow. eexists. split.
    + cbn [step]. rewrite Hi. unfold handle_fulfilled. by rewrite Hthrow.
    + split; reflexivity.
Qed.

End Dispatch.

Lemma punching_in_reachable : EmployeeDashboard.reachable punching_in.
Proof.
  apply (run_reachable (EmployeeDashboard.mount 1705309200000).1
           [ EmployeeDashboard.TodayReply 0 (Fulfilled (Some {| attendance := None |}));
             EmployeeDashboard.HistoryReply 0 (Fulfilled []);
             EmployeeDashboard.Click PunchIn ]
           punching_in
           [ SetActionLoading true; HttpPost "/attendance/punch-in" ]).
  - constructor.
  - reflexivity.
Defined.

Lemma action_in_flight_guard_witness :
  EmployeeDashboard.flag_invariant punching_in
  ∧ (∀ c, EmployeeDashboard.step punching_in (EmployeeDashboard.Click c) = None)
  ∧ ∃ m', EmployeeDashboard.step punching_in
            (EmployeeDashboard.PostReply 0 (Rejected (error_with_detail "Already punched in")))
          = Some (m', [ ToastError (JStr "Already punched in"); SetActionLoading false ])
          ∧ EmployeeDashboard.actionLoading (EmployeeDashboard.view m') = false.
Proof.
  destruct (action_in_flight_guard punching_in punching_in_reachable)
    as (_ & Hinv & Hblocked & _ & _ & _ & Hfail & _ & _).
  split; [exact Hinv |]. split; [apply Hblocked; reflexivity |].
  destruct (Hfail 0%nat PunchIn (error_with_detail "Already punched in") eq_refl)
    as (m' & Hstep & Hoff & _).
  exists m'. split; [exact Hstep | exact Hoff].
Defined.

(** * Failures of requests *)

(** C6 as stated, that every failed request shows the server's message
    when there is one, fails on the read requests: [fetchTodayStatus]
    shows its fixed text although the response carries a message. *)
Lemma fetchTodayStatus_drops_server_message :
  ¬ (∀ (error : axios_error) (st : EmployeeDashboard.state),
       truthy (error_detail error) = true →
       ToastError (error_detail error)
       ∈ (EmployeeDashboard.fetchTodayStatus_settled (Rejected error) st).2).
Proof.
  intros Hclaim.
  specialize (Hclaim (error_with_detail "Token has expired")
                     (EmployeeDashboard.view punching_in) eq_refl).
  cbn in Hclaim. apply list_elem_of_singleton in Hclaim. discriminate Hclaim.
Qed.

Section Failures.
Context `{Host} `{Props}.

Lemma js_or_server_message (fallback : string) (error : axios_error) :
  js_or (error_detail error) (JStr fallback) = server_message_or fallback error.
Proof. reflexivity. Qed.

Lemma server_message_present (fallback : string) (error : axios_error) :
  truthy (error_detail error) = true →
  server_message_or fallback error = error_detail error.
Proof. intros Ht. unfold server_message_or. by rewrite Ht. Qed.

Lemma server_message_missing (fallback : string) (error : axios_error) :
  truthy (error_detail error) = false →
  server_message_or fallback error = JStr fallback.
Proof. intros Hf. unfold server_message_or. by rewrite Hf. Qed.

Lemma step_expects (m : EmployeeDashboard.machine) (ev : EmployeeDashboard.event) :
  EmployeeDashboard.expects m ev = true → is_Some (EmployeeDashboard.step m ev).
Proof.
  destruct ev as [c | i r | i r | i r | now];
    cbn [EmployeeDashboard.expects EmployeeDashboard.step].
  - intros ->. eauto.
  - destruct (EmployeeDashboard.tasks m !! i) as [[| c |] |]; try discriminate.
    intros _. eauto.
  - rewrite bool_decide_eq_true. intros [t ->].
    destruct (EmployeeDashboard.fetchTodayStatus_settled _ _) as [st toast].
    destruct (EmployeeDashboard.resume _ _ _); eauto.
  - rewrite bool_decide_eq_true. intros [t ->].
    destruct (EmployeeDashboard.fetchHistory_settled _ _) as [st toast].
    destruct (EmployeeDashboard.resume _ _ _); eauto.
  - intros ->. eauto.
Qed.

Lemma resume_no_request (i : nat) (t : EmployeeDashboard.task)
    (m : EmployeeDashboard.machine) :
  existsb is_request (EmployeeDashboard.resume i t m).2 = false.
Proof. by destruct t as [[] [] | c | c [] []]. Qed.

(** A failure is never answered with a new request. *)
Lemma rejection_no_request (m : EmployeeDashboard.machine)
    (ev : EmployeeDashboard.event) (m' : EmployeeDashboard.machine)
    (out : list effect) :
  EmployeeDashboard.is_rejection ev = true →
  EmployeeDashboard.step m ev = Some (m', out) →
  existsb is_request out = false.
Proof.
  intros Hrej Hstep.
  destruct ev as [c | i [body | e] | i [body | e] | i [body | e] | now];
    try discriminate Hrej; cbn [EmployeeDashboard.step] in Hstep.
  - destruct (EmployeeDashboard.tasks m !! i) as [[| c |] |]; try discriminate.
    by injection Hstep as <- <-.
  - destruct (EmployeeDashboard.tasks m !! i ≫= EmployeeDashboard.mark_today)
      as [t |]; [| discriminate].
    cbn in Hstep.
    pose proof (resume_no_request i t
                  {| EmployeeDashboard.view := EmployeeDashboard.view m;
                     EmployeeDashboard.tasks := EmployeeDashboard.tasks m |}) as Hres.
    destruct (EmployeeDashboard.resume _ _ _) as [m1 rest].
    injection Hstep as <- <-. exact Hres.
  - destruct (EmployeeDashboard.tasks m !! i ≫= EmployeeDashboard.mark_history)
      as [t |]; [| discriminate].
    cbn in Hstep.
    pose proof (resume_no_request i t
                  {| EmployeeDashboard.view := EmployeeDashboard.view m;
                     EmployeeDashboard.tasks := EmployeeDashboard.tasks m |}) as Hres.
    destruct (EmployeeDashboard.resume _ _ _) as [m1 rest].
    injection Hstep as <- <-. exact Hres.
Qed.

(** C6, amended. A failed command and a failed login or registration
    show the server's [detail] when it is truthy and the handler's own
    fixed text otherwise; a failed read request (today's status, history,
    monthly report) shows its fixed text whatever the response carries.
    No failure issues a request, and every failure is handled: the view
    goes on in a next state. *)
Theorem failure_notifications :
  (∀ m i c error,
     EmployeeDashboard.tasks m !! i = Some (EmployeeDashboard.AwaitPost c) →
     ∃ m', EmployeeDashboard.step m (EmployeeDashboard.PostReply i (Rejected error))
           = Some (m', [ ToastError (server_message_or
                                      (EmployeeDashboard.failure_message c) error);
                         SetActionLoading false ]))
  ∧ (∀ st error,
       AuthPage.handleSubmit_settled (Rejected error) st
       = (AuthPage.set_loading false st,
          [ ToastError (server_message_or "Authentication failed" error) ]))
  ∧ (∀ st error,
       (EmployeeDashboard.fetchTodayStatus_settled (Rejected error) st).2
       = [ ToastError (JStr "Failed to fetch today's status") ])
  ∧ (∀ st error,
       (EmployeeDashboard.fetchHistory_settled (Rejected error) st).2
       = [ ToastError (JStr "Failed to fetch history") ])
  ∧ (∀ st error,
       (EmployerDashboard.fetchMonthlyReport_settled (Rejected error) st).2
       = [ ToastError (JStr "Failed to fetch monthly report") ])
  ∧ (∀ m ev, EmployeeDashboard.expects m ev = true →
             EmployeeDashboard.is_rejection ev = true →
             ∃ m' out, EmployeeDashboard.step m ev = Some (m', out)
                       ∧ existsb is_request out = false).
Proof.
  split; [| split; [| split; [| split; [| split]]]]; try reflexivity.
  - intros m i c error Hi. eexists. by apply step_post_rejected.
  - intros m ev Hexp Hrej.
    destruct (step_expects m ev Hexp) as [[m' out] Hstep].
    exists m', out. split; [exact Hstep |].
    by apply (rejection_no_request m ev m' out).
Qed.

End Failures.

Lemma failure_notifications_witness :
  ∃ m', EmployeeDashboard.step punching_in
          (EmployeeDashboard.PostReply 0 (Rejected {| response := None |}))
        = Some (m', [ ToastError (JStr "Failed to punch in"); SetActionLoading false ]).
Proof.
  destruct (failure_notifications (H := SampleHost.sample_host)) as (Hcommand & _).
  exact (Hcommand punching_in 0%nat PunchIn {| response := None |} eq_refl).
Defined.

(** * The persisted session *)

Section Session.
Context `{Host}.

Lemma truthy_string (s : string) : s ≠ "" → truthy (JStr s) = true.
Proof. intros Hs. cbn. by apply negb_true_iff, String.eqb_neq. Qed.

Lemma get_prop_truthy (v : jsval) (key : string) :
  truthy v = true → ∃ w, get_prop v key = Ok w.
Proof.
  destruct v as [| | | | | | | name [|]]; try discriminate; intros _; cbn; eauto.
Qed.

Lemma handleSubmit_login (token : string) (u : jsval) (st : AuthPage.state) :
  (AuthPage.handleSubmit_settled (Fulfilled (login_body token u)) st).2
  = [ ToastSuccess (if AuthPage.isLogin st then "Logged in successfully!"
                    else "Account created successfully!");
      OnLogin (JStr token) u ].
Proof. reflexivity. Qed.

(** A login with a token that is a string cannot throw; what is stored
    under [user] is the serialized user or, when [JSON.stringify] yields
    [undefined], the text "undefined". *)
Lemma handleLogin_string (token : string) (u : jsval)
    (storage : gmap string string) (st : App.state) :
  App.handleLogin (JStr token) u storage st
  = Ok (<["user" := default "undefined" (JSON_stringify u)]>
          (<["token" := token]> storage),
        {| App.user := u; App.loading := App.loading st |},
        [ SetItem "token" token;
          SetItem "user" (default "undefined" (JSON_stringify u)) ]).
Proof. unfold App.handleLogin, App.setItem. by destruct (JSON_stringify u). Qed.

Lemma handleLogin_text (token u : jsval) (text : string)
    (storage : gmap string string) (st : App.state) :
  to_string token = Ok text →
  App.handleLogin token u storage st
  = Ok (<["user" := default "undefined" (JSON_stringify u)]>
          (<["token" := text]> storage),
        {| App.user := u; App.loading := App.loading st |},
        [ SetItem "token" text;
          SetItem "user" (default "undefined" (JSON_stringify u)) ]).
Proof.
  intros Htext. unfold App.handleLogin, App.setItem. rewrite Htext.
  by destruct (JSON_stringify u).
Qed.

Lemma reload_unauthenticated (storage : gmap string string) :
  storage !! "token" = None ∨ storage !! "user" = None →
  App.reload storage = Ok ({| App.user := JNull; App.loading := false |}, []).
Proof.
  unfold App.reload, App.on_mount, App.getItem, js_and.
  intros [Hm | Hm]; rewrite Hm.
  - reflexivity.
  - destruct (storage !! "token") as [t |]; [| exact eq_refl].
    destruct t; exact eq_refl.
Qed.

Lemma render_authenticated (u : jsval) :
  truthy u = true →
  (App.render {| App.user := u; App.loading := false |} "/"
   = Ok (App.EmployeeDashboard u)
   ∨ App.render {| App.user := u; App.loading := false |} "/"
     = Ok (App.EmployerDashboard u))
  ∧ App.render {| App.user := u; App.loading := false |} "/auth"
    = Ok (App.Navigate "/").
Proof.
  intros Hu. unfold App.render. cbn [App.loading App.user String.eqb Ascii.eqb].
  unfold_result. cbn. rewrite Hu.
  destruct (get_prop_truthy u "role" Hu) as [role ->].
  cbn [bind negb]. split; [| reflexivity].
  destruct (strict_eq_str role "employee"); [by left | by right].
Qed.

(** C7. A login stores the token and the serialized user; reloading
    with this storage restores the same user and shows the dashboard,
    issuing no request and consulting nothing but the two stored values;
    when either value is missing the user is [null] and the root route
    redirects to the login page. *)
Theorem login_reload_roundtrip (token : string) (u : jsval) (j : string)
    (storage : gmap string string) (st : App.state) :
  token ≠ "" → truthy u = true →
  JSON_stringify u = Some j → j ≠ "" → JSON_parse j = Ok u →
  ∃ stored,
  (AuthPage.handleSubmit_settled (Fulfilled (login_body token u))
     {| AuthPage.isLogin := true; AuthPage.loading := true;
        AuthPage.formData := {| AuthPage.email := ""; AuthPage.password := "";
                                AuthPage.name := ""; AuthPage.role := "employee" |} |}).2
  = [ ToastSuccess "Logged in successfully!"; OnLogin (JStr token) u ]
  ∧ App.handleLogin (JStr token) u storage st
    = Ok (stored, {| App.user := u; App.loading := App.loading st |},
          [ SetItem "token" token; SetItem "user" j ])
  ∧ stored !! "token" = Some token
  ∧ stored !! "user" = Some j
  ∧ App.reload stored = Ok ({| App.user := u; App.loading := false |}, [])
  ∧ (App.render {| App.user := u; App.loading := false |} "/"
     = Ok (App.EmployeeDashboard u)
     ∨ App.render {| App.user := u; App.loading := false |} "/"
       = Ok (App.EmployerDashboard u))
  ∧ (∀ storage0,
       storage0 !! "token" = None ∨ storage0 !! "user" = None →
       App.reload storage0 = Ok ({| App.user := JNull; App.loading := false |}, [])
       ∧ App.render {| App.user := JNull; App.loading := false |} "/"
         = Ok (App.Navigate "/auth")).
Proof.
  intros Htoken Hu Hj Hne Hparse.
  exists (<["user" := j]> (<["token" := token]> storage)).
  split; [reflexivity |].
  split; [by rewrite handleLogin_string, Hj |].
  split; [by rewrite lookup_insert_ne, lookup_insert_eq |].
  split; [by rewrite lookup_insert_eq |].
  split; [| split].
  - unfold App.reload, App.on_mount, App.getItem.
    rewrite lookup_insert_eq, lookup_insert_ne, lookup_insert_eq by done.
    unfold js_and. rewrite (truthy_string token Htoken), (truthy_string j Hne).
    unfold to_string, to_primitive, primitive_to_string. unfold_result. cbn [bind]. by rewrite Hparse.
  - by apply render_authenticated.
  - intros storage0 Hmissing. split; [by apply reload_unauthenticated | reflexivity].
Qed.

End Session.

Lemma login_reload_roundtrip_witness :
  ∃ stored logged_in out,
    App.handleLogin (JStr "tok-123") ada ∅ App.initial = Ok (stored, logged_in, out)
    ∧ App.reload stored = Ok ({| App.user := ada; App.loading := false |}, []).
Proof.
  destruct (login_reload_roundtrip "tok-123" ada
              (default "" (JSON_stringify ada)) ∅ App.initial)
    as (stored & _ & Hlogin & _ & _ & Hreload & _).
  - discriminate.
  - reflexivity.
  - reflexivity.
  - vm_compute. discriminate.
  - reflexivity.
  - eexists stored, _, _. split; [exact Hlogin | exact Hreload].
Defined.

(** * The punch card *)

Section PunchCard.
Context `{Host} `{Props}.
Import EmployeeDashboard.

Lemma offered_table (st : state) :
  let a := attendance_of (todayStatus st) in
  btn_command <$> render_buttons st
  = if truthy (isPunchedIn a)
    then [ PunchOut; if truthy (onBreak a) then EndBreak else StartBreak ]
    else if truthy (field punch_out a) then [] else [ PunchIn ].
Proof.
  intros a. unfold render_buttons. fold a.
  unfold js_and, js_not.
  destruct (truthy (isPunchedIn a)) eqn:Hin; cbn [negb truthy].
  - destruct (truthy (onBreak a)); reflexivity.
  - destruct (truthy (field punch_out a)); reflexivity.
Qed.

Lemma render_spinner (st : state) : render st = Ok Spinner ↔ loading st = true.
Proof.
  unfold render. destruct (loading st); [done |].
  split; [| discriminate]. intros Hr. bind_inv Hr. discriminate Hr.
Qed.

(** A view that is mounted and has finished loading shows the
    dashboard. *)
Lemma mounted_dashboard (st : state) :
  mounted st = true → loading st = false → ∃ d, render st = Ok (Dashboard d).
Proof.
  unfold mounted. intros Hm Hl.
  destruct (render st) as [[| d] | e] eqn:Hr; [| by exists d | discriminate Hm].
  apply render_spinner in Hr. congruence.
Qed.

(** The buttons that can be clicked are those on the screen, unless the
    flag disables them. *)
Lemma enabled_iff (st : state) (d : dashboard) (c : command) :
  render st = Ok (Dashboard d) →
  enabled st c = true ↔ c ∈ offered (shift_card d) ∧ actionLoading st = false.
Proof.
  intros Hr. destruct (render_dashboard st d Hr) as (_ & Hcard & _).
  unfold enabled, offered.
  rewrite Hr, (render_punch_card_buttons st _ Hcard). rewrite list_elem_of_fmap. split.
  - rewrite existsb_exists. intros (b & Hin & Hb).
    apply andb_true_iff in Hb as [Hc Hd]. apply bool_decide_eq_true in Hc.
    apply list_elem_of_In in Hin.
    split; [by exists b |].
    rewrite <- (buttons_disabled st b Hin). by destruct (btn_disabled b).
  - intros [(b & -> & Hin) Hflag]. rewrite existsb_exists. exists b.
    split; [by apply list_elem_of_In |].
    rewrite (buttons_disabled st b Hin), Hflag.
    by rewrite bool_decide_eq_true_2.
Qed.

(** C9. The elapsed time is computed at one place, line 180, inside
    [{isPunchedIn && ...}].  So whenever [isPunchedIn] is false (on
    records typed as in the data model: [punch_in] absent, or
    [punch_out] present) no elapsed time is computed and none is on the
    screen, the value is undefined; in the first of the two cases the
    function would return the zero display "0h 0m".  While [isPunchedIn]
    is true the screen, if the view renders at all, shows the value of
    [calculateElapsedTime]; if computing it throws, nothing renders. *)
Theorem elapsed_only_while_punched_in (st : state) :
  let a := attendance_of (todayStatus st) in
  let value := calculateElapsedTime (todayStatus st) (currentTime st) in
  (is_absent (field punch_in a) = true → value = Ok "0h 0m")
  ∧ (∀ r, a = Some r →
          optional is_timestamp (punch_in r) = true →
          optional is_timestamp (punch_out r) = true →
          is_absent (punch_in r) = true ∨ is_present (punch_out r) = true →
          truthy (isPunchedIn a) = false)
  ∧ (truthy (isPunchedIn a) = false →
     ¬ ∃ d shown, render st = Ok (Dashboard d)
                  ∧ elapsed_panel (shift_card d) = Shown shown)
  ∧ (∀ d, render st = Ok (Dashboard d) →
          if truthy (isPunchedIn a)
          then ∃ shown, value = Ok shown
                        ∧ elapsed_panel (shift_card d) = Shown shown
          else elapsed_panel (shift_card d) = Skipped (isPunchedIn a))
  ∧ (truthy (isPunchedIn a) = true → mounted st = true → loading st = false →
     ∃ d shown, render st = Ok (Dashboard d)
                ∧ value = Ok shown
                ∧ elapsed_panel (shift_card d) = Shown shown)
  ∧ (truthy (isPunchedIn a) = true → loading st = false →
     throws value = true → mounted st = false).
Proof.
  intros a value.
  assert (Hpanel : ∀ d, render st = Ok (Dashboard d) →
            if truthy (isPunchedIn a)
            then ∃ shown, value = Ok shown
                          ∧ elapsed_panel (shift_card d) = Shown shown
            else elapsed_panel (shift_card d) = Skipped (isPunchedIn a)).
  { intros d Hr. destruct (render_dashboard st d Hr) as (_ & Hcard & _).
    by destruct (render_punch_card_parts st _ Hcard) as (_ & _ & ?). }
  split; [| split; [| split; [| split; [exact Hpanel |]]]].
  - intros Habs. apply calculateElapsedTime_absent. by apply truthy_absent.
  - intros r -> Hin Hout Hcase.
    destruct (truthy (isPunchedIn (Some r))) eqn:Ht; [| reflexivity].
    apply isPunchedIn_truthy, isPunchedIn_spec in Ht as [Tin Tout]. cbn [field] in *.
    rewrite (optional_timestamp_truthy _ Hin) in Tin.
    rewrite (optional_timestamp_truthy _ Hout) in Tout.
    unfold is_present in *. destruct Hcase as [Hc | Hc]; rewrite Hc in *; discriminate.
  - intros Hf (d & shown & Hr & Hshown).
    pose proof (Hpanel d Hr) as Hp. rewrite Hf in Hp. congruence.
  - split.
    + intros Ht Hm Hl. destruct (mounted_dashboard st Hm Hl) as [d Hr].
      pose proof (Hpanel d Hr) as Hp. rewrite Ht in Hp.
      destruct Hp as (shown & Hv & Hp). by exists d, shown.
    + intros Ht Hl Hthrow.
      destruct (mounted st) eqn:Hm; [| reflexivity].
      destruct (mounted_dashboard st Hm Hl) as [d Hr].
      pose proof (Hpanel d Hr) as Hp. rewrite Ht in Hp.
      destruct Hp as (shown & Hv & _). by rewrite Hv in Hthrow.
Qed.

(** X1. Whenever the dashboard is on the screen, its punch card offers
    exactly one of: "Punch In" alone; "Punch Out" with one of the two
    break buttons; or no button at all, together with the "Shift
    completed" message.  The elapsed-time panel goes with "Punch Out".
    Without a record for today "Punch In" is offered.  A button can be
    clicked exactly when it is offered and no command is in flight; when
    the render throws or shows the spinner, none can. *)
Theorem punch_card_offers (st : state) :
  (∀ d, render st = Ok (Dashboard d) →
     let card := shift_card d in
     (offered card = [ PunchIn ]
      ∨ offered card = [ PunchOut; StartBreak ]
      ∨ offered card = [ PunchOut; EndBreak ]
      ∨ offered card = [])
     ∧ (shift_complete_msg card = true ↔ offered card = [])
     ∧ ((∃ shown, elapsed_panel card = Shown shown) ↔ PunchOut ∈ offered card)
     ∧ (attendance_of (todayStatus st) = None → offered card = [ PunchIn ])
     ∧ (∀ c, enabled st c = true ↔ c ∈ offered card ∧ actionLoading st = false))
  ∧ ((∀ d, render st ≠ Ok (Dashboard d)) → ∀ c, enabled st c = false)
  ∧ (mounted st = true → loading st = false → ∃ d, render st = Ok (Dashboard d)).
Proof.
  split; [| split; [| apply mounted_dashboard]].
  2: { intros Hnone c. destruct (enabled st c) eqn:Hen; [| reflexivity].
       destruct (enabled_dashboard st c Hen) as (d & Hr & _). by destruct (Hnone d). }
  intros d Hr card.
  assert (Hclick : ∀ c, enabled st c = true
                        ↔ c ∈ offered card ∧ actionLoading st = false)
    by (intros c; by apply enabled_iff).
  destruct (render_dashboard st d Hr) as (_ & Hcard & _).
  destruct (render_punch_card_parts st _ Hcard) as (Hbuttons & Hmsg & Hpanel).
  pose proof (offered_table st) as Htable. cbn zeta in Htable.
  assert (Hoffered : offered card = btn_command <$> render_buttons st)
    by (unfold offered; subst card; by rewrite Hbuttons).
  rewrite <- Hoffered in Htable. fold card in Hmsg, Hpanel.
  assert (Hnone : attendance_of (todayStatus st) = None →
                  offered card = [ PunchIn ]).
  { intros Ha. by rewrite Ha in Htable. }
  cut ((offered card = [ PunchIn ]
        ∨ offered card = [ PunchOut; StartBreak ]
        ∨ offered card = [ PunchOut; EndBreak ]
        ∨ offered card = [])
       ∧ (shift_complete_msg card = true ↔ offered card = [])
       ∧ ((∃ shown, elapsed_panel card = Shown shown)
          ↔ PunchOut ∈ offered card));
    [tauto |].
  clear Hnone Hclick Hoffered. rewrite Htable, Hmsg. clear Htable Hmsg.
  set (a := attendance_of (todayStatus st)) in *.
  unfold js_and, js_not.
  destruct (truthy (isPunchedIn a)) eqn:Hin; cbn [negb truthy andb].
  - destruct Hpanel as (shown & _ & Hpanel).
    split; [destruct (truthy (onBreak a)); tauto |].
    split; [split; [discriminate | destruct (truthy (onBreak a)); discriminate] |].
    split; [intros _; rewrite elem_of_cons; by left | eauto].
  - rewrite Hpanel. destruct (truthy (field punch_out a)); cbn [negb].
    + split; [tauto |]. split; [tauto |].
      split; [intros [? [=]] | intros Hx; by apply elem_of_nil in Hx].
    + split; [tauto |]. split; [split; discriminate |].
      split; [intros [? [=]] |].
      rewrite elem_of_cons, elem_of_nil. intros [[=] | []].
Qed.

(** X2. For a record whose four time fields are timestamps or absent,
    on a dashboard that is on the screen: "Punch In" is offered exactly
    when neither punch is recorded; nothing is offered (the shift is
    complete) exactly when [punch_out] is recorded, with or without a
    [punch_in]; "End Break" is offered exactly while a break is open
    during the shift, and "Start Break" otherwise during the shift, also
    after a break that has ended. *)
Theorem punch_card_by_record (st : state) (r : AttendanceRecord) (d : dashboard) :
  render st = Ok (Dashboard d) →
  attendance_of (todayStatus st) = Some r →
  optional is_timestamp (punch_in r) = true →
  optional is_timestamp (punch_out r) = true →
  optional is_timestamp (break_start r) = true →
  optional is_timestamp (break_end r) = true →
  let shown := offered (shift_card d) in
  (shown = [ PunchIn ]
   ↔ is_absent (punch_in r) = true ∧ is_absent (punch_out r) = true)
  ∧ (shown = [] ↔ is_present (punch_out r) = true)
  ∧ (PunchOut ∈ shown
     ↔ is_present (punch_in r) = true ∧ is_absent (punch_out r) = true)
  ∧ (EndBreak ∈ shown
     ↔ is_present (punch_in r) = true ∧ is_absent (punch_out r) = true
       ∧ is_present (break_start r) = true ∧ is_absent (break_end r) = true)
  ∧ (StartBreak ∈ shown
     ↔ is_present (punch_in r) = true ∧ is_absent (punch_out r) = true
       ∧ (is_absent (break_start r) = true ∨ is_present (break_end r) = true)).
Proof.
  intros Hr Ha Hin Hout Hbs Hbe shown.
  destruct (render_dashboard st d Hr) as (_ & Hcard & _).
  pose proof (offered_table st) as Htable. cbn zeta in Htable.
  subst shown. unfold offered. rewrite (render_punch_card_buttons st _ Hcard).
  rewrite Ha in Htable. rewrite Htable.
  unfold isPunchedIn, onBreak, js_and, js_not. cbn [field].
  pose proof (optional_timestamp_truthy _ Hin) as Tin.
  pose proof (optional_timestamp_truthy _ Hout) as Tout.
  pose proof (optional_timestamp_truthy _ Hbs) as Tbs.
  pose proof (optional_timestamp_truthy _ Hbe) as Tbe.
  unfold is_present in *.
  destruct (is_absent (punch_in r)), (is_absent (punch_out r)),
    (is_absent (break_start r)), (is_absent (break_end r));
    cbn [negb] in *;
    repeat (rewrite ?Tin, ?Tout, ?Tbs, ?Tbe; cbn [truthy negb]);
    rewrite ?elem_of_cons, ?elem_of_nil;
    intuition (try discriminate; try congruence).
Qed.

End PunchCard.

(** After punch-out, at 18:00 of a shift from 09:00 to 17:00, the
    dashboard shows no elapsed time. *)
Lemma elapsed_only_while_punched_in_witness :
  match EmployeeDashboard.render
          (viewing (shift (JStr "2024-01-15T09:00:00.000Z")
                          (JStr "2024-01-15T17:00:00.000Z"))
                   1705341600000)
  with
  | Ok (EmployeeDashboard.Dashboard d) =>
      EmployeeDashboard.elapsed_panel (EmployeeDashboard.shift_card d)
      = Skipped (JBool false)
  | _ => False
  end.
Proof.
  destruct (EmployeeDashboard.render
              (viewing (shift (JStr "2024-01-15T09:00:00.000Z")
                              (JStr "2024-01-15T17:00:00.000Z"))
                       1705341600000))
    as [[| d] | e] eqn:E; try (vm_compute in E; discriminate E).
  destruct (elapsed_only_while_punched_in
              (viewing (shift (JStr "2024-01-15T09:00:00.000Z")
                              (JStr "2024-01-15T17:00:00.000Z"))
                       1705341600000))
    as (_ & _ & _ & Hpanel & _).
  exact (Hpanel d E).
Defined.

(** During the shift, on a break, the dashboard shows "Punch Out" and
    "End Break", and both can be clicked. *)
Lemma punch_card_offers_witness :
  match EmployeeDashboard.render
          (viewing (with_break (JStr "2024-01-15T12:00:00.000Z") JNull
                      (shift (JStr "2024-01-15T09:00:00.000Z") JNull))
                   1705320000000)
  with
  | Ok (EmployeeDashboard.Dashboard d) =>
      PunchOut ∈ offered (EmployeeDashboard.shift_card d)
      ∧ EmployeeDashboard.enabled
          (viewing (with_break (JStr "2024-01-15T12:00:00.000Z") JNull
                      (shift (JStr "2024-01-15T09:00:00.000Z") JNull))
                   1705320000000)
          PunchOut = true
  | _ => False
  end.
Proof.
  destruct (EmployeeDashboard.render
              (viewing (with_break (JStr "2024-01-15T12:00:00.000Z") JNull
                          (shift (JStr "2024-01-15T09:00:00.000Z") JNull))
                       1705320000000))
    as [[| d] | e] eqn:E; try (vm_compute in E; discriminate E).
  destruct (punch_card_offers
              (viewing (with_break (JStr "2024-01-15T12:00:00.000Z") JNull
                          (shift (JStr "2024-01-15T09:00:00.000Z") JNull))
                       1705320000000)) as (Hcard & _).
  destruct (Hcard d E) as (_ & _ & Hpanel & _ & Hclick).
  assert (Hout : PunchOut ∈ offered (EmployeeDashboard.shift_card d)).
  { apply Hpanel. vm_compute in E. injection E as <-. by eexists. }
  split; [exact Hout |]. apply Hclick. by split.
Defined.

Lemma punch_card_by_record_witness :
  match EmployeeDashboard.render
          (viewing (with_break (JStr "2024-01-15T12:00:00.000Z") JNull
                      (shift (JStr "2024-01-15T09:00:00.000Z") JNull))
                   1705320000000)
  with
  | Ok (EmployeeDashboard.Dashboard d) =>
      EndBreak ∈ offered (EmployeeDashboard.shift_card d)
  | _ => False
  end.
Proof.
  destruct (EmployeeDashboard.render
              (viewing (with_break (JStr "2024-01-15T12:00:00.000Z") JNull
                          (shift (JStr "2024-01-15T09:00:00.000Z") JNull))
                       1705320000000))
    as [[| d] | e] eqn:E; try (vm_compute in E; discriminate E).
  destruct (punch_card_by_record _ _ d E eq_refl eq_refl eq_refl eq_refl eq_refl)
    as (_ & _ & _ & Hend & _).
  apply Hend. repeat split.
Defined.

(** * The tasks of the employee view *)

Section Tasks.
Context `{Host} `{Props}.
Import EmployeeDashboard.

Lemma enabled_loaded (st : state) (c : command) :
  enabled st c = true → loading st = false.
Proof.
  intros Hen. destruct (enabled_dashboard st c Hen) as (d & Hr & _).
  by destruct (render_dashboard st d Hr).
Qed.

Lemma step_shape (m : machine) (ev : event) (m' : machine) (out : list effect) :
  task_shape m → step m ev = Some (m', out) → task_shape m'.
Proof.
  destruct m as [st ts]. unfold task_shape. cbn [view tasks].
  intros Hshape Hstep.
  destruct ev as [c | i r | i r | i r | now]; cbn [step view tasks] in Hstep.
  - destruct (enabled st c) eqn:Hen; [| discriminate].
    pose proof (enabled_loaded _ _ Hen) as Hl.
    pose proof (enabled_not_loading _ _ Hen) as Hf.
    rewrite onClick_handle in Hstep. injection Hstep as <- <-.
    cbn [view tasks].
    destruct ts as [| t [| t' ts]]; [by cbn | | by destruct t].
    destruct t as [a b | c' | c' a b]; cbn in Hshape; intuition congruence.
  - destruct ts as [| t [| t' ts]];
      [destruct i; discriminate | | by destruct t].
    destruct i as [| i]; [| destruct i; discriminate].
    cbn in Hstep. destruct t as [a b | c | c a b]; try discriminate.
    destruct Hshape as [Hl Hf].
    unfold handle_fulfilled, handle_rejected in Hstep.
    destruct r as [body | e]; [destruct (success_message c body) |];
      injection Hstep as <- <-; cbn; done.
  - destruct ts as [| t [| t' ts]];
      [destruct i; discriminate | | by destruct t].
    destruct i as [| i]; [| destruct i; discriminate].
    cbn in Hstep.
    destruct t as [[] b | c | c [] b]; try discriminate; cbn in Hstep;
      destruct r, b; cbn in Hstep; injection Hstep as <- <-; cbn;
      intuition congruence.
  - destruct ts as [| t [| t' ts]];
      [destruct i; discriminate | | by destruct t].
    destruct i as [| i]; [| destruct i; discriminate].
    cbn in Hstep.
    destruct t as [a [] | c | c a []]; try discriminate; cbn in Hstep;
      destruct r, a; cbn in Hstep; injection Hstep as <- <-; cbn;
      intuition congruence.
  - destruct (mounted st); [| discriminate].
    injection Hstep as <- <-. cbn [view tasks].
    by destruct ts as [| [a b | c | c a b] [| t' ts]].
Qed.

Lemma reachable_shape (m : machine) : reachable m → task_shape m.
Proof.
  induction 1 as [now | m ev m' out _ IH Hstep]; [by cbn |].
  by eapply step_shape.
Qed.

Lemma step_keeps_loaded (m : machine) (ev : event) (m' : machine)
    (out : list effect) :
  step m ev = Some (m', out) →
  loading (view m) = false → loading (view m') = false.
Proof.
  intros Hstep Hl.
  destruct ev as [c | i r | i r | i r | now]; cbn [step] in Hstep.
  - destruct (enabled (view m) c); [| discriminate].
    rewrite onClick_handle in Hstep. by injection Hstep as <- <-.
  - destruct (tasks m !! i) as [[| c |] |]; try discriminate.
    unfold handle_fulfilled, handle_rejected in Hstep.
    destruct r as [body | e]; [destruct (success_message c body) |];
      by injection Hstep as <- <-.
  - destruct (tasks m !! i ≫= mark_today) as [t |]; [| discriminate].
    destruct r, t as [[] [] | c | c [] []]; cbn in Hstep;
      by injection Hstep as <- <-.
  - destruct (tasks m !! i ≫= mark_history) as [t |]; [| discriminate].
    destruct r, t as [[] [] | c | c [] []]; cbn in Hstep;
      by injection Hstep as <- <-.
  - destruct (mounted (view m)); [| discriminate]. by injection Hstep as <- <-.
Qed.

(** X3. In every reachable state the employee view has at most one
    suspended task: the initial load, exactly while the spinner is shown,
    or one command handler.  During the load no command can be
    dispatched; once the load is over the spinner never comes back; and a
    suspended task always has a settlement to wait for. *)
Theorem one_task_at_a_time (m : machine) :
  reachable m →
  task_shape m
  ∧ (length (tasks m) ≤ 1)%nat
  ∧ (loading (view m) = true ↔ ∃ today hist, tasks m = [ LoadData today hist ])
  ∧ (loading (view m) = true → ∀ c, step m (Click c) = None)
  ∧ (∀ ev m' out, step m ev = Some (m', out) →
       loading (view m) = false → loading (view m') = false)
  ∧ (tasks m ≠ [] → ∃ ev, reply_target ev = Some 0%nat ∧ expects m ev = true).
Proof.
  intros Hreach. pose proof (reachable_shape m Hreach) as Hshape.
  split; [exact Hshape |].
  unfold task_shape in Hshape.
  split; [| split; [| split; [| split]]].
  - destruct (tasks m) as [| t [| t' ts]]; cbn; [lia | lia | by destruct t].
  - destruct (tasks m) as [| [a b | c | c a b] [| t' ts]]; try done.
    all: split; [intros Hl | intros (? & ? & Heq)]; try discriminate Heq;
      try (destruct Hshape; congruence); eauto.
  - intros Hl c. cbn [step]. destruct (enabled (view m) c) eqn:Hen; [| done].
    apply enabled_loaded in Hen. congruence.
  - intros ev m' out. apply step_keeps_loaded.
  - intros Hne.
    destruct m as [st [| [a b | c | c a b] [| t' ts]]]; cbn [tasks view] in *;
      try done.
    + destruct a.
      * by exists (TodayReply 0 (Rejected {| response := None |})).
      * destruct b; [| by destruct Hshape as (_ & _ & [=])].
        by exists (HistoryReply 0 (Rejected {| response := None |})).
    + by exists (PostReply 0 (Rejected {| response := None |})).
    + destruct a.
      * by exists (TodayReply 0 (Rejected {| response := None |})).
      * destruct b; [| by destruct Hshape as (_ & _ & [=])].
        by exists (HistoryReply 0 (Rejected {| response := None |})).
Qed.

End Tasks.

Lemma one_task_at_a_time_witness :
  task_shape punching_in
  ∧ ∃ ev, EmployeeDashboard.reply_target ev = Some 0%nat
          ∧ EmployeeDashboard.expects punching_in ev = true.
Proof.
  destruct (one_task_at_a_time punching_in punching_in_reachable)
    as (Hshape & _ & _ & _ & _ & Hwaits).
  split; [exact Hshape | by apply Hwaits].
Defined.

Section Refetch.
Context `{Host} `{Props}.
Import EmployeeDashboard.

(** X4. The view never updates its data optimistically: today's record
    and the history change only when the corresponding refetch is
    fulfilled, and then to the body of the response; a click, the reply
    to a command and a failed refetch leave them as they were.  The clock
    of the view changes only on the timer. *)
Theorem data_changes_only_by_fetch (m : machine) (ev : event) (m' : machine)
    (out : list effect) :
  step m ev = Some (m', out) →
  todayStatus (view m')
  = match ev with
    | TodayReply _ (Fulfilled body) => body
    | _ => todayStatus (view m)
    end
  ∧ history (view m')
    = match ev with
      | HistoryReply _ (Fulfilled body) => body
      | _ => history (view m)
      end
  ∧ currentTime (view m')
    = match ev with
      | Tick now => now
      | _ => currentTime (view m)
      end.
Proof.
  intros Hstep.
  destruct ev as [c | i r | i r | i r | now]; cbn [step] in Hstep.
  - destruct (enabled (view m) c); [| discriminate].
    rewrite onClick_handle in Hstep. by injection Hstep as <- <-.
  - destruct (tasks m !! i) as [[| c |] |]; try discriminate.
    unfold handle_fulfilled, handle_rejected in Hstep.
    destruct r as [body | e]; [destruct (success_message c body) |];
      by injection Hstep as <- <-.
  - destruct (tasks m !! i ≫= mark_today) as [t |]; [| discriminate].
    destruct r, t as [[] [] | c | c [] []]; cbn in Hstep;
      by injection Hstep as <- <-.
  - destruct (tasks m !! i ≫= mark_history) as [t |]; [| discriminate].
    destruct r, t as [[] [] | c | c [] []]; cbn in Hstep;
      by injection Hstep as <- <-.
  - destruct (mounted (view m)); [| discriminate]. by injection Hstep as <- <-.
Qed.

(** Without a record for today and at rest, "Punch In" can be clicked
    exactly when the view is on the screen. *)
Lemma enabled_punch_in_no_record (st : state) :
  attendance_of (todayStatus st) = None →
  loading st = false → actionLoading st = false →
  enabled st PunchIn = mounted st.
Proof.
  intros Ha Hl Hflag. unfold mounted.
  destruct (render st) as [[| d] | e] eqn:Hr.
  - apply render_spinner in Hr. congruence.
  - cbn [throws negb]. apply (enabled_iff st d PunchIn Hr). split; [| exact Hflag].
    destruct (render_dashboard st d Hr) as (_ & Hcard & _).
    pose proof (offered_table st) as Htable. cbn zeta in Htable.
    unfold offered. rewrite (render_punch_card_buttons st _ Hcard).
    rewrite Htable, Ha. cbn. rewrite elem_of_cons. by left.
  - unfold enabled. by rewrite Hr.
Qed.

(** Without a record for today the punch card computes no elapsed
    time. *)
Lemma render_punch_card_no_record (st : state) :
  attendance_of (todayStatus st) = None →
  ∃ card, render_punch_card st = Ok card.
Proof.
  intros Ha. unfold render_punch_card, guard. rewrite Ha. cbn. eauto.
Qed.

(** X5. The initial load ends when both of its requests are settled, in
    either order and whatever their outcome: the spinner stays after the
    first settlement and goes with the second; each fulfilled request
    fills its part of the state, each failed one leaves the empty default
    and shows its toast.  When the status request has failed, "Punch In"
    can be clicked exactly when the view is on the screen, that is, when
    the header and the history that has arrived can be rendered. *)
Theorem initial_load (now : Z) (today : reply (option TodayStatus))
    (hist : reply (list AttendanceRecord)) (evs : list event) :
  evs ∈ load_orders today hist →
  (∀ ev rest, evs = ev :: rest →
     ∃ m1 out1, step (mount now).1 ev = Some (m1, out1)
                ∧ loading (view m1) = true)
  ∧ ∃ m out,
      run (mount now).1 evs = Some (m, out)
      ∧ tasks m = []
      ∧ view m = {| todayStatus := body_or today None;
                    loading := false;
                    actionLoading := false;
                    history := body_or hist [];
                    currentTime := now |}
      ∧ out ≡ₚ failure_toast today "Failed to fetch today's status"
               ++ failure_toast hist "Failed to fetch history"
      ∧ (∀ e, today = Rejected e →
              (enabled (view m) PunchIn = true ↔ mounted (view m) = true)
              ∧ (mounted (view m) = true
                 ↔ ∃ name, get_prop user "name" = Ok name
                           ∧ throws (jsx_child name) = false
                           ∧ throws (render_history (body_or hist [])) = false)).
Proof.
  assert (Hoffer : ∀ st, st = {| todayStatus := body_or today None;
                                 loading := false;
                                 actionLoading := false;
                                 history := body_or hist [];
                                 currentTime := now |} →
            ∀ e, today = Rejected e →
                 (enabled st PunchIn = true ↔ mounted st = true)
                 ∧ (mounted st = true
                    ↔ ∃ name, get_prop user "name" = Ok name
                              ∧ throws (jsx_child name) = false
                              ∧ throws (render_history (body_or hist [])) = false)).
  { intros st -> e ->. split; [by rewrite enabled_punch_in_no_record |].
    match goal with
    | |- context [mounted ?st] =>
        destruct (render_punch_card_no_record st eq_refl) as [card Hcard]
    end.
    unfold mounted, render. rewrite Hcard.
    cbn [loading todayStatus history body_or attendance_of render_summary].
    unfold_result. cbn [bind].
    destruct (get_prop user "name") as [name |]; cbn [bind throws negb].
    - destruct (render_history (body_or hist [])); cbn [bind throws negb].
      + destruct (jsx_child name) eqn:Hj; cbn [bind throws negb].
        * split; [intros _; exists name; by rewrite Hj | done].
        * split; [done | intros (name' & [= <-] & Hn & _)].
          rewrite Hj in Hn. discriminate Hn.
      + split; [done | intros (name' & _ & _ & Hh); discriminate Hh].
    - split; [done | intros (name' & [=] & _)]. }
  unfold load_orders. rewrite !elem_of_cons, elem_of_nil.
  intros [-> | [-> | []]].
  - split.
    + intros ev rest [= <- <-]. destruct today; cbn; eauto.
    + destruct today, hist; cbn; eexists _, _;
        (split; [reflexivity |]); (split; [reflexivity |]);
        (split; [reflexivity |]); (split; [done |]); exact (Hoffer _ eq_refl).
  - split.
    + intros ev rest [= <- <-]. destruct hist; cbn; eauto.
    + destruct today, hist; cbn; eexists _, _;
        (split; [reflexivity |]); (split; [reflexivity |]);
        (split; [reflexivity |]);
        (split; [try done; apply Permutation_swap |]); exact (Hoffer _ eq_refl).
Qed.

End Refetch.

Lemma data_changes_only_by_fetch_witness :
  match EmployeeDashboard.step punching_in
          (EmployeeDashboard.PostReply 0
             (Fulfilled (JObj [ ("punch_in", JStr "2024-01-15T09:00:00.000Z") ])))
  with
  | Some (m', _) =>
      EmployeeDashboard.todayStatus (EmployeeDashboard.view m')
      = Some {| attendance := None |}
  | None => False
  end.
Proof.
  destruct (EmployeeDashboard.step punching_in
              (EmployeeDashboard.PostReply 0
                 (Fulfilled (JObj [ ("punch_in", JStr "2024-01-15T09:00:00.000Z") ]))))
    as [[m' out] |] eqn:E.
  - exact (proj1 (data_changes_only_by_fetch punching_in _ _ _ E)).
  - discriminate E.
Defined.

Lemma initial_load_witness :
  ∃ m out,
    EmployeeDashboard.run (EmployeeDashboard.mount 1705309200000).1
      [ EmployeeDashboard.HistoryReply 0 (Fulfilled []);
        EmployeeDashboard.TodayReply 0 (Rejected {| response := None |}) ]
    = Some (m, out)
    ∧ EmployeeDashboard.enabled (EmployeeDashboard.view m) PunchIn = true.
Proof.
  destruct (initial_load 1705309200000 (Rejected {| response := None |})
              (Fulfilled [])
              [ EmployeeDashboard.HistoryReply 0 (Fulfilled []);
                EmployeeDashboard.TodayReply 0 (Rejected {| response := None |}) ])
    as (_ & m & out & Hrun & _ & _ & _ & Hoffer).
  - unfold load_orders. rewrite !elem_of_cons. right. by left.
  - exists m, out. split; [exact Hrun |].
    destruct (Hoffer _ eq_refl) as [Hclick Hmounted].
    apply Hclick, Hmounted. by exists (JStr "Ada").
Defined.

(** * A render that throws *)

Section Crash.
Context `{Host} `{Props}.
Import EmployeeDashboard.

(** The punch card throws exactly when [new Date(punch_in)] does while
    [isPunchedIn]. *)
Lemma throws_punch_card_date (st : state) :
  let a := attendance_of (todayStatus st) in
  throws (render_punch_card st)
  = throws (guard (isPunchedIn a) (new_Date (field punch_in a))).
Proof.
  intros a. unfold render_punch_card, guard, calculateElapsedTime. fold a.
  destruct (truthy (isPunchedIn a)) eqn:Hin; [| reflexivity].
  apply isPunchedIn_truthy, isPunchedIn_spec in Hin as [-> _].
  unfold_result. cbn [negb]. by destruct (new_Date _).
Qed.

Lemma mounted_parts (st : state) :
  mounted st
  = loading st || (header_renders && summary_renders st && history_renders st).
Proof.
  pose proof (throws_punch_card_date st) as Hcard. cbn zeta in Hcard.
  unfold mounted, render, header_renders, summary_renders, history_renders.
  rewrite <- Hcard. clear Hcard.
  destruct (loading st); [reflexivity |]. unfold_result. cbn [orb].
  destruct (get_prop user "name") as [name |]; cbn [bind throws negb andb];
    [| reflexivity].
  destruct (render_punch_card st); cbn [bind throws negb andb];
    [| by destruct (jsx_child name)].
  destruct (render_summary _); cbn [bind throws negb andb];
    [| by destruct (jsx_child name)].
  destruct (render_history _); cbn [bind throws negb andb];
    [| by destruct (jsx_child name)].
  by destruct (jsx_child name).
Qed.

Lemma enabled_mounted (st : state) (c : command) :
  enabled st c = true → mounted st = true.
Proof.
  intros Hen. destruct (enabled_dashboard st c Hen) as (d & Hr & _).
  unfold mounted. by rewrite Hr.
Qed.

Lemma step_data_intact (m : machine) (ev : event) (m' : machine) (out : list effect) :
  task_shape m → data_intact m → step m ev = Some (m', out) → data_intact m'.
Proof.
  destruct m as [st ts]. unfold task_shape, data_intact. cbn [view tasks].
  intros Hshape Hdata Hstep.
  destruct ev as [c | i r | i r | i r | now]; cbn [step view tasks] in Hstep.
  - destruct (enabled st c) eqn:Hen; [| discriminate].
    pose proof (enabled_loaded _ _ Hen) as Hl.
    pose proof (enabled_not_loading _ _ Hen) as Hf.
    pose proof (enabled_mounted _ _ Hen) as Hm.
    rewrite mounted_parts, Hl in Hm. cbn [orb] in Hm.
    rewrite onClick_handle in Hstep. injection Hstep as <- <-. cbn [view tasks].
    destruct ts as [| t [| t' ts]]; [exact Hm | | by destruct t].
    destruct t as [a b | c' | c' a b]; cbn in Hshape; intuition congruence.
  - destruct ts as [| t [| t' ts]];
      [destruct i; discriminate | | by destruct t].
    destruct i as [| i]; [| destruct i; discriminate].
    cbn in Hstep. destruct t as [a b | c | c a b]; try discriminate.
    unfold handle_fulfilled, handle_rejected in Hstep.
    destruct r as [body | e]; [destruct (success_message c body) |];
      injection Hstep as <- <-; cbn [view tasks]; try exact I.
    cbn [insert list_insert]. destruct (refetches_history c); [exact Hdata |].
    by apply andb_true_iff in Hdata as [-> _].
  - destruct ts as [| t [| t' ts]];
      [destruct i; discriminate | | by destruct t].
    destruct i as [| i]; [| destruct i; discriminate].
    cbn in Hstep.
    destruct t as [[] b | c | c [] b]; try discriminate; cbn in Hstep;
      destruct r, b; cbn in Hstep; injection Hstep as <- <-; cbn; try exact I.
    + apply andb_true_iff in Hdata as [Hd Hh]. apply andb_true_iff in Hd as [Hd _].
      apply andb_true_iff. split; [exact Hd | exact Hh].
    + apply andb_true_iff in Hdata as [Hd Hh]. apply andb_true_iff in Hd as [Hd _].
      apply andb_true_iff. split; [exact Hd | exact Hh].
  - destruct ts as [| t [| t' ts]];
      [destruct i; discriminate | | by destruct t].
    destruct i as [| i]; [| destruct i; discriminate].
    cbn in Hstep.
    destruct t as [a [] | c | c a []]; try discriminate; cbn in Hstep;
      destruct r, a; cbn in Hstep; injection Hstep as <- <-; cbn; try exact I.
    + apply andb_true_iff in Hdata as [Hd _]. exact Hd.
    + apply andb_true_iff in Hdata as [Hd _]. exact Hd.
  - destruct (mounted st); [| discriminate].
    injection Hstep as <- <-. cbn [view tasks]. exact Hdata.
Qed.

Lemma reachable_data_intact (m : machine) : reachable m → data_intact m.
Proof.
  induction 1 as [now | m ev m' out Hm IH Hstep]; [exact I |].
  eapply step_data_intact; [by apply reachable_shape | exact IH | exact Hstep].
Qed.

(** X21. A render that throws is final.  In every reachable state in
    which the render of the view throws: no button can be clicked and
    the timer has stopped; the only events left are the settlements of
    the refetches that a command handler still awaits, and after each of
    them the render throws again, whatever the response holds.  So a view
    that has thrown never comes back, and the state that its handlers
    go on writing is never rendered. *)
Theorem crash_is_final (m : machine) :
  reachable m →
  mounted (view m) = false →
  loading (view m) = false
  ∧ (∀ c, step m (Click c) = None)
  ∧ (∀ now, step m (Tick now) = None)
  ∧ (∀ ev m' out, step m ev = Some (m', out) →
       mounted (view m') = false
       ∧ ∃ c today hist, tasks m = [ AwaitRefetch c today hist ]).
Proof.
  intros Hreach Hcrash.
  pose proof (reachable_shape m Hreach) as Hshape.
  pose proof (reachable_data_intact m Hreach) as Hdata.
  assert (Hl : loading (view m) = false).
  { rewrite mounted_parts in Hcrash. by destruct (loading (view m)). }
  assert (Hclick : ∀ c, step m (Click c) = None).
  { intros c. cbn [step]. destruct (enabled (view m) c) eqn:Hen; [| reflexivity].
    apply enabled_mounted in Hen. congruence. }
  assert (Htick : ∀ now, step m (Tick now) = None).
  { intros now. cbn [step]. by rewrite Hcrash. }
  split; [exact Hl |]. split; [exact Hclick |]. split; [exact Htick |].
  intros ev m' out Hstep.
  rewrite mounted_parts, Hl in Hcrash. cbn [orb] in Hcrash.
  destruct m as [st ts]. unfold task_shape, data_intact in *. cbn [view tasks] in *.
  destruct ev as [c | i r | i r | i r | now];
    [by rewrite Hclick in Hstep | | | | by rewrite Htick in Hstep];
    cbn [step view tasks] in Hstep.
  - destruct ts as [| t [| t' ts]];
      [destruct i; discriminate | | by destruct t].
    destruct i as [| i]; [| destruct i; discriminate].
    cbn in Hstep. destruct t as [a b | c | c a b]; try discriminate.
    congruence.
  - destruct ts as [| t [| t' ts]];
      [destruct i; discriminate | | by destruct t].
    destruct i as [| i]; [| destruct i; discriminate].
    cbn in Hstep.
    destruct t as [[] b | c | c [] b]; try discriminate;
      [destruct Hshape; congruence |].
    destruct b; [congruence |].
    split; [| by eexists _, _, _].
    apply andb_true_iff in Hdata as [Hheader Hsummary].
    rewrite Hheader, Hsummary in Hcrash. cbn [andb] in Hcrash.
    destruct r; cbn in Hstep; injection Hstep as <- <-;
      rewrite mounted_parts; cbn; unfold history_renders in *; cbn;
      by rewrite Hcrash, Hl, andb_false_r.
  - destruct ts as [| t [| t' ts]];
      [destruct i; discriminate | | by destruct t].
    destruct i as [| i]; [| destruct i; discriminate].
    cbn in Hstep.
    destruct t as [a [] | c | c a []]; try discriminate;
      [destruct Hshape; congruence |].
    destruct a; [congruence |].
    split; [| by eexists _, _, _].
    apply andb_true_iff in Hdata as [Hheader Hhistory].
    rewrite Hheader, Hhistory in Hcrash. rewrite andb_true_r in Hcrash.
    cbn [andb] in Hcrash.
    destruct r; cbn in Hstep; injection Hstep as <- <-;
      rewrite mounted_parts; cbn; unfold summary_renders in *; cbn;
      by rewrite Hcrash, Hl, andb_false_r.
Qed.

End Crash.

(** Today's record arrives without a status: when the load is over the
    render throws, and nothing can be clicked. *)
Lemma crash_is_final_witness :
  match EmployeeDashboard.run (EmployeeDashboard.mount 1705309200000).1
          [ EmployeeDashboard.TodayReply 0
              (Fulfilled (Some {| attendance :=
                                    Some (with_status JUndefined
                                            (shift (JStr "2024-01-15T09:00:00.000Z")
                                                   JNull)) |}));
            EmployeeDashboard.HistoryReply 0 (Fulfilled []) ]
  with
  | Some (m, _) =>
      EmployeeDashboard.mounted (EmployeeDashboard.view m) = false
      ∧ ∀ c, EmployeeDashboard.step m (EmployeeDashboard.Click c) = None
  | None => False
  end.
Proof.
  destruct (EmployeeDashboard.run (EmployeeDashboard.mount 1705309200000).1
              [ EmployeeDashboard.TodayReply 0
                  (Fulfilled (Some {| attendance :=
                                        Some (with_status JUndefined
                                                (shift (JStr "2024-01-15T09:00:00.000Z")
                                                       JNull)) |}));
                EmployeeDashboard.HistoryReply 0 (Fulfilled []) ])
    as [[m out] |] eqn:E; [| vm_compute in E; discriminate E].
  assert (Hreach : EmployeeDashboard.reachable m).
  { eapply run_reachable; [constructor | exact E]. }
  assert (Hcrash : EmployeeDashboard.mounted (EmployeeDashboard.view m) = false).
  { vm_compute in E. injection E as <- _. reflexivity. }
  split; [exact Hcrash |]. apply (crash_is_final m Hreach Hcrash).
Defined.

(** * Edge cases of the elapsed time *)

Section ElapsedEdges.
Context `{Host}.
Import EmployeeDashboard.

Lemma rem_small_negative (d b : Z) : - b < d ≤ 0 → Z.rem d b = d.
Proof.
  intros Hd. replace d with (- (- d)) by lia.
  rewrite Z.rem_opp_l by lia. rewrite Z.rem_small by lia. reflexivity.
Qed.

(** X6. Once [punch_in] is there: a value that is no date shows
    "NaNh NaNm"; a punch-in less than a minute ahead of the clock of the
    browser shows "-1h -1m"; and two instants whose whole elapsed minutes
    agree show the same text, so that the one-second timer changes the
    display only when a minute is completed.  A value that cannot be
    turned into a primitive makes [new Date] throw, and the function
    with it. *)
Theorem elapsed_edge_cases (t : option TodayStatus) (now : Z) :
  truthy (field punch_in (attendance_of t)) = true →
  (new_Date (field punch_in (attendance_of t)) = Ok None →
   calculateElapsedTime t now = Ok "NaNh NaNm")
  ∧ (∀ T, new_Date (field punch_in (attendance_of t)) = Ok (Some T) →
          T - 60000 ≤ now < T →
          calculateElapsedTime t now = Ok "-1h -1m")
  ∧ (∀ T now', new_Date (field punch_in (attendance_of t)) = Ok (Some T) →
               T ≤ now → T ≤ now' →
               (now - T) / 60000 = (now' - T) / 60000 →
               calculateElapsedTime t now = calculateElapsedTime t now')
  ∧ (∀ e, new_Date (field punch_in (attendance_of t)) = Throw e →
          calculateElapsedTime t now = Throw e).
Proof.
  intros Htruthy. split; [| split; [| split]].
  4: { intros e He. unfold calculateElapsedTime. by rewrite Htruthy, He. }
  - intros Hnone. unfold calculateElapsedTime. by rewrite Htruthy, Hnone.
  - intros T HT Hrange.
    rewrite (calculateElapsedTime_value t T now Htruthy HT).
    rewrite rem_small_negative by lia.
    assert (Hh : (now - T) / 3600000 = -1)
      by (symmetry; apply (Z.div_unique _ _ _ (now - T + 3600000)); lia).
    assert (Hm : (now - T) / 60000 = -1)
      by (symmetry; apply (Z.div_unique _ _ _ (now - T + 60000)); lia).
    by rewrite Hh, Hm.
  - intros T now' HT Hle Hle' Hsame.
    rewrite (calculateElapsedTime_value t T now Htruthy HT),
      (calculateElapsedTime_value t T now' Htruthy HT).
    destruct (hours_minutes_split (now - T)) as [-> ->]; [lia |].
    destruct (hours_minutes_split (now' - T)) as [-> ->]; [lia |].
    by rewrite Hsame.
Qed.

End ElapsedEdges.

Lemma elapsed_edge_cases_witness :
  EmployeeDashboard.calculateElapsedTime
    (Some {| attendance := Some (shift (JStr "this morning") JNull) |}) 1705309200000
  = Ok "NaNh NaNm"
  ∧ EmployeeDashboard.calculateElapsedTime
      (Some {| attendance := Some (shift (JStr "2024-01-15T09:00:00.000Z") JNull) |})
      (1705309200000 - 1)
    = Ok "-1h -1m".
Proof.
  split.
  - destruct (elapsed_edge_cases
                (Some {| attendance := Some (shift (JStr "this morning") JNull) |})
                1705309200000 eq_refl) as (Hnan & _).
    apply Hnan. reflexivity.
  - destruct (elapsed_edge_cases
                (Some {| attendance :=
                           Some (shift (JStr "2024-01-15T09:00:00.000Z") JNull) |})
                (1705309200000 - 1) eq_refl) as (_ & Hahead & _).
    apply (Hahead 1705309200000); [reflexivity | lia].
Defined.

(** * The monthly report *)

Section Report.
Context `{Host}.
Import EmployerDashboard.

Lemma count_where_le {A} (p : A → bool) (l : list A) :
  (count_where p l ≤ length l)%nat.
Proof.
  induction l as [| x l IH]; cbn [count_where length]; [lia |].
  destruct (p x); lia.
Qed.

Lemma count_where_disjoint {A} (p q : A → bool) (l : list A) :
  (∀ x, p x = true → q x = false) →
  (count_where p l + count_where q l ≤ length l)%nat.
Proof.
  intros Hpq. induction l as [| x l IH]; cbn [count_where length]; [lia |].
  destruct (p x) eqn:Hp; [rewrite (Hpq x Hp) |]; [lia |].
  destruct (q x); lia.
Qed.

Lemma complete_not_incomplete (r : AttendanceRecord) :
  truthy (is_complete r) = true →
  truthy (js_and (js_and (js_not (is_complete r)) (js_not (is_weekend r)))
                 (punch_in r)) = false.
Proof. intros Hc. unfold js_and, js_not. by rewrite Hc. Qed.

(** X7. For every list of records, typed or not: no record is counted
    both complete and incomplete, so these two counters together never
    exceed the total, and neither does the break counter; and the
    counters of a concatenation are the sums of the counters of the
    parts. *)
Theorem getStats_consistent (l1 l2 : list AttendanceRecord) :
  (completeShifts (getStats l1) + incompleteShifts (getStats l1)
   ≤ totalRecords (getStats l1))%nat
  ∧ (breakExceeded (getStats l1) ≤ totalRecords (getStats l1))%nat
  ∧ totalRecords (getStats (l1 ++ l2))
    = (totalRecords (getStats l1) + totalRecords (getStats l2))%nat
  ∧ completeShifts (getStats (l1 ++ l2))
    = (completeShifts (getStats l1) + completeShifts (getStats l2))%nat
  ∧ incompleteShifts (getStats (l1 ++ l2))
    = (incompleteShifts (getStats l1) + incompleteShifts (getStats l2))%nat
  ∧ breakExceeded (getStats (l1 ++ l2))
    = (breakExceeded (getStats l1) + breakExceeded (getStats l2))%nat.
Proof.
  unfold getStats. cbn [totalRecords completeShifts incompleteShifts breakExceeded].
  rewrite !length_filter_count, !count_where_app, length_app.
  split; [| split; [| repeat split]].
  - apply count_where_disjoint. intros r. apply complete_not_incomplete.
  - apply count_where_le.
Qed.

(** X8. Once the key, the date, the two names, the two punch times and
    the two hours cells of a record can be rendered, its row of the monthly
    report is rendered whenever the status can be converted to a property
    key (every primitive value and every object that keeps the inherited
    [toString] can) or the record is flagged as weekend; otherwise the
    row throws what the conversion throws.  A weekend row shows the
    "Weekend" badge, and is highlighted exactly when its status is
    "break_exceeded": the status is read for the highlight although the
    badge does not show it. *)
Theorem render_row_total_on_status (r : AttendanceRecord)
    (d name email pin pout total break : string) (key : option string) :
  row_key (attendance_id r) = Ok key →
  format_parseISO (date r) "MMM d, yyyy" = Ok d →
  jsx_child (user_name r) = Ok name →
  jsx_child (user_email r) = Ok email →
  time_cell (punch_in r) = Ok pin →
  time_cell (punch_out r) = Ok pout →
  hours_cell (total_hours r) = Ok total →
  hours_cell (break_duration r) = Ok break →
  (truthy (is_weekend r) = true ∨ (∃ key, to_string (status r) = Ok key) →
   ∃ row, render_row r = Ok row
          ∧ row_date row = d ∧ row_employee row = name ∧ row_email row = email
          ∧ row_punch_in row = pin ∧ row_punch_out row = pout
          ∧ row_hours row = total ∧ row_break row = break
          ∧ (truthy (is_weekend r) = true →
             row_status row = weekend_badge
             ∧ (row_class row = "bg-red-50 hover:bg-red-100"
                ↔ status r = JStr "break_exceeded")))
  ∧ (truthy (is_weekend r) = false →
     ∀ e, to_string (status r) = Throw e → render_row r = Throw e).
Proof.
  intros Hkey Hd Hname Hemail Hpin Hpout Htotal Hbreak. split.
  - intros Hstatus.
    destruct (render_row_total r d name email pin pout total break key)
      as (b & Hrow & Hweekend); try assumption.
    eexists. split; [exact Hrow |]. cbn.
    repeat (split; [reflexivity |]).
    intros Hw. split; [by apply Hweekend |].
    unfold js_and, js_not, js_or. rewrite Hw. cbn [negb truthy].
    destruct (truthy (is_complete r)); cbn [negb truthy];
      rewrite <- strict_eq_str_spec;
      destruct (strict_eq_str (status r) "break_exceeded");
      split; intros; try done.
  - intros Hw e Hthrow. unfold render_row, getStatusBadge.
    rewrite Hd, Hpin, Hpout, Htotal, Hbreak, Hw, Hthrow. reflexivity.
Qed.

Lemma render_row_marks (r : AttendanceRecord) (row : report_row) :
  render_row r = Ok row →
  is_marked (row_hours_class row)
  = truthy (js_and (js_and (js_not (is_complete r)) (js_not (is_weekend r)))
                   (punch_in r))
  ∧ is_marked (row_break_class row) = strict_eq_str (status r) "break_exceeded"
  ∧ row_class row
    = (if is_marked (row_hours_class row) || is_marked (row_break_class row)
       then "bg-red-50 hover:bg-red-100" else "hover:bg-accent/50").
Proof.
  unfold render_row. intros Hr. bind_inv Hr. injection Hr as <-.
  cbn [row_hours_class row_break_class row_class].
  unfold js_or.
  destruct (truthy (js_and (js_and (js_not (is_complete r)) (js_not (is_weekend r)))
                           (punch_in r))) eqn:Hincomplete,
    (strict_eq_str (status r) "break_exceeded");
    rewrite ?Hincomplete; repeat split.
Qed.

(** X9. The cards and the table agree: when the table is rendered it
    has a row per counted record, the "Incomplete" card counts exactly
    the rows whose hours are marked, the "Break Exceeded" card exactly
    the rows whose break is marked, and a row is highlighted exactly when
    one of its two cells is. *)
Theorem counters_match_marks (l : list AttendanceRecord) (rows : list report_row) :
  MonthlyReport.render_rows l = Ok rows →
  length rows = totalRecords (getStats l)
  ∧ count_where (λ row, is_marked (row_hours_class row)) rows
    = incompleteShifts (getStats l)
  ∧ count_where (λ row, is_marked (row_break_class row)) rows
    = breakExceeded (getStats l)
  ∧ Forall (λ row, row_class row = "bg-red-50 hover:bg-red-100"
                   ↔ is_marked (row_hours_class row) = true
                     ∨ is_marked (row_break_class row) = true) rows.
Proof.
  unfold getStats. cbn [totalRecords incompleteShifts breakExceeded].
  rewrite !length_filter_count.
  revert rows. induction l as [| r l IH]; intros rows Hrows.
  - injection Hrows as <-. repeat split. constructor.
  - cbn [MonthlyReport.render_rows] in Hrows.
    destruct (render_row r) as [a | e] eqn:E;
      [| destruct e; unfold_result; cbn [bind] in Hrows; try discriminate Hrows;
         destruct (MonthlyReport.render_rows l); discriminate Hrows].
    unfold_result. cbn [bind] in Hrows.
    destruct (MonthlyReport.render_rows l) as [rest |] eqn:Erest;
      [| discriminate Hrows].
    cbn [bind] in Hrows. injection Hrows as <-.
    destruct (render_row_marks r a E) as (Hh & Hb & Hc).
    destruct (IH rest eq_refl) as (IHlen & IHh & IHb & IHc).
    cbn [length count_where]. rewrite Hh, Hb, IHlen, IHh, IHb.
    repeat split. constructor; [| exact IHc].
    rewrite Hc.
    destruct (is_marked (row_hours_class a)), (is_marked (row_break_class a));
      cbn [orb]; intuition (try discriminate; congruence).
Qed.

End Report.

(** A row whose status is a number is rendered, with the fallback
    badge; a weekend row whose status is an object with a number under
    [toString] is rendered too. *)
Lemma render_row_total_on_status_witness :
  ∃ row, EmployerDashboard.render_row
           (with_status (JNum 7) (shift (JStr "2024-01-15T09:00:00.000Z") JNull))
         = Ok row
         ∧ EmployerDashboard.row_punch_out row = "-".
Proof.
  destruct (render_row_total_on_status
              (with_status (JNum 7) (shift (JStr "2024-01-15T09:00:00.000Z") JNull))
              "Jan 15, 2024" "Ada" "ada@example.com" "09:00 AM" "-" "-" "-"
              (Some "a1"))
    as [Hrendered _];
    [exact eq_refl | exact eq_refl | exact eq_refl | exact eq_refl | exact eq_refl
     | exact eq_refl | exact eq_refl | exact eq_refl |].
  destruct Hrendered as (row & Hrow & _ & _ & _ & _ & Hout & _).
  { right. by exists "7". }
  exists row. split; [exact Hrow | exact Hout].
Defined.

Lemma counters_match_marks_witness :
  match MonthlyReport.render_rows
          [ shift (JStr "2024-01-15T09:00:00.000Z") JNull;
            with_status (JStr "break_exceeded")
              (with_complete (JBool true)
                 (shift (JStr "2024-01-16T09:00:00.000Z")
                        (JStr "2024-01-16T17:00:00.000Z"))) ]
  with
  | Ok rows =>
      count_where (λ row, is_marked (EmployerDashboard.row_hours_class row)) rows
      = 1%nat
  | Throw _ => False
  end.
Proof.
  destruct (MonthlyReport.render_rows
              [ shift (JStr "2024-01-15T09:00:00.000Z") JNull;
                with_status (JStr "break_exceeded")
                  (with_complete (JBool true)
                     (shift (JStr "2024-01-16T09:00:00.000Z")
                            (JStr "2024-01-16T17:00:00.000Z"))) ])
    as [rows | e] eqn:E.
  - destruct (counters_match_marks _ rows E) as (_ & Hmarks & _).
    rewrite Hmarks. reflexivity.
  - discriminate E.
Defined.

Section Badges.
Context `{Host}.

Lemma known_status_cases (key : string) :
  known_status key = true →
  key = "complete" ∨ key = "incomplete" ∨ key = "break_exceeded" ∨ key = "active".
Proof.
  unfold known_status. rewrite !orb_true_iff, !String.eqb_eq. tauto.
Qed.

(** X10. The two dashboards colour a status alike: for every value of
    the status that can be converted to a property key, when that key is
    not the name of a property of [Object.prototype], the class of the
    employer's badge is the style the employee view uses. *)
Theorem badges_agree (v : jsval) (key : string) :
  to_string v = Ok key →
  Object_prototype !! key = None →
  ∃ badge class,
    EmployerDashboard.getStatusBadge v = Ok badge
    ∧ get_prop badge "class" = Ok class
    ∧ EmployeeDashboard.getStatusBadge v = Ok class.
Proof.
  intros Hkey Hproto.
  rewrite (employer_badge_of_key v key Hkey), (employee_badge_of_key v key Hkey).
  destruct (known_status key) eqn:Hknown.
  - destruct (known_status_cases _ Hknown) as [-> | [-> | [-> | ->]]];
      eexists _, _; repeat split; exact eq_refl.
  - destruct (getStatusBadge_fallback _ Hknown Hproto) as [-> ->].
    eexists _, _. repeat split; exact eq_refl.
Qed.

End Badges.

Lemma badges_agree_witness :
  ∃ badge,
    EmployerDashboard.getStatusBadge (JStr "on_leave") = Ok badge
    ∧ get_prop badge "class" = Ok (JStr "bg-blue-50 text-blue-700 border-blue-200").
Proof.
  destruct (badges_agree (JStr "on_leave") "on_leave" eq_refl eq_refl)
    as (badge & class & Hbadge & Hclass & Hstyle).
  exists badge. split; [exact Hbadge |].
  rewrite Hclass. vm_compute in Hstyle. by injection Hstyle as <-.
Defined.

(** * Overlapping requests for the monthly report *)

Section Selection.
Context `{Host}.
Import EmployerDashboard MonthlyReport.

Lemma step_settled (m : machine) (i : nat) (r : reply (list AttendanceRecord))
    (request : Z * Z) :
  pending m !! i = Some request →
  step m (Settled i r)
  = Some ({| view := {| monthlyData := body_or r (monthlyData (view m));
                        loading := false;
                        selectedMonth := selectedMonth (view m);
                        selectedYear := selectedYear (view m) |};
             pending := delete i (pending m) |},
          failure_toast r "Failed to fetch monthly report").
Proof. intros Hi. cbn [step]. rewrite Hi. by destruct r. Qed.

Lemma reachable_spinner (m : machine) :
  reachable m → loading (view m) = true → pending m ≠ [].
Proof.
  induction 1 as [month year | m ev m' out _ IH Hstep]; [by cbn |].
  destruct ev as [v | v | i r]; cbn [step] in Hstep.
  - destruct (selectedMonth (view m) =? v); injection Hstep as <- <-;
      [exact IH | intros _; cbn; by destruct (pending m)].
  - destruct (selectedYear (view m) =? v); injection Hstep as <- <-;
      [exact IH | intros _; cbn; by destruct (pending m)].
  - destruct (pending m !! i); [| discriminate].
    destruct r; injection Hstep as <- <-; discriminate.
Qed.

(** X11. In every reachable state of the employer view a spinner means
    that a request is in flight; and the settlement of any request in
    flight, whichever selection it was issued for, removes the spinner,
    keeps the selection, and replaces the table when it is fulfilled
    (a failure keeps the rows that were shown and toasts). *)
Theorem spinner_and_settlement (m : machine) :
  reachable m →
  (loading (view m) = true → pending m ≠ [])
  ∧ (∀ i request r,
       pending m !! i = Some request →
       ∃ m', step m (Settled i r)
             = Some (m', failure_toast r "Failed to fetch monthly report")
             ∧ loading (view m') = false
             ∧ monthlyData (view m') = body_or r (monthlyData (view m))
             ∧ selectedMonth (view m') = selectedMonth (view m)
             ∧ selectedYear (view m') = selectedYear (view m)
             ∧ pending m' = delete i (pending m)).
Proof.
  intros Hreach. split; [by apply reachable_spinner |].
  intros i request r Hi. eexists. split; [by apply (step_settled m i r request) |].
  repeat split.
Qed.


End Selection.

Lemma spinner_and_settlement_witness :
  MonthlyReport.pending (MonthlyReport.mount 11 2026).1 ≠ [].
Proof.
  apply (spinner_and_settlement (MonthlyReport.mount 11 2026).1).
  - constructor.
  - reflexivity.
Defined.


(** * Rendering the employee's records *)

Section EmployeeRows.
Context `{Host}.
Import EmployeeDashboard.

Lemma render_history_row_status_absent (r : AttendanceRecord) :
  is_absent (status r) = true → throws (render_history_row r) = true.
Proof.
  intros Hstatus. unfold render_history_row.
  rewrite (status_replace_absent _ Hstatus). unfold_result.
  do 7 (apply throws_bind; intros ?). reflexivity.
Qed.

(** X13. Once the two punch times and the two hours cells of today's
    record can be rendered, the summary is rendered whenever the status
    is a string, known or not: it then shows the status in upper case
    with its first underscore replaced by a space, in the style
    [getStatusBadge] gives it.  For a status as the data of a response
    can hold it, this is the only case: an absent status, a number, a
    boolean or an object makes the summary throw. *)
Theorem render_summary_by_status (r : AttendanceRecord) (pin pout total break : string) :
  time_cell (punch_in r) = Ok pin →
  time_cell (punch_out r) = Ok pout →
  hours_cell (total_hours r) = Ok total →
  hours_cell (break_duration r) = Ok break →
  (∀ s, status r = JStr s →
        ∃ class,
          (badge ← getStatusBadge (JStr s); to_string badge) = Ok class
          ∧ render_summary (Some r)
            = Ok (Some {| sum_punch_in := pin;
                          sum_punch_out := pout;
                          sum_total_hours := total;
                          sum_break_duration := break;
                          sum_status_class := class;
                          sum_status_text := toUpperCase (replace_first "_" " " s) |}))
  ∧ (is_data (status r) = true →
     (throws (render_summary (Some r)) = false ↔ ∃ s, status r = JStr s)).
Proof.
  intros Hpin Hpout Htotal Hbreak.
  assert (Hstring : ∀ s, status r = JStr s →
            ∃ class,
              (badge ← getStatusBadge (JStr s); to_string badge) = Ok class
              ∧ render_summary (Some r)
                = Ok (Some {| sum_punch_in := pin;
                              sum_punch_out := pout;
                              sum_total_hours := total;
                              sum_break_duration := break;
                              sum_status_class := class;
                              sum_status_text
                                := toUpperCase (replace_first "_" " " s) |}))
    by (intros s; by apply render_summary_string).
  split; [exact Hstring |].
  intros _. split.
  - unfold render_summary. rewrite Hpin, Hpout, Htotal, Hbreak. unfold_result.
    cbn [bind].
    destruct (getStatusBadge (status r)) as [badge |]; cbn [bind]; [| discriminate].
    destruct (to_string badge); cbn [bind]; [| discriminate].
    destruct (status r); try discriminate. eauto.
  - intros [s Hs]. destruct (Hstring s Hs) as (class & _ & ->). reflexivity.
Qed.

Lemma render_history_rows (l : list AttendanceRecord) (rows : list history_row) :
  render_history l = Ok rows →
  Forall2 (λ r row, render_history_row r = Ok row) l rows.
Proof.
  revert rows. induction l as [| r l IH]; intros rows Hrows.
  - injection Hrows as <-. constructor.
  - cbn [render_history] in Hrows. bind_inv Hrows. injection Hrows as <-.
    constructor; [assumption | by apply IH].
Qed.

Lemma render_history_throws (l : list AttendanceRecord) :
  throws (render_history l) = true
  ↔ Exists (λ r, throws (render_history_row r) = true) l.
Proof.
  induction l as [| r l IH].
  - split; [discriminate | intros Hex; inversion Hex].
  - rewrite Exists_cons, <- IH. cbn [render_history]. unfold_result.
    destruct (render_history_row r); cbn [bind throws]; [| tauto].
    destruct (render_history l); cbn [bind throws]; intuition discriminate.
Qed.

(** X14. The history table is rendered all or nothing: when it is
    rendered there is one row per record, in order, each the rendering of
    its record; and it throws exactly when some row does, so that a
    single record without a status anywhere in the history takes the
    whole table down. *)
Theorem render_history_all_or_nothing (l : list AttendanceRecord) :
  (∀ rows, render_history l = Ok rows →
           length rows = length l
           ∧ Forall2 (λ r row, render_history_row r = Ok row) l rows)
  ∧ (throws (render_history l) = true
     ↔ Exists (λ r, throws (render_history_row r) = true) l)
  ∧ (∀ r, r ∈ l → is_absent (status r) = true →
          throws (render_history l) = true).
Proof.
  split; [| split].
  - intros rows Hrows. pose proof (render_history_rows l rows Hrows) as Hall.
    split; [symmetry; by eapply Forall2_length | exact Hall].
  - apply render_history_throws.
  - intros r Hr Hstatus. apply render_history_throws, Exists_exists.
    exists r. split; [exact Hr | by apply render_history_row_status_absent].
Qed.

End EmployeeRows.

(** A status that the client does not know is shown in upper case. *)
Lemma render_summary_by_status_witness :
  ∃ shown,
    EmployeeDashboard.render_summary
      (Some (with_status (JStr "on_leave")
               (shift (JStr "2024-01-15T09:00:00.000Z") JNull)))
    = Ok (Some shown)
    ∧ EmployeeDashboard.sum_status_text shown = "ON LEAVE".
Proof.
  destruct (render_summary_by_status
              (with_status (JStr "on_leave")
                 (shift (JStr "2024-01-15T09:00:00.000Z") JNull))
              "09:00 AM" "-" "-" "-") as [Hstring _];
    [exact eq_refl | exact eq_refl | exact eq_refl | exact eq_refl |].
  destruct (Hstring "on_leave" eq_refl) as (class & _ & Hshown).
  eexists. split; [exact Hshown | exact eq_refl].
Defined.

(** * Logging out and routing *)

Section Routing.
Context `{Host}.

Lemma render_loaded (st : App.state) :
  App.loading st = false →
  App.render st "/auth"
  = Ok (if truthy (App.user st) then App.Navigate "/" else App.AuthPage)
  ∧ (truthy (App.user st) = false → App.render st "/" = Ok (App.Navigate "/auth"))
  ∧ (truthy (App.user st) = true →
     ∃ role, get_prop (App.user st) "role" = Ok role
             ∧ App.render st "/"
               = Ok (if strict_eq_str role "employee"
                     then App.EmployeeDashboard (App.user st)
                     else App.EmployerDashboard (App.user st))).
Proof.
  intros Hl. unfold App.render. rewrite Hl. cbn [String.eqb Ascii.eqb].
  cbn. split; [by destruct (truthy (App.user st)) |]. split.
  - by intros ->.
  - intros Hu. rewrite Hu. destruct (get_prop_truthy _ "role" Hu) as [role Hrole].
    exists role. split; [exact Hrole |]. rewrite Hrole. reflexivity.
Qed.

Lemma all_slashes_app (s : string) :
  App.all_slashes (s +:+ "/") = App.all_slashes s.
Proof.
  induction s as [| c s IH]; [reflexivity |].
  change (String c s +:+ "/") with (String c (s +:+ "/")).
  cbn [App.all_slashes]. by rewrite IH.
Qed.

Lemma drop_trailing_slashes_app (s : string) :
  App.drop_trailing_slashes (s +:+ "/") = App.drop_trailing_slashes s.
Proof.
  induction s as [| c s IH]; [reflexivity |].
  change (String c s +:+ "/") with (String c (s +:+ "/")).
  cbn [App.drop_trailing_slashes].
  change (String c (s +:+ "/")) with (String c s +:+ "/").
  by rewrite all_slashes_app, IH.
Qed.

Lemma map_string_app (f : ascii → ascii) (s t : string) :
  map_string f (s +:+ t) = map_string f s +:+ map_string f t.
Proof.
  induction s as [| c s IH]; [reflexivity |].
  change (String c s +:+ t) with (String c (s +:+ t)).
  cbn [map_string]. rewrite IH. reflexivity.
Qed.

Lemma map_string_empty (f : ascii → ascii) (s : string) :
  String.eqb (map_string f s) "" = String.eqb s "".
Proof. by destruct s. Qed.

(** A route matches whatever the letter case of the pathname, and
    whether or not a slash ends it. *)
Lemma route_matches_fold (path pathname pathname' : string) :
  map_string lower_ascii pathname' = map_string lower_ascii pathname →
  App.route_matches path pathname' = App.route_matches path pathname.
Proof.
  intros Heq. unfold App.route_matches. rewrite Heq.
  by rewrite <- (map_string_empty lower_ascii pathname'), Heq, map_string_empty.
Qed.

Lemma route_matches_slash (path pathname : string) :
  pathname ≠ "" →
  App.route_matches path (pathname +:+ "/") = App.route_matches path pathname.
Proof.
  intros Hne. unfold App.route_matches.
  rewrite map_string_app. change (map_string lower_ascii "/") with "/".
  rewrite drop_trailing_slashes_app.
  destruct pathname; [done | reflexivity].
Qed.

Lemma render_by_route (st : App.state) (pathname : string) :
  App.render st pathname
  = if App.route_matches "/auth" pathname then App.render st "/auth"
    else if App.route_matches "/" pathname then App.render st "/"
         else if App.loading st then Ok App.Spinner else Ok App.NoRoute.
Proof.
  unfold App.render. destruct (App.loading st).
  - by destruct (App.route_matches "/auth" pathname), (App.route_matches "/" pathname).
  - change (App.route_matches "/auth" "/auth") with true.
    change (App.route_matches "/auth" "/") with false.
    change (App.route_matches "/" "/") with true.
    by destruct (App.route_matches "/auth" pathname), (App.route_matches "/" pathname).
Qed.

(** X15. Once the startup effect has run the router never throws and
    never redirects twice: a redirect leads to a route that shows a page.
    A user is sent to the employee dashboard exactly when its [role] is
    the string "employee"; every other user that is truthy, whatever its
    role or without one, gets the employer dashboard.  The two routes
    are matched whatever the letter case of the pathname and whether or
    not a slash ends it; a pathname that matches neither shows
    nothing. *)
Theorem routing (st : App.state) :
  App.loading st = false →
  (∀ path, ∃ screen, App.render st path = Ok screen)
  ∧ (∀ path to, App.render st path = Ok (App.Navigate to) →
       ∃ screen, App.render st to = Ok screen ∧ ∀ again, screen ≠ App.Navigate again)
  ∧ (truthy (App.user st) = true →
     ∃ role, get_prop (App.user st) "role" = Ok role
             ∧ App.render st "/"
               = Ok (if strict_eq_str role "employee"
                     then App.EmployeeDashboard (App.user st)
                     else App.EmployerDashboard (App.user st)))
  ∧ (∀ path, App.route_matches "/auth" path = false →
             App.route_matches "/" path = false →
             App.render st path = Ok App.NoRoute)
  ∧ (∀ path path',
       map_string lower_ascii path' = map_string lower_ascii path →
       App.render st path' = App.render st path)
  ∧ (∀ path, path ≠ "" → App.render st (path +:+ "/") = App.render st path).
Proof.
  intros Hl. destruct (render_loaded st Hl) as (Hauth & Hanon & Huser).
  assert (Hother : ∀ path, App.route_matches "/auth" path = false →
                           App.route_matches "/" path = false →
                           App.render st path = Ok App.NoRoute).
  { intros path H1 H2. by rewrite render_by_route, H1, H2, Hl. }
  assert (Hroot : ∃ screen, App.render st "/" = Ok screen
                            ∧ (truthy (App.user st) = true →
                               ∀ again, screen ≠ App.Navigate again)
                            ∧ (truthy (App.user st) = false →
                               screen = App.Navigate "/auth")).
  { destruct (truthy (App.user st)) eqn:Hu.
    - destruct (Huser eq_refl) as (role & _ & Hrender).
      eexists. split; [exact Hrender |].
      split; [| discriminate]. intros _ again.
      by destruct (strict_eq_str role "employee").
    - exists (App.Navigate "/auth"). split; [exact (Hanon eq_refl) |]. by split. }
  split; [| split; [| split; [exact Huser | split; [exact Hother | split]]]].
  - intros path. rewrite render_by_route, Hl.
    destruct (App.route_matches "/auth" path); [rewrite Hauth; eauto |].
    destruct (App.route_matches "/" path); [| eauto].
    destruct Hroot as (screen & -> & _). eauto.
  - intros path to. rewrite render_by_route, Hl.
    destruct (App.route_matches "/auth" path).
    + rewrite Hauth. destruct (truthy (App.user st)) eqn:Hu; [| discriminate].
      intros [= <-]. destruct Hroot as (screen & Hscreen & Hin & _).
      exists screen. split; [exact Hscreen | by apply Hin].
    + destruct (App.route_matches "/" path); [| discriminate].
      destruct Hroot as (screen & Hscreen & Hin & Hout). rewrite Hscreen.
      intros [= ->].
      destruct (truthy (App.user st)) eqn:Hu; [by destruct (Hin eq_refl to) |].
      specialize (Hout eq_refl). injection Hout as ->.
      exists App.AuthPage. split; [| discriminate].
      rewrite Hauth. by rewrite ?Hu.
  - intros path path' Heq.
    by rewrite (render_by_route st path'), (render_by_route st path),
      !(route_matches_fold _ path path' Heq).
  - intros path Hne.
    by rewrite (render_by_route st (path +:+ "/")), (render_by_route st path),
      !(route_matches_slash _ path Hne).
Qed.

(** What a login that does not throw has stored. *)
Lemma handleLogin_stored (token u : jsval) (storage stored : gmap string string)
    (st logged_in : App.state) (out : list effect) :
  App.handleLogin token u storage st = Ok (stored, logged_in, out) →
  ∃ token_text, to_string token = Ok token_text
                ∧ stored = <["user" := default "undefined" (JSON_stringify u)]>
                             (<["token" := token_text]> storage)
                ∧ logged_in = {| App.user := u; App.loading := App.loading st |}.
Proof.
  unfold App.handleLogin, App.setItem. intros Hlogin. bind_inv Hlogin.
  injection Hlogin as <- <- <-.
  exists a. split; [reflexivity |]. split; [| reflexivity].
  destruct (JSON_stringify u); cbn in E0; by injection E0 as <-.
Qed.

(** X16. Logging out removes the token and the user from the storage
    and touches no other key; a reload then finds nobody logged in and
    the root route redirects to the login page.  Logging out undoes a
    login as far as the storage goes, and logging out twice is logging
    out once. *)
Theorem logout_clears (storage : gmap string string) (st : App.state) :
  let cleared := (App.handleLogout storage st).1 in
  App.getItem cleared "token" = JNull
  ∧ App.getItem cleared "user" = JNull
  ∧ (∀ key, key ≠ "token" → key ≠ "user" → cleared !! key = storage !! key)
  ∧ App.user (App.handleLogout storage st).2 = JNull
  ∧ App.reload cleared = Ok ({| App.user := JNull; App.loading := false |}, [])
  ∧ App.render {| App.user := JNull; App.loading := false |} "/"
    = Ok (App.Navigate "/auth")
  ∧ (∀ token u st' stored logged_in out,
       App.handleLogin token u storage st = Ok (stored, logged_in, out) →
       (App.handleLogout stored st').1 = cleared)
  ∧ (∀ st', (App.handleLogout cleared st').1 = cleared).
Proof.
  intros cleared. unfold cleared, App.handleLogout, App.getItem. cbn [fst snd].
  split; [by rewrite lookup_delete_ne, lookup_delete_eq |].
  split; [by rewrite lookup_delete_eq |].
  split; [intros key H1 H2; by rewrite !lookup_delete_ne |].
  split; [reflexivity |].
  split; [apply reload_unauthenticated; right; apply lookup_delete_eq |].
  split; [reflexivity |].
  split.
  - intros token u st' stored logged_in out Hlogin.
    destruct (handleLogin_stored _ _ _ _ _ _ _ Hlogin) as (text & _ & -> & _).
    apply map_eq. intros key.
    destruct (decide (key = "user")) as [-> | H2]; [by rewrite !lookup_delete_eq |].
    destruct (decide (key = "token")) as [-> | H1].
    + by rewrite !(lookup_delete_ne _ "user"), !lookup_delete_eq.
    + by rewrite !lookup_delete_ne, !lookup_insert_ne.
  - intros st'. apply map_eq. intros key.
    destruct (decide (key = "user")) as [-> | H2]; [by rewrite !lookup_delete_eq |].
    destruct (decide (key = "token")) as [-> | H1].
    + by rewrite !(lookup_delete_ne _ "user"), !lookup_delete_eq.
    + by rewrite !lookup_delete_ne.
Qed.


(** X20. What is stored as the token is the text of whatever the
    response holds.  With an empty token the user is set at once, but
    the next reload finds nobody logged in.  With no token at all the
    text "undefined" is stored, and the next reload takes it for a
    token: it restores every user that [JSON.parse] reads back. *)
Theorem login_token_edge_cases (u : jsval) (storage : gmap string string)
    (st : App.state) :
  (∃ stored,
     App.handleLogin (JStr "") u storage st
     = Ok (stored, {| App.user := u; App.loading := App.loading st |},
           [ SetItem "token" ""; SetItem "user" (default "undefined" (JSON_stringify u)) ])
     ∧ App.reload stored = Ok ({| App.user := JNull; App.loading := false |}, []))
  ∧ (∃ stored,
       App.handleLogin JUndefined u storage st
       = Ok (stored, {| App.user := u; App.loading := App.loading st |},
             [ SetItem "token" "undefined";
               SetItem "user" (default "undefined" (JSON_stringify u)) ])
       ∧ stored !! "token" = Some "undefined"
       ∧ (∀ j, JSON_stringify u = Some j → j ≠ "" → JSON_parse j = Ok u →
               App.reload stored = Ok ({| App.user := u; App.loading := false |}, []))).
Proof.
  split.
  - eexists. split; [by rewrite handleLogin_string |].
    unfold App.reload, App.on_mount, App.getItem.
    rewrite lookup_insert_eq, lookup_insert_ne, lookup_insert_eq by done.
    exact eq_refl.
  - eexists. split; [by apply (handleLogin_text JUndefined u "undefined") |].
    split; [by rewrite lookup_insert_ne, lookup_insert_eq |].
    intros j Hj Hne Hparse. rewrite Hj. cbn [default].
    unfold App.reload, App.on_mount, App.getItem.
    rewrite lookup_insert_eq, lookup_insert_ne, lookup_insert_eq by done.
    unfold js_and, id. change (truthy (JStr "undefined")) with true. cbn iota.
    rewrite (truthy_string j Hne).
    unfold to_string, to_primitive, primitive_to_string. unfold_result. cbn. by rewrite Hparse.
Qed.

End Routing.

Lemma routing_witness :
  App.render {| App.user := ada; App.loading := false |} "/auth"
  = Ok (App.Navigate "/")
  ∧ ∃ screen, App.render {| App.user := ada; App.loading := false |} "/" = Ok screen
              ∧ ∀ again, screen ≠ App.Navigate again.
Proof.
  split; [reflexivity |].
  destruct (routing {| App.user := ada; App.loading := false |} eq_refl)
    as (_ & Hredirect & _).
  apply (Hredirect "/auth" "/"). reflexivity.
Defined.


(** A response without a token logs the user in for good. *)
Lemma login_token_edge_cases_witness :
  ∃ stored logged_in out,
    App.handleLogin JUndefined ada ∅ App.initial = Ok (stored, logged_in, out)
    ∧ App.reload stored = Ok ({| App.user := ada; App.loading := false |}, []).
Proof.
  destruct (login_token_edge_cases ada ∅ App.initial)
    as (_ & stored & Hlogin & _ & Hreload).
  eexists stored, _, _. split; [exact Hlogin |].
  apply (Hreload (default "" (JSON_stringify ada))); [reflexivity | | reflexivity].
  vm_compute. discriminate.
Defined.

(** * The login and registration form *)

Section AuthForms.
Context `{Host}.
Import AuthPage AuthForm.

Lemma step_form_invariant (m : machine) (ev : event) (m' : machine)
    (out : list effect) :
  form_invariant m → step m ev = Some (m', out) → form_invariant m'.
Proof.
  unfold form_invariant. intros [Hrole Hrun] Hstep.
  destruct ev as [[] value | employer | v | | i r]; cbn [step] in Hstep.
  - by injection Hstep as <- <-.
  - by injection Hstep as <- <-.
  - destruct (isLogin (view m)); [discriminate | by injection Hstep as <- <-].
  - destruct (isLogin (view m)); [discriminate |]. injection Hstep as <- <-.
    split; [| exact Hrun]. cbn. destruct employer; tauto.
  - by injection Hstep as <- <-.
  - destruct (loading (view m)) eqn:Hl; [discriminate |].
    injection Hstep as <- <-. split; [exact Hrole |].
    cbn. rewrite length_app, Hrun. reflexivity.
  - destruct (running m !! i) as [submitted |] eqn:Hi; [| discriminate].
    injection Hstep as <- <-. split; [exact Hrole |]. cbn.
    rewrite length_delete by eauto. pose proof (lookup_lt_Some _ _ _ Hi) as Hlt.
    destruct (loading (view m)); lia.
Qed.

Lemma reachable_form_invariant (m : machine) : reachable m → form_invariant m.
Proof.
  induction 1 as [| m ev m' out _ IH Hstep]; [split; [by left | reflexivity] |].
  by eapply step_form_invariant.
Qed.

(** X18. In every reachable state of the login and registration form:
    the role is "employee" or "employer"; a submission is in flight
    exactly while [loading] is set, at most one, and none can be started
    meanwhile; its settlement, fulfilled or rejected, clears [loading] and
    leaves the entries and the selected tab as they are, and the toast of
    a success names what was submitted, not the tab shown by then.  The
    body of a login has no name and no role; that of a registration
    carries the role. *)
Theorem auth_form_invariant (m : machine) :
  reachable m →
  form_invariant m
  ∧ (loading (view m) = true → step m Submit = None)
  ∧ (∀ (i : nat) (submitted : bool) (r : reply jsval),
       running m !! i = Some submitted →
       ∃ m' out, step m (Settled i r) = Some (m', out)
                 ∧ loading (view m') = false
                 ∧ running m' = []
                 ∧ formData (view m') = formData (view m)
                 ∧ isLogin (view m') = isLogin (view m)
                 ∧ (∀ body, r = Fulfilled body →
                      head out = Some (ToastSuccess
                                         (if submitted then "Logged in successfully!"
                                          else "Account created successfully!"))))
  ∧ (isLogin (view m) = true →
     get_prop (payload (view m)) "name" = Ok JUndefined
     ∧ get_prop (payload (view m)) "role" = Ok JUndefined)
  ∧ (isLogin (view m) = false →
     get_prop (payload (view m)) "role" = Ok (JStr "employee")
     ∨ get_prop (payload (view m)) "role" = Ok (JStr "employer")).
Proof.
  intros Hreach. pose proof (reachable_form_invariant m Hreach) as Hinv.
  split; [exact Hinv |]. destruct Hinv as [Hrole Hrun].
  split; [| split; [| split]].
  - intros Hl. cbn [step]. by rewrite Hl.
  - intros i submitted r Hi. cbn [step]. rewrite Hi. eexists _, _.
    split; [reflexivity |]. cbn [view running].
    split; [reflexivity |]. split.
    + pose proof (lookup_lt_Some _ _ _ Hi) as Hlt.
      destruct (running m) as [| b [| b' l]]; cbn in *;
        [lia | by destruct i as [| []] | destruct (loading (view m)); lia].
    + split; [reflexivity |]. split; [reflexivity |].
      intros body ->. reflexivity.
  - intros Htab. unfold payload. rewrite Htab. split; reflexivity.
  - intros Htab. unfold payload. rewrite Htab.
    destruct Hrole as [Hr | Hr]; [left | right]; cbn; by rewrite <- Hr.
Qed.

End AuthForms.

Lemma auth_form_invariant_witness :
  AuthForm.step
    {| AuthForm.view := AuthPage.set_loading true AuthForm.initial;
       AuthForm.running := [ true ] |}
    AuthForm.Submit
  = None.
Proof.
  apply (auth_form_invariant
           {| AuthForm.view := AuthPage.set_loading true AuthForm.initial;
              AuthForm.running := [ true ] |}).
  - apply (AuthForm.reachable_step AuthForm.mount AuthForm.Submit _
             [ HttpPost "/auth/login" ]); [constructor | reflexivity].
  - reflexivity.
Defined.

(** * The stand-alone login form *)

Section StandAlone.
Context `{Host}.
Import LoginForm.

(** X19. Whenever the login of the stand-alone form ends without a
    throw, a response has arrived with a JSON body and the last thing
    done is an alert.  Unless the response is [ok] the storage is left as
    it was and the alert shows the [detail] of the body as text.  On an
    [ok] response the token and the role are stored as text, but never a
    user: on a storage that held no user the startup check of App.js
    still finds nobody logged in. *)
Theorem login_form_outcomes (o : outcome) (storage storage' : gmap string string)
    (out : list action) :
  login_settled o storage = Ok (storage', out) →
  ∃ res data,
    o = Replied res ∧ json res = Ok data
    ∧ (∃ text, last out = Some (Alert text))
    ∧ storage' !! "user" = storage !! "user"
    ∧ (ok res = false →
       storage' = storage
       ∧ ∃ detail text, get_prop data "detail" = Ok detail
                        ∧ to_string detail = Ok text
                        ∧ out = [ Alert text ])
    ∧ (ok res = true →
       ∃ token role token_text role_text,
         get_prop data "access_token" = Ok token
         ∧ get_prop data "role" = Ok role
         ∧ to_string token = Ok token_text
         ∧ to_string role = Ok role_text
         ∧ storage' !! "token" = Some token_text
         ∧ storage' !! "role" = Some role_text)
    ∧ (storage !! "user" = None →
       App.reload storage' = Ok ({| App.user := JNull; App.loading := false |}, [])).
Proof.
  intros Hsettled. destruct o as [| res]; [discriminate |].
  cbn [login_settled] in Hsettled. unfold App.setItem in Hsettled.
  destruct (ok res) eqn:Hok; bind_inv Hsettled;
    injection Hsettled as Hs Ho; subst storage' out.
  - exists res, a. split; [reflexivity |]. split; [exact E |].
    assert (Huser : <["role" := a3]> (<["token" := a1]> storage) !! "user"
                    = storage !! "user")
      by (by rewrite !lookup_insert_ne).
    split; [by eexists |]. split; [exact Huser |].
    split; [intros ?; congruence |]. split.
    + intros _. exists a0, a2, a1, a3. repeat split; try assumption.
      * by rewrite lookup_insert_ne, lookup_insert_eq.
      * by rewrite lookup_insert_eq.
    + intros Hnone. apply reload_unauthenticated. right. by rewrite Huser.
  - exists res, a. split; [reflexivity |]. split; [exact E |].
    split; [by eexists |]. split; [reflexivity |].
    split; [intros _; split; [reflexivity | by exists a0, a1] |].
    split; [intros ?; congruence |].
    intros Hnone. apply reload_unauthenticated. by right.
Qed.

End StandAlone.

Lemma login_form_outcomes_witness :
  match LoginForm.login_settled
          (LoginForm.Replied
             {| LoginForm.ok := true;
                LoginForm.json := Ok (JObj [ ("access_token", JStr "tok-123") ]) |})
          ∅
  with
  | Ok (storage', _) =>
      storage' !! "role" = Some "undefined"
      ∧ App.reload storage' = Ok ({| App.user := JNull; App.loading := false |}, [])
  | Throw _ => False
  end.
Proof.
  destruct (LoginForm.login_settled
              (LoginForm.Replied
                 {| LoginForm.ok := true;
                    LoginForm.json := Ok (JObj [ ("access_token", JStr "tok-123") ]) |})
              ∅) as [[storage' out] | e] eqn:E; [| discriminate E].
  destruct (login_form_outcomes _ _ _ _ E)
    as (res & data & Hres & Hdata & _ & _ & _ & Hok & Hreload).
  injection Hres as <-. injection Hdata as <-.
  destruct (Hok eq_refl) as (token & role & token_text & role_text
                             & _ & Hrole & _ & Htext & _ & Hstored).
  injection Hrole as <-. injection Htext as <-.
  split; [exact Hstored | by apply Hreload].
Defined.
